(** * Polymarket trading core: streaming client, market maker, arbitrage detector

    A shallow embedding of
    - [PolymarketWebSocket] ([src/lib/polymarket/websocket.ts]),
    - [MarketMaker] ([src/lib/strategies/market-maker.ts]),
    - [ArbitrageDetector] (the arbitrage strategy, whose text follows the
      markets route in [src/app/api/markets/route.ts]),
    - [getPortfolioData] of the bot status route,
    - the interfaces of the Polymarket type definitions,
    followed by the properties of the specification that concern them and
    by further properties of the code.

    JavaScript numbers are IEEE 754 binary64 values: they are modelled by
    Rocq's primitive [float]s, whose operations are the same hardware
    operations.  [parseFloat] and [Number.prototype.toFixed] are written out
    after ECMA-262, with exact integer arithmetic on the mantissa and
    exponent given by [Prim2SF].  Strings are sequences of bytes (UTF-8).
    Counters and millisecond intervals are integers.  Maps are [gmap]s; the
    few places where the source enumerates a [Map] (the asset lists of a
    re-subscription frame, [stopAll]) follow the [gmap] order instead of
    insertion order, and nothing below depends on that order.  Console
    output is not modelled. *)

From Stdlib Require Import ZArith String Ascii List Bool Lia Floats DecimalString.
From stdpp Require Import base option list gmap strings.

Set Warnings "-inexact-float,-register-all".
#[local] Open Scope string_scope.
#[local] Open Scope list_scope.
#[local] Open Scope Z_scope.

(* ===================================================================== *)
(** * JavaScript numbers *)
(* ===================================================================== *)

Module JS.

Definition number := float.
Bind Scope float_scope with number.

(** [x === y], [x < y], [x > y], [x >= y] on numbers. *)
Definition strict_eq (x y : number) : bool := (x =? y)%float.
Definition lt (x y : number) : bool := (x <? y)%float.
Definition gt (x y : number) : bool := (y <? x)%float.
Definition le (x y : number) : bool := (x <=? y)%float.
Definition ge (x y : number) : bool := (y <=? x)%float.

Definition is_pos_zero (x : number) : bool :=
  match Prim2SF x with S754_zero false => true | _ => false end.
Definition is_neg_zero (x : number) : bool :=
  match Prim2SF x with S754_zero true => true | _ => false end.

(** [Math.min(a, b)] and [Math.max(a, b)] (ECMA-262 21.3.2.24/25): NaN if
    either argument is NaN, and -0 is smaller than +0. *)
Definition Math_min (a b : number) : number :=
  if is_nan a || is_nan b then nan
  else if is_neg_zero b && is_pos_zero a then b
  else if lt b a then b else a.

Definition Math_max (a b : number) : number :=
  if is_nan a || is_nan b then nan
  else if is_pos_zero b && is_neg_zero a then b
  else if gt b a then b else a.

(** ** Decimal text to number *)

(** The binary64 value nearest to [(-1)^neg * N * 10^E] (ties to even). *)
Definition round_decimal (neg : bool) (N E : Z) : number :=
  match N with
  | Zpos n =>
      if 0 <=? E
      then SF2Prim (binary_normalize prec emax
                      ((if neg then -1 else 1) * (N * 10 ^ E)) 0 false)
      else SF2Prim (SFdiv prec emax (S754_finite neg n 0)
                      (S754_finite false (Z.to_pos (10 ^ (- E))) 0))
  | _ => if neg then neg_zero else zero
  end.

Definition digit_value (c : ascii) : option Z :=
  let n := Z.of_N (N_of_ascii c) in
  if (48 <=? n) && (n <=? 57) then Some (n - 48) else None.

(** Longest run of decimal digits at the head of [s], continuing the value
    [acc] and the count [cnt]; returns the rest of the string too. *)
Fixpoint take_digits (s : string) (acc cnt : Z) : Z * Z * string :=
  match s with
  | String c r =>
      match digit_value c with
      | Some d => take_digits r (10 * acc + d) (cnt + 1)
      | None => (acc, cnt, s)
      end
  | EmptyString => (acc, cnt, s)
  end.

(** Three-byte UTF-8 encodings of the WhiteSpace and LineTerminator code
    points above U+00FF. *)
Definition is_ws3 (a b c : N) : bool :=
  ((a =? 239) && (b =? 187) && (c =? 191)
   || (a =? 225) && (b =? 154) && (c =? 128)
   || (a =? 226) && (b =? 128) && (128 <=? c) && (c <=? 138)
   || (a =? 226) && (b =? 128) && ((c =? 168) || (c =? 169) || (c =? 175))
   || (a =? 226) && (b =? 129) && (c =? 159)
   || (a =? 227) && (b =? 128) && (c =? 128))%N.

Definition strip_ws1 (s : string) : option string :=
  match s with
  | String c1 r1 =>
      let n1 := N_of_ascii c1 in
      if ((9 <=? n1) && (n1 <=? 13) || (n1 =? 32))%N then Some r1
      else match r1 with
           | String c2 r2 =>
               let n2 := N_of_ascii c2 in
               if ((n1 =? 194) && (n2 =? 160))%N then Some r2
               else match r2 with
                    | String c3 r3 =>
                        if is_ws3 n1 n2 (N_of_ascii c3) then Some r3 else None
                    | EmptyString => None
                    end
           | EmptyString => None
           end
  | EmptyString => None
  end.

Fixpoint trim_start_aux (fuel : nat) (s : string) : string :=
  match fuel with
  | O => s
  | S fuel' => match strip_ws1 s with
               | Some r => trim_start_aux fuel' r
               | None => s
               end
  end.

Definition trimStart (s : string) : string :=
  trim_start_aux (String.length s) s.

Definition read_sign (s : string) : bool * string :=
  match s with
  | String "+" r => (false, r)
  | String "-" r => (true, r)
  | _ => (false, s)
  end.

(** The value of an ExponentPart at the head of [s]; 0 when there is no
    complete one (then the literal ends before it). *)
Definition read_exponent (s : string) : Z :=
  match s with
  | String c r =>
      if (Ascii.eqb c "e" || Ascii.eqb c "E")%bool then
        let '(neg, r') := read_sign r in
        let '(v, cnt, _) := take_digits r' 0 0 in
        if cnt =? 0 then 0 else if neg then - v else v
      else 0
  | EmptyString => 0
  end.

(** [parseFloat(input)] (ECMA-262 19.2.4): leading white space is skipped,
    the longest prefix that is a StrDecimalLiteral is converted, and the
    result is NaN when there is no such prefix. *)
Definition parseFloat (input : string) : number :=
  let '(neg, s) := read_sign (trimStart input) in
  if String.prefix "Infinity" s then (if neg then neg_infinity else infinity)
  else
    let '(i, ci, r1) := take_digits s 0 0 in
    match r1 with
    | String "." r2 =>
        let '(m, cf, r3) := take_digits r2 i 0 in
        if (ci =? 0) && (cf =? 0) then nan
        else round_decimal neg m (read_exponent r3 - cf)
    | _ =>
        if ci =? 0 then nan else round_decimal neg i (read_exponent r1)
    end.

(** ** Number to decimal text *)

Definition digits (n : Z) : string :=
  NilZero.string_of_uint (N.to_uint (Z.to_N n)).

Fixpoint zeros (k : nat) : string :=
  match k with O => EmptyString | S k' => String "0" (zeros k') end.

Definition substring_from (i : nat) (s : string) : string :=
  String.substring i (String.length s - i) s.

(** Steps 10.b-10.d of [toFixed]: the integer [n] written with [f] digits
    after the decimal point. *)
Definition fixed_notation (n : Z) (f : nat) : string :=
  let m := digits n in
  let k := String.length m in
  let m := if (k <=? f)%nat then zeros (f + 1 - k) +:+ m else m in
  let k := String.length m in
  if (f =? 0)%nat then m
  else String.substring 0 (k - f) m +:+ "." +:+ substring_from (k - f) m.

(** The integer [n] for which [n / 10^f - m * 2^e] is closest to zero, the
    larger one when there are two. *)
Definition scaled_round (m : positive) (e : Z) (f : nat) : Z :=
  let t := Zpos m * 10 ^ Z.of_nat f in
  if 0 <=? e then t * 2 ^ e
  else (2 * t + 2 ^ (- e)) / 2 ^ (- e + 1).

Definition at_least_1e21 (m : positive) (e : Z) : bool :=
  if 0 <=? e then 10 ^ 21 <=? Zpos m * 2 ^ e
  else 10 ^ 21 * 2 ^ (- e) <=? Zpos m.

Definition round_trips (x : number) (v : Z) : bool :=
  (SF2Prim (binary_normalize prec emax v 0 false) =? x)%float.

(** [Number::toString] for an integer-valued [x = X >= 10^21]: the fewest
    digits [k] such that some [s * 10^(nd-k)] converts back to [x]; among
    the candidates the one closest to [X], the even one on a tie. *)
Definition candidate (x : number) (X nd k : Z) : option Z :=
  let p := 10 ^ (nd - k) in
  let lo := X / p in
  let hi := lo + 1 in
  match round_trips x (lo * p), round_trips x (hi * p) with
  | true, true =>
      match (X - lo * p) ?= (hi * p - X) with
      | Lt => Some lo
      | Gt => Some hi
      | Eq => Some (if Z.even lo then lo else hi)
      end
  | true, false => Some lo
  | false, true => Some hi
  | false, false => None
  end.

Fixpoint shortest (x : number) (X nd k : Z) (fuel : nat) : Z * Z :=
  match fuel with
  | O => (X, nd)
  | S fuel' =>
      match candidate x X nd k with
      | Some s => (s, k)
      | None => shortest x X nd (k + 1) fuel'
      end
  end.

Definition exponential_notation (x : number) (X : Z) : string :=
  let nd := Z.of_nat (String.length (digits X)) in
  let '(s, k) := shortest x X nd 1 17 in
  let '(ds, n) :=
    if s =? 10 ^ k then (digits (s / 10), nd + 1) else (digits s, nd) in
  let ds := match ds with
            | String d EmptyString => ds
            | String d r => String d ("." +:+ r)
            | EmptyString => ds
            end in
  ds +:+ "e+" +:+ digits (n - 1).

(** [x.toFixed(f)] (ECMA-262 21.1.3.3), for [0 <= f <= 100]. *)
Definition toFixed (x : number) (f : nat) : string :=
  match Prim2SF x with
  | S754_nan => "NaN"
  | S754_infinity s => if s then "-Infinity" else "Infinity"
  | S754_zero _ => fixed_notation 0 f
  | S754_finite s m e =>
      (if s then "-" else "") +:+
      (if at_least_1e21 m e
       then exponential_notation (abs x) (Zpos m * 2 ^ e)
       else fixed_notation (scaled_round m e f) f)
  end.

(** ** Values produced by [JSON.parse], and [undefined] *)

Inductive value :=
| VUndefined
| VNull
| VBool (b : bool)
| VNum (n : number)
| VStr (s : string)
| VArr (items : list value)
| VObj (props : list (string * value)).

(** ToBoolean *)
Definition truthy (v : value) : bool :=
  match v with
  | VUndefined | VNull => false
  | VBool b => b
  | VNum n => negb (is_nan n || is_zero n)
  | VStr s => negb (String.eqb s "")
  | VArr _ | VObj _ => true
  end.

Fixpoint own_property (props : list (string * value)) (k : string) : value :=
  match props with
  | [] => VUndefined
  | (k', v) :: r => if String.eqb k' k then v else own_property r k
  end.

(** [v.k] for the property names the client reads ([type], [data],
    [asset_id], [market], [bids], [asks], [timestamp], [price]); [None] is
    the TypeError raised on [null] and [undefined].  None of these names is
    an inherited property of a primitive or an array. *)
Definition get (v : value) (k : string) : option value :=
  match v with
  | VUndefined | VNull => None
  | VObj props => Some (own_property props k)
  | _ => Some VUndefined
  end.

(** [a || b] *)
Definition or_else (a b : value) : value := if truthy a then a else b.

End JS.

(* ===================================================================== *)
(** * Type definitions *)
(* ===================================================================== *)

Module OrderBookEntry.
Record t := { price : string; size : string }.
End OrderBookEntry.

Module OrderBook.
Record t := {
  market : string;
  asset_id : string;
  bids : list OrderBookEntry.t;
  asks : list OrderBookEntry.t;
  timestamp : string }.
End OrderBook.

Inductive Action := BUY | SELL.
Inductive Outcome := YES | NO.
Inductive OrderStatus := LIVE | MATCHED | CANCELLED.

Module Order.
Record t := {
  id : string;
  market : string;
  asset_id : string;
  side : Action;
  price : string;
  size : string;
  status : OrderStatus;
  created_at : string }.
End Order.

Module TradeSignal.
Record t := {
  market : string;
  asset_id : string;
  action : Action;
  side : Outcome;
  price : string;
  size : string;
  reason : string }.
End TradeSignal.

Module ArbitrageOpportunity.
Record t := {
  markets : list string;
  spread : JS.number;
  expectedProfit : JS.number;
  signals : list TradeSignal.t }.
End ArbitrageOpportunity.

Module MarketMakerConfig.
Record t := {
  spread : JS.number;
  orderSize : string;
  maxPosition : string;
  minLiquidity : string;
  refreshInterval : JS.number }.
End MarketMakerConfig.

Module ArbitrageConfig.
Record t := {
  minSpread : JS.number;
  maxSlippage : JS.number;
  orderSize : string }.
End ArbitrageConfig.

(* ===================================================================== *)
(** * The arbitrage strategy *)
(* ===================================================================== *)

Module Arbitrage.

Definition DEFAULT_CONFIG : ArbitrageConfig.t :=
  {| ArbitrageConfig.minSpread := 0.01%float;
     ArbitrageConfig.maxSlippage := 0.005%float;
     ArbitrageConfig.orderSize := "50" |}.

Record MonitoredMarket := {
  marketId : string;
  yesAssetId : string;
  noAssetId : string;
  yesPrice : JS.number;
  noPrice : JS.number;
  lastUpdate : JS.number }.

Definition reason_text (totalPrice : JS.number) : string :=
  "YES/NO arbitrage - total price " +:+ JS.toFixed totalPrice 4 +:+ " < 1.0".

(** [ArbitrageDetector.checkYesNoArbitrage] *)
Definition checkYesNoArbitrage (config : ArbitrageConfig.t)
    (market : MonitoredMarket) : option ArbitrageOpportunity.t :=
  if JS.strict_eq (yesPrice market) 0 || JS.strict_eq (noPrice market) 0
  then None
  else
    let totalPrice := (yesPrice market + noPrice market)%float in
    let spread := (1.0 - totalPrice)%float in
    if JS.gt spread (ArbitrageConfig.minSpread config) then
      let expectedProfit :=
        (spread * JS.parseFloat (ArbitrageConfig.orderSize config)
         - ArbitrageConfig.maxSlippage config * 2)%float in
      if JS.gt expectedProfit 0 then
        Some {|
          ArbitrageOpportunity.markets := [marketId market];
          ArbitrageOpportunity.spread := spread;
          ArbitrageOpportunity.expectedProfit := expectedProfit;
          ArbitrageOpportunity.signals := [
            {| TradeSignal.market := marketId market;
               TradeSignal.asset_id := yesAssetId market;
               TradeSignal.action := BUY;
               TradeSignal.side := YES;
               TradeSignal.price := JS.toFixed (yesPrice market) 4;
               TradeSignal.size := ArbitrageConfig.orderSize config;
               TradeSignal.reason := reason_text totalPrice |};
            {| TradeSignal.market := marketId market;
               TradeSignal.asset_id := noAssetId market;
               TradeSignal.action := BUY;
               TradeSignal.side := NO;
               TradeSignal.price := JS.toFixed (noPrice market) 4;
               TradeSignal.size := ArbitrageConfig.orderSize config;
               TradeSignal.reason := reason_text totalPrice |} ] |}
      else None
    else None.

End Arbitrage.

(* ===================================================================== *)
(** * The streaming client (websocket.ts) *)
(* ===================================================================== *)

Module WS.

Inductive ReadyState := CONNECTING | OPEN | CLOSING | CLOSED.

Inductive Channel := book | price | user.

(** Outbound frames, before [JSON.stringify]. *)
Inductive Frame :=
| subscribe (channel : Channel) (assets_ids : list string)
| unsubscribe_frame (assets_ids : list string).

(** Callbacks are closures; they are identified by what they close over.
    [MarketMakerUpdate a] is the arrow function that [MarketMaker.start]
    registers for asset [a]; the others belong to other clients. *)
Inductive OrderBookCallback :=
| MarketMakerUpdate (assetId : string)
| OrderBookListener (tag : nat).

Inductive PriceCallback :=
| ArbitragePriceUpdate
| PriceListener (tag : nat).

Definition ErrorCallback := nat.

(** The object built by [parseOrderBook]: its fields are unchecked casts of
    what the frame carried. *)
Record ParsedOrderBook := {
  market : JS.value;
  asset_id : JS.value;
  bids : JS.value;
  asks : JS.value;
  timestamp : JS.value }.

(** What the client does to the outside: sockets, timers and callbacks. *)
Inductive Effect :=
| NewWebSocket (sock : nat) (url : string)
| SocketClose (sock : nat)
| SocketSend (sock : nat) (frame : Frame)
| SetTimeout (ms : Z)
| OrderBookCall (cb : OrderBookCallback) (orderBook : ParsedOrderBook)
| PriceCall (cb : PriceCallback) (assetId price : JS.value)
| ErrorCall (cb : ErrorCallback) (message : string).

Record WebSocketConfig := {
  url : option string;
  reconnectInterval : option Z;
  maxReconnectAttempts : option Z }.

(** [Required<WebSocketConfig>] *)
Record Config := {
  cfg_url : string;
  cfg_reconnectInterval : Z;
  cfg_maxReconnectAttempts : Z }.

Definition DEFAULT_WS_URL : string :=
  "wss://ws-subscriptions-clob.polymarket.com/ws/market".

(** [x || d] on an optional string and on an optional number *)
Definition string_or (x : option string) (d : string) : string :=
  match x with
  | Some v => if String.eqb v "" then d else v
  | None => d
  end.

Definition number_or (x : option Z) (d : Z) : Z :=
  match x with
  | Some v => if v =? 0 then d else v
  | None => d
  end.

(** The fields of [PolymarketWebSocket] (the [subscriptions] map is never
    read or written by the class and is left out), then the host side: the
    ready state of every socket the client created, in creation order, the
    number of reconnect timers that have not fired yet, and the effects so
    far. *)
Record t := {
  ws : option nat;
  config : Config;
  reconnectAttempts : Z;
  isConnecting : bool;
  shouldReconnect : bool;
  orderBookCallbacks : gmap string (list OrderBookCallback);
  priceCallbacks : gmap string (list PriceCallback);
  onError : option ErrorCallback;
  sockets : list ReadyState;
  timers : nat;
  trace : list Effect }.

Definition with_ws (v : option nat) (s : t) : t :=
  {| ws := v; config := config s; reconnectAttempts := reconnectAttempts s; isConnecting := isConnecting s; shouldReconnect := shouldReconnect s; orderBookCallbacks := orderBookCallbacks s; priceCallbacks := priceCallbacks s; onError := onError s; sockets := sockets s; timers := timers s; trace := trace s |}.
Definition with_config (v : Config) (s : t) : t :=
  {| ws := ws s; config := v; reconnectAttempts := reconnectAttempts s; isConnecting := isConnecting s; shouldReconnect := shouldReconnect s; orderBookCallbacks := orderBookCallbacks s; priceCallbacks := priceCallbacks s; onError := onError s; sockets := sockets s; timers := timers s; trace := trace s |}.
Definition with_reconnectAttempts (v : Z) (s : t) : t :=
  {| ws := ws s; config := config s; reconnectAttempts := v; isConnecting := isConnecting s; shouldReconnect := shouldReconnect s; orderBookCallbacks := orderBookCallbacks s; priceCallbacks := priceCallbacks s; onError := onError s; sockets := sockets s; timers := timers s; trace := trace s |}.
Definition with_isConnecting (v : bool) (s : t) : t :=
  {| ws := ws s; config := config s; reconnectAttempts := reconnectAttempts s; isConnecting := v; shouldReconnect := shouldReconnect s; orderBookCallbacks := orderBookCallbacks s; priceCallbacks := priceCallbacks s; onError := onError s; sockets := sockets s; timers := timers s; trace := trace s |}.
Definition with_shouldReconnect (v : bool) (s : t) : t :=
  {| ws := ws s; config := config s; reconnectAttempts := reconnectAttempts s; isConnecting := isConnecting s; shouldReconnect := v; orderBookCallbacks := orderBookCallbacks s; priceCallbacks := priceCallbacks s; onError := onError s; sockets := sockets s; timers := timers s; trace := trace s |}.
Definition with_orderBookCallbacks (v : gmap string (list OrderBookCallback)) (s : t) : t :=
  {| ws := ws s; config := config s; reconnectAttempts := reconnectAttempts s; isConnecting := isConnecting s; shouldReconnect := shouldReconnect s; orderBookCallbacks := v; priceCallbacks := priceCallbacks s; onError := onError s; sockets := sockets s; timers := timers s; trace := trace s |}.
Definition with_priceCallbacks (v : gmap string (list PriceCallback)) (s : t) : t :=
  {| ws := ws s; config := config s; reconnectAttempts := reconnectAttempts s; isConnecting := isConnecting s; shouldReconnect := shouldReconnect s; orderBookCallbacks := orderBookCallbacks s; priceCallbacks := v; onError := onError s; sockets := sockets s; timers := timers s; trace := trace s |}.
Definition with_onError (v : option ErrorCallback) (s : t) : t :=
  {| ws := ws s; config := config s; reconnectAttempts := reconnectAttempts s; isConnecting := isConnecting s; shouldReconnect := shouldReconnect s; orderBookCallbacks := orderBookCallbacks s; priceCallbacks := priceCallbacks s; onError := v; sockets := sockets s; timers := timers s; trace := trace s |}.
Definition with_sockets (v : list ReadyState) (s : t) : t :=
  {| ws := ws s; config := config s; reconnectAttempts := reconnectAttempts s; isConnecting := isConnecting s; shouldReconnect := shouldReconnect s; orderBookCallbacks := orderBookCallbacks s; priceCallbacks := priceCallbacks s; onError := onError s; sockets := v; timers := timers s; trace := trace s |}.
Definition with_timers (v : nat) (s : t) : t :=
  {| ws := ws s; config := config s; reconnectAttempts := reconnectAttempts s; isConnecting := isConnecting s; shouldReconnect := shouldReconnect s; orderBookCallbacks := orderBookCallbacks s; priceCallbacks := priceCallbacks s; onError := onError s; sockets := sockets s; timers := v; trace := trace s |}.
Definition with_trace (v : list Effect) (s : t) : t :=
  {| ws := ws s; config := config s; reconnectAttempts := reconnectAttempts s; isConnecting := isConnecting s; shouldReconnect := shouldReconnect s; orderBookCallbacks := orderBookCallbacks s; priceCallbacks := priceCallbacks s; onError := onError s; sockets := sockets s; timers := timers s; trace := v |}.
Definition emit (e : Effect) (s : t) : t := with_trace (trace s ++ [e]) s.

(** [constructor(config)] *)
Definition create (c : WebSocketConfig) : t :=
  {| ws := None;
     config := {| cfg_url := string_or (url c) DEFAULT_WS_URL;
                  cfg_reconnectInterval := number_or (reconnectInterval c) 5000;
                  cfg_maxReconnectAttempts := number_or (maxReconnectAttempts c) 10 |};
     reconnectAttempts := 0;
     isConnecting := false;
     shouldReconnect := true;
     orderBookCallbacks := ∅;
     priceCallbacks := ∅;
     onError := None;
     sockets := [];
     timers := 0;
     trace := [] |}.

Definition no_config : WebSocketConfig :=
  {| url := None; reconnectInterval := None; maxReconnectAttempts := None |}.

Definition readyState (s : t) (sock : nat) : option ReadyState := sockets s !! sock.

(** [this.ws?.readyState === WebSocket.OPEN] *)
Definition isConnected (s : t) : bool :=
  match ws s with
  | Some sock => match readyState s sock with Some OPEN => true | _ => false end
  | None => false
  end.

Definition send (frame : Frame) (s : t) : t :=
  match ws s with
  | Some sock => emit (SocketSend sock frame) s
  | None => s
  end.

Definition sendSubscription (assetIds : list string) (type : Channel) (s : t) : t :=
  if negb (isConnected s) then s
  else send (subscribe type assetIds) s.

(** [connect()]: [ctor_ok] tells whether [new WebSocket(url)] returns
    ([true]) or throws ([false], the promise is rejected). *)
Definition connect (ctor_ok : bool) (s : t) : t :=
  if isConnected s then s
  else if isConnecting s then s
  else
    let s := with_shouldReconnect true (with_isConnecting true s) in
    if ctor_ok then
      let sock := length (sockets s) in
      emit (NewWebSocket sock (cfg_url (config s)))
        (with_ws (Some sock) (with_sockets (sockets s ++ [CONNECTING]) s))
    else with_isConnecting false s.

(** [socket.close()] *)
Definition closing (r : ReadyState) : ReadyState :=
  match r with
  | CONNECTING | OPEN => CLOSING
  | CLOSING | CLOSED => r
  end.

Definition disconnect (s : t) : t :=
  let s := with_shouldReconnect false s in
  match ws s with
  | Some sock =>
      with_ws None
        (emit (SocketClose sock) (with_sockets (alter closing sock (sockets s)) s))
  | None => s
  end.

Definition add_orderBookCallback (callback : OrderBookCallback) (s : t) (assetId : string) : t :=
  let callbacks := default [] (orderBookCallbacks s !! assetId) in
  with_orderBookCallbacks (<[assetId := callbacks ++ [callback]]> (orderBookCallbacks s)) s.

Definition subscribeOrderBook (assetIds : list string) (callback : OrderBookCallback) (s : t) : t :=
  let s := fold_left (add_orderBookCallback callback) assetIds s in
  if isConnected s then sendSubscription assetIds book s else s.

Definition add_priceCallback (callback : PriceCallback) (s : t) (assetId : string) : t :=
  let callbacks := default [] (priceCallbacks s !! assetId) in
  with_priceCallbacks (<[assetId := callbacks ++ [callback]]> (priceCallbacks s)) s.

Definition subscribePrice (assetIds : list string) (callback : PriceCallback) (s : t) : t :=
  let s := fold_left (add_priceCallback callback) assetIds s in
  if isConnected s then sendSubscription assetIds price s else s.

Definition remove_callbacks (s : t) (assetId : string) : t :=
  with_priceCallbacks (delete assetId (priceCallbacks s))
    (with_orderBookCallbacks (delete assetId (orderBookCallbacks s)) s).

Definition unsubscribe (assetIds : list string) (s : t) : t :=
  let s := fold_left remove_callbacks assetIds s in
  if isConnected s then send (unsubscribe_frame assetIds) s else s.

Definition setErrorHandler (callback : ErrorCallback) (s : t) : t :=
  with_onError (Some callback) s.

(** [Array.from(map.keys())] *)
Definition keys {A} (m : gmap string A) : list string := (map_to_list m).*1.

Definition resubscribeAll (s : t) : t :=
  let bookAssets := keys (orderBookCallbacks s) in
  let priceAssets := keys (priceCallbacks s) in
  let s := if (0 <? length bookAssets)%nat then sendSubscription bookAssets book s else s in
  if (0 <? length priceAssets)%nat then sendSubscription priceAssets price s else s.

Definition attemptReconnect (s : t) : t :=
  if negb (shouldReconnect s) then s
  else if cfg_maxReconnectAttempts (config s) <=? reconnectAttempts s then
    match onError s with
    | Some handler => emit (ErrorCall handler "Max reconnection attempts reached") s
    | None => s
    end
  else
    let s := with_reconnectAttempts (reconnectAttempts s + 1) s in
    with_timers (S (timers s)) (emit (SetTimeout (cfg_reconnectInterval (config s))) s).

(** What the host supplies: [JSON.parse] ([None] when it throws), and
    whether a callback throws on a given argument. *)
Record Env := {
  JSON_parse : string → option JS.value;
  orderBook_throws : OrderBookCallback → ParsedOrderBook → bool;
  price_throws : PriceCallback → JS.value → JS.value → bool }.

(** [parseOrderBook(message)]; [now] is [new Date().toISOString()]. *)
Definition parseOrderBook (message : JS.value) (now : string) : option ParsedOrderBook :=
  data ← JS.get message "data";
  m ← JS.get message "market";
  a ← JS.get message "asset_id";
  b ← JS.get data "bids";
  k ← JS.get data "asks";
  ts ← JS.get data "timestamp";
  Some {| market := JS.or_else m (JS.VStr "");
          asset_id := a;
          bids := JS.or_else b (JS.VArr []);
          asks := JS.or_else k (JS.VArr []);
          timestamp := JS.or_else ts (JS.VStr now) |}.

(** [for (const callback of callbacks) callback(..)]: the calls made, and
    whether one of them threw (which ends the loop). *)
Fixpoint call_each {A} (throws : A → bool) (call : A → Effect) (callbacks : list A)
  : list Effect * bool :=
  match callbacks with
  | [] => ([], false)
  | cb :: rest =>
      if throws cb then ([call cb], true)
      else let '(calls, threw) := call_each throws call rest in (call cb :: calls, threw)
  end.

(** [Map.prototype.get] with a key that need not be a string *)
Definition lookup_value {A} (m : gmap string A) (key : JS.value) : option A :=
  match key with
  | JS.VStr k => m !! k
  | _ => None
  end.

Definition is_string (v : JS.value) (s : string) : bool :=
  match v with
  | JS.VStr s' => String.eqb s' s
  | _ => false
  end.

(** The body of the [try] block of [handleMessage], after [JSON.parse]:
    the calls it makes; [None] inside stands for a TypeError. *)
Definition dispatch (env : Env) (s : t) (message : JS.value) (now : string)
  : option (list Effect) :=
  type ← JS.get message "type";
  '(calls1, threw) ←
    (if is_string type "book" then
       data ← JS.get message "data";
       if JS.truthy data then
         orderBook ← parseOrderBook message now;
         let callbacks := default [] (lookup_value (orderBookCallbacks s) (asset_id orderBook)) in
         Some (call_each (λ cb, orderBook_throws env cb orderBook)
                         (λ cb, OrderBookCall cb orderBook) callbacks)
       else Some ([], false)
     else Some ([], false));
  if threw : bool then Some calls1
  else
    if is_string type "price_change" then
      data ← JS.get message "data";
      if JS.truthy data then
        assetId ← JS.get message "asset_id";
        let callbacks := default [] (lookup_value (priceCallbacks s) assetId) in
        p ← JS.get data "price";
        Some (calls1 ++ (call_each (λ cb, price_throws env cb assetId p)
                                   (λ cb, PriceCall cb assetId p) callbacks).1)
      else Some calls1
    else Some calls1.

(** [handleMessage(data)].  Calls made before an exception was thrown have
    happened; [dispatch] yields [None] only when nothing was called. *)
Definition handleMessage (env : Env) (data now : string) (s : t) : t :=
  match JSON_parse env data with
  | None => s
  | Some message =>
      match dispatch env s message now with
      | Some calls => with_trace (trace s ++ calls) s
      | None => s
      end
  end.

(** ** The socket's event handlers, installed by [connect] *)

Definition set_readyState (sock : nat) (r : ReadyState) (s : t) : t :=
  with_sockets (<[sock := r]> (sockets s)) s.

Definition onopen (s : t) : t :=
  resubscribeAll (with_reconnectAttempts 0 (with_isConnecting false s)).

Definition onerror (s : t) : t :=
  let s := with_isConnecting false s in
  match onError s with
  | Some handler => emit (ErrorCall handler "WebSocket error") s
  | None => s
  end.

Definition onclose (s : t) : t :=
  attemptReconnect (with_isConnecting false s).

(** ** Events: calls of the public methods, socket events, timers *)

Inductive Event :=
| Connect (ctor_ok : bool)
| Disconnect
| SubscribeOrderBook (assetIds : list string) (callback : OrderBookCallback)
| SubscribePrice (assetIds : list string) (callback : PriceCallback)
| Unsubscribe (assetIds : list string)
| SetErrorHandler (callback : ErrorCallback)
| Open (sock : nat)
| Message (sock : nat) (data now : string)
| Error (sock : nat)
| Close (sock : nat)
| Timeout (ctor_ok : bool).

(** One step; [None] when the host cannot produce the event in this state
    (a socket opens only while connecting, delivers messages only while
    open, closes once; a timer fires only if one is pending). *)
Definition step (env : Env) (s : t) (e : Event) : option t :=
  match e with
  | Connect ctor_ok => Some (connect ctor_ok s)
  | Disconnect => Some (disconnect s)
  | SubscribeOrderBook assetIds callback => Some (subscribeOrderBook assetIds callback s)
  | SubscribePrice assetIds callback => Some (subscribePrice assetIds callback s)
  | Unsubscribe assetIds => Some (unsubscribe assetIds s)
  | SetErrorHandler callback => Some (setErrorHandler callback s)
  | Open sock =>
      match readyState s sock with
      | Some CONNECTING => Some (onopen (set_readyState sock OPEN s))
      | _ => None
      end
  | Message sock data now =>
      match readyState s sock with
      | Some OPEN => Some (handleMessage env data now s)
      | _ => None
      end
  | Error sock =>
      match readyState s sock with
      | Some CLOSED | None => None
      | Some _ => Some (onerror s)
      end
  | Close sock =>
      match readyState s sock with
      | Some CLOSED | None => None
      | Some _ => Some (onclose (set_readyState sock CLOSED s))
      end
  | Timeout ctor_ok =>
      match timers s with
      | O => None
      | S n => Some (connect ctor_ok (with_timers n s))
      end
  end.

Fixpoint run (env : Env) (s : t) (events : list Event) : option t :=
  match events with
  | [] => Some s
  | e :: rest => s' ← step env s e; run env s' rest
  end.

(** Effects counted over a trace *)
Definition is_SetTimeout (e : Effect) : bool :=
  match e with SetTimeout _ => true | _ => false end.
Definition is_ErrorCall (e : Effect) : bool :=
  match e with ErrorCall _ _ => true | _ => false end.
Definition is_terminal_error (e : Effect) : bool :=
  match e with
  | ErrorCall _ m => String.eqb m "Max reconnection attempts reached"
  | _ => false
  end.
Definition is_call_of (cb : OrderBookCallback) (e : Effect) : bool :=
  match e with
  | OrderBookCall (MarketMakerUpdate a) _ =>
      match cb with MarketMakerUpdate b => String.eqb a b | _ => false end
  | OrderBookCall (OrderBookListener n) _ =>
      match cb with OrderBookListener m => Nat.eqb n m | _ => false end
  | _ => false
  end.
Definition is_callback_call (e : Effect) : bool :=
  match e with OrderBookCall _ _ | PriceCall _ _ _ => true | _ => false end.

Definition count (p : Effect → bool) (s : t) : nat := length (List.filter p (trace s)).

End WS.

(* ===================================================================== *)
(** * The market maker (market-maker.ts) *)
(* ===================================================================== *)

Module MM.

Definition DEFAULT_CONFIG : MarketMakerConfig.t :=
  {| MarketMakerConfig.spread := 0.02%float;
     MarketMakerConfig.orderSize := "10";
     MarketMakerConfig.maxPosition := "100";
     MarketMakerConfig.minLiquidity := "1000";
     MarketMakerConfig.refreshInterval := 30000%float |}.

Record MarketMakerState := {
  assetId : string;
  marketId : string;
  currentBid : option Order.t;
  currentAsk : option Order.t;
  position : JS.number;
  isRunning : bool }.

Record Quotes := { bid : string; ask : string }.

(** The fields of [MarketMaker]; [ws] is the shared client, kept in the
    [World] below. *)
Record MarketMaker := {
  config : MarketMakerConfig.t;
  states : gmap string MarketMakerState;
  refreshTimers : gmap string nat }.

Definition with_config (v : MarketMakerConfig.t) (x : MarketMaker) : MarketMaker :=
  {| config := v; states := states x; refreshTimers := refreshTimers x |}.
Definition with_states (v : gmap string MarketMakerState) (x : MarketMaker) : MarketMaker :=
  {| config := config x; states := v; refreshTimers := refreshTimers x |}.
Definition with_refreshTimers (v : gmap string nat) (x : MarketMaker) : MarketMaker :=
  {| config := config x; states := states x; refreshTimers := v |}.
(** [Partial<MarketMakerConfig>] and [{ ...DEFAULT_CONFIG, ...config }] *)
Record PartialConfig := {
  p_spread : option JS.number;
  p_orderSize : option string;
  p_maxPosition : option string;
  p_minLiquidity : option string;
  p_refreshInterval : option JS.number }.

Definition no_config : PartialConfig :=
  {| p_spread := None; p_orderSize := None; p_maxPosition := None;
     p_minLiquidity := None; p_refreshInterval := None |}.

Definition create (c : PartialConfig) : MarketMaker :=
  {| config :=
       {| MarketMakerConfig.spread :=
            default (MarketMakerConfig.spread DEFAULT_CONFIG) (p_spread c);
          MarketMakerConfig.orderSize :=
            default (MarketMakerConfig.orderSize DEFAULT_CONFIG) (p_orderSize c);
          MarketMakerConfig.maxPosition :=
            default (MarketMakerConfig.maxPosition DEFAULT_CONFIG) (p_maxPosition c);
          MarketMakerConfig.minLiquidity :=
            default (MarketMakerConfig.minLiquidity DEFAULT_CONFIG) (p_minLiquidity c);
          MarketMakerConfig.refreshInterval :=
            default (MarketMakerConfig.refreshInterval DEFAULT_CONFIG) (p_refreshInterval c) |};
     states := ∅;
     refreshTimers := ∅ |}.

(** ** Pure methods *)

Definition midPrice (bestBid bestAsk : JS.number) : JS.number :=
  ((bestBid + bestAsk) / 2)%float.

Definition halfSpread (config : MarketMakerConfig.t) : JS.number :=
  (MarketMakerConfig.spread config / 2)%float.

Definition finalBid (config : MarketMakerConfig.t) (bestBid bestAsk : JS.number) : JS.number :=
  let ourBid := (midPrice bestBid bestAsk * (1 - halfSpread config))%float in
  JS.Math_min ourBid (bestBid - 0.001)%float.

Definition finalAsk (config : MarketMakerConfig.t) (bestBid bestAsk : JS.number) : JS.number :=
  let ourAsk := (midPrice bestBid bestAsk * (1 + halfSpread config))%float in
  JS.Math_max ourAsk (bestAsk + 0.001)%float.

(** [calculateQuotes(orderBook)] *)
Definition calculateQuotes (config : MarketMakerConfig.t) (orderBook : OrderBook.t)
  : option Quotes :=
  match OrderBook.bids orderBook, OrderBook.asks orderBook with
  | [], _ | _, [] => None
  | b :: _, a :: _ =>
      let bestBid := JS.parseFloat (OrderBookEntry.price b) in
      let bestAsk := JS.parseFloat (OrderBookEntry.price a) in
      Some {| bid := JS.toFixed (finalBid config bestBid bestAsk) 4;
              ask := JS.toFixed (finalAsk config bestBid bestAsk) 4 |}
  end.

Definition bid_signal (config : MarketMakerConfig.t) (state : MarketMakerState)
    (assetId : string) (quotes : Quotes) : TradeSignal.t :=
  {| TradeSignal.market := marketId state;
     TradeSignal.asset_id := assetId;
     TradeSignal.action := BUY;
     TradeSignal.side := YES;
     TradeSignal.price := bid quotes;
     TradeSignal.size := MarketMakerConfig.orderSize config;
     TradeSignal.reason := "Market making - providing bid liquidity" |}.

Definition ask_signal (config : MarketMakerConfig.t) (state : MarketMakerState)
    (assetId : string) (quotes : Quotes) : TradeSignal.t :=
  {| TradeSignal.market := marketId state;
     TradeSignal.asset_id := assetId;
     TradeSignal.action := SELL;
     TradeSignal.side := YES;
     TradeSignal.price := ask quotes;
     TradeSignal.size := MarketMakerConfig.orderSize config;
     TradeSignal.reason := "Market making - providing ask liquidity" |}.

(** [generateSignals(assetId, orderBook)] *)
Definition generateSignals (m : MarketMaker) (assetId : string) (orderBook : OrderBook.t)
  : list TradeSignal.t :=
  match states m !! assetId with
  | None => []
  | Some state =>
      if negb (isRunning state) then []
      else
        match calculateQuotes (config m) orderBook with
        | None => []
        | Some quotes =>
            let maxPosition := JS.parseFloat (MarketMakerConfig.maxPosition (config m)) in
            (if JS.lt (position state) maxPosition
             then [bid_signal (config m) state assetId quotes] else [])
            ++
            (if JS.gt (position state) (- maxPosition)%float
             then [ask_signal (config m) state assetId quotes] else [])
        end
  end.

(** [getState(assetId)] *)
Definition getState (m : MarketMaker) (assetId : string) : option MarketMakerState :=
  states m !! assetId.

(** ** Methods that change the engine, the shared client or the timers *)

(** An [async] method that has reached an [await] and will go on later. *)
Inductive Suspended :=
| StartAfterConnect (assetId : string)
| StopAfterCancel (assetId : string).

(** The engine, the shared streaming client ([getWebSocket()]), the live
    [setInterval] handles with the asset each one refreshes, the next
    handle, and the suspended calls. *)
Record World := {
  mm : MarketMaker;
  ws : WS.t;
  intervals : gmap nat string;
  nextTimer : nat;
  suspended : list Suspended }.

Definition with_mm (v : MarketMaker) (x : World) : World :=
  {| mm := v; ws := ws x; intervals := intervals x; nextTimer := nextTimer x; suspended := suspended x |}.
Definition with_ws (v : WS.t) (x : World) : World :=
  {| mm := mm x; ws := v; intervals := intervals x; nextTimer := nextTimer x; suspended := suspended x |}.
Definition with_intervals (v : gmap nat string) (x : World) : World :=
  {| mm := mm x; ws := ws x; intervals := v; nextTimer := nextTimer x; suspended := suspended x |}.
Definition with_nextTimer (v : nat) (x : World) : World :=
  {| mm := mm x; ws := ws x; intervals := intervals x; nextTimer := v; suspended := suspended x |}.
Definition with_suspended (v : list Suspended) (x : World) : World :=
  {| mm := mm x; ws := ws x; intervals := intervals x; nextTimer := nextTimer x; suspended := v |}.
Definition init (c : PartialConfig) : World :=
  {| mm := create c; ws := WS.create WS.no_config;
     intervals := ∅; nextTimer := 0; suspended := [] |}.

Inductive Outcome :=
| Returned                  (** ran to its end *)
| Awaiting                  (** suspended at an [await] *)
| Thrown (message : string) (** rejected with [new Error(message)] *)
| Failed                    (** rejected with what the socket constructor threw *).

Definition new_state (assetId marketId : string) : MarketMakerState :=
  {| assetId := assetId; marketId := marketId;
     currentBid := None; currentAsk := None;
     position := 0%float; isRunning := true |}.

(** [start], from the subscription on (lines 73-85). *)
Definition start_rest (assetId : string) (w : World) : World :=
  let w := with_ws (WS.subscribeOrderBook [assetId] (WS.MarketMakerUpdate assetId) (ws w)) w in
  let timer := nextTimer w in
  let w := with_nextTimer (S timer) (with_intervals (<[timer := assetId]> (intervals w)) w) in
  with_mm (with_refreshTimers (<[assetId := timer]> (refreshTimers (mm w))) (mm w)) w.

(** [start(assetId, marketId)] up to its [await]; [hasCredentials] is the
    result of the call of that name, [ctor_ok] as in [WS.connect].  When the
    socket constructor throws, the promise of [connect] is rejected and so
    is the one of [start]. *)
Definition start (hasCredentials ctor_ok : bool) (assetId marketId : string) (w : World)
  : Outcome * World :=
  if negb hasCredentials then
    (Thrown "Trading credentials required for market making", w)
  else if bool_decide (is_Some (states (mm w) !! assetId)) then (Returned, w)
  else
    let w := with_mm (with_states (<[assetId := new_state assetId marketId]> (states (mm w))) (mm w)) w in
    if negb (WS.isConnected (ws w)) then
      let connecting := negb (WS.isConnecting (ws w)) in
      let w := with_ws (WS.connect ctor_ok (ws w)) w in
      if connecting && negb ctor_ok then (Failed, w)
      else (Awaiting, with_suspended (suspended w ++ [StartAfterConnect assetId]) w)
    else (Returned, start_rest assetId w).

Definition clear_orders (state : MarketMakerState) : MarketMakerState :=
  {| assetId := assetId state; marketId := marketId state;
     currentBid := None; currentAsk := None;
     position := position state; isRunning := isRunning state |}.

(** [cancelOrders(assetId)] (no [await] inside: it runs at once) *)
Definition cancelOrders (assetId : string) (m : MarketMaker) : MarketMaker :=
  with_states (alter clear_orders assetId (states m)) m.

Definition not_running (state : MarketMakerState) : MarketMakerState :=
  {| assetId := assetId state; marketId := marketId state;
     currentBid := currentBid state; currentAsk := currentAsk state;
     position := position state; isRunning := false |}.

(** [stop(assetId)] up to its [await] *)
Definition stop (assetId : string) (w : World) : Outcome * World :=
  match states (mm w) !! assetId with
  | None => (Returned, w)
  | Some _ =>
      let w := with_mm (with_states (alter not_running assetId (states (mm w))) (mm w)) w in
      let w :=
        match refreshTimers (mm w) !! assetId with
        | Some timer =>
            with_mm (with_refreshTimers (delete assetId (refreshTimers (mm w))) (mm w))
              (with_intervals (delete timer (intervals w)) w)
        | None => w
        end in
      let w := with_mm (cancelOrders assetId (mm w)) w in
      (Awaiting, with_suspended (suspended w ++ [StopAfterCancel assetId]) w)
  end.

(** [stop], from the unsubscription on (lines 109-114) *)
Definition stop_rest (assetId : string) (w : World) : World :=
  let w := with_ws (WS.unsubscribe [assetId] (ws w)) w in
  with_mm (with_states (delete assetId (states (mm w))) (mm w)) w.

(** [stopAll()]: every [stop] runs up to its [await] *)
Definition stopAll (w : World) : World :=
  fold_left (λ w id, (stop id w).2) (WS.keys (states (mm w))) w.

(** [handleOrderBookUpdate(assetId, orderBook)]: the signals are only
    logged. *)
Definition handleOrderBookUpdate (assetId : string) (orderBook : OrderBook.t) (w : World)
  : World :=
  match states (mm w) !! assetId with
  | None => w
  | Some state =>
      if negb (isRunning state) then w
      else let signals := generateSignals (mm w) assetId orderBook in w
  end.

(** [refreshOrders(assetId)] *)
Definition refreshOrders (assetId : string) (w : World) : World :=
  match states (mm w) !! assetId with
  | None => w
  | Some state =>
      if negb (isRunning state) then w
      else with_mm (cancelOrders assetId (mm w)) w
  end.

(** Resuming the [k]-th suspended call *)
Definition resume (k : nat) (w : World) : option World :=
  match suspended w !! k with
  | None => None
  | Some c =>
      let w := with_suspended (take k (suspended w) ++ drop (S k) (suspended w)) w in
      Some match c with
           | StartAfterConnect assetId => start_rest assetId w
           | StopAfterCancel assetId => stop_rest assetId w
           end
  end.

(** ** Everything that can happen to the engine *)

Inductive Event :=
| Start (hasCredentials ctor_ok : bool) (assetId marketId : string)
| Stop (assetId : string)
| StopAll
| Resume (k : nat)
| IntervalTick (timer : nat)
| OrderBookUpdate (assetId : string) (orderBook : OrderBook.t)
| Client (e : WS.Event).

(** The scheduler may resume a suspended call at any later point, which
    covers every order in which the host settles the promises. *)
Definition step (env : WS.Env) (w : World) (e : Event) : option World :=
  match e with
  | Start hasCredentials ctor_ok assetId marketId =>
      Some (start hasCredentials ctor_ok assetId marketId w).2
  | Stop assetId => Some (stop assetId w).2
  | StopAll => Some (stopAll w)
  | Resume k => resume k w
  | IntervalTick timer =>
      match intervals w !! timer with
      | Some assetId => Some (refreshOrders assetId w)
      | None => None
      end
  | OrderBookUpdate assetId orderBook => Some (handleOrderBookUpdate assetId orderBook w)
  | Client e => s ← WS.step env (ws w) e; Some (with_ws s w)
  end.

Fixpoint run (env : WS.Env) (w : World) (events : list Event) : option World :=
  match events with
  | [] => Some w
  | e :: rest => w' ← step env w e; run env w' rest
  end.

Definition reachable (env : WS.Env) (c : PartialConfig) (w : World) : Prop :=
  ∃ events, run env (init c) events = Some w.

End MM.

(* ===================================================================== *)
(** * The arbitrage detector (the class around [checkYesNoArbitrage]) *)
(* ===================================================================== *)

Module Detector.

Import Arbitrage.

(** The callback given to [onOpportunityDetected] is a closure; it is
    identified by a tag, and taken not to call back into the detector. *)
Definition OpportunityCallback := nat.

(** [Partial<ArbitrageConfig>] and [{ ...DEFAULT_CONFIG, ...config }] *)
Record PartialConfig := {
  p_minSpread : option JS.number;
  p_maxSlippage : option JS.number;
  p_orderSize : option string }.

Definition no_config : PartialConfig :=
  {| p_minSpread := None; p_maxSlippage := None; p_orderSize := None |}.

(** [Map<string, V>] with its iteration order: the entries in the order of
    their first insertion.  [set] on a key that is present replaces the
    value where it stands. *)
Fixpoint map_set {V} (k : string) (v : V) (m : list (string * V)) : list (string * V) :=
  match m with
  | [] => [(k, v)]
  | (k', v') :: rest =>
      if String.eqb k' k then (k, v) :: rest else (k', v') :: map_set k v rest
  end.

Fixpoint map_get {V} (k : string) (m : list (string * V)) : option V :=
  match m with
  | [] => None
  | (k', v) :: rest => if String.eqb k' k then Some v else map_get k rest
  end.

(** The fields of [ArbitrageDetector]; [ws] is the shared client, kept in
    the [World] below. *)
Record t := {
  config : ArbitrageConfig.t;
  monitoredMarkets : list (string * MonitoredMarket);
  isRunning : bool;
  onOpportunity : option OpportunityCallback }.

Definition with_monitoredMarkets (v : list (string * MonitoredMarket)) (d : t) : t :=
  {| config := config d; monitoredMarkets := v; isRunning := isRunning d; onOpportunity := onOpportunity d |}.
Definition with_isRunning (v : bool) (d : t) : t :=
  {| config := config d; monitoredMarkets := monitoredMarkets d; isRunning := v; onOpportunity := onOpportunity d |}.
Definition with_onOpportunity (v : option OpportunityCallback) (d : t) : t :=
  {| config := config d; monitoredMarkets := monitoredMarkets d; isRunning := isRunning d; onOpportunity := v |}.

(** [constructor(config)] *)
Definition create (c : PartialConfig) : t :=
  {| config :=
       {| ArbitrageConfig.minSpread :=
            default (ArbitrageConfig.minSpread DEFAULT_CONFIG) (p_minSpread c);
          ArbitrageConfig.maxSlippage :=
            default (ArbitrageConfig.maxSlippage DEFAULT_CONFIG) (p_maxSlippage c);
          ArbitrageConfig.orderSize :=
            default (ArbitrageConfig.orderSize DEFAULT_CONFIG) (p_orderSize c) |};
     monitoredMarkets := [];
     isRunning := false;
     onOpportunity := None |}.

(** ** Methods that read *)

(** [getMarketStates()] *)
Definition getMarketStates (d : t) : list MonitoredMarket := (monitoredMarkets d).*2.

(** [scanForOpportunities()] *)
Definition scanForOpportunities (d : t) : list ArbitrageOpportunity.t :=
  fold_left
    (λ opportunities market,
       match checkYesNoArbitrage (config d) market with
       | Some yesNoArb => opportunities ++ [yesNoArb]
       | None => opportunities
       end)
    (getMarketStates d) [].

(** [[m.yesAssetId, m.noAssetId].filter(Boolean)], over all markets *)
Definition allAssetIds (d : t) : list string :=
  List.flat_map
    (λ m, List.filter (λ id, negb (String.eqb id "")) [yesAssetId m; noAssetId m])
    (getMarketStates d).

(** ** Methods that change the detector or the shared client *)

(** The detector, the shared streaming client, the number of [start] calls
    suspended at [await this.ws.connect()], and the calls of the
    opportunity callback so far. *)
Record World := {
  detector : t;
  ws : WS.t;
  pending : nat;
  notified : list (OpportunityCallback * ArbitrageOpportunity.t) }.

Definition with_detector (v : t) (x : World) : World :=
  {| detector := v; ws := ws x; pending := pending x; notified := notified x |}.
Definition with_ws (v : WS.t) (x : World) : World :=
  {| detector := detector x; ws := v; pending := pending x; notified := notified x |}.
Definition with_pending (v : nat) (x : World) : World :=
  {| detector := detector x; ws := ws x; pending := v; notified := notified x |}.
Definition with_notified (v : list (OpportunityCallback * ArbitrageOpportunity.t)) (x : World) : World :=
  {| detector := detector x; ws := ws x; pending := pending x; notified := v |}.
Definition init (c : PartialConfig) : World :=
  {| detector := create c; ws := WS.create WS.no_config; pending := 0; notified := [] |}.

Inductive Outcome :=
| Returned   (** ran to its end *)
| Awaiting   (** suspended at the [await] *)
| Failed     (** rejected with what [getGammaClient] or the socket constructor threw *).

(** The market object that [start] stores for an id *)
Definition new_market (marketId : string) : MonitoredMarket :=
  {| marketId := marketId; yesAssetId := ""; noAssetId := "";
     yesPrice := 0%float; noPrice := 0%float; lastUpdate := 0%float |}.

Definition track (m : list (string * MonitoredMarket)) (marketId : string)
  : list (string * MonitoredMarket) :=
  map_set marketId (new_market marketId) m.

(** [start], from the computation of [allAssetIds] on (lines 130-140) *)
Definition start_rest (w : World) : World :=
  let allAssetIds := allAssetIds (detector w) in
  if (0 <? length allAssetIds)%nat
  then with_ws (WS.subscribePrice allAssetIds WS.ArbitragePriceUpdate (ws w)) w
  else w.

(** [start(marketIds)] up to its [await].  [gamma_ok] tells whether
    [getGammaClient()] (of the client module) returns or throws, [ctor_ok]
    is as in [WS.connect]. *)
Definition start (gamma_ok ctor_ok : bool) (marketIds : list string) (w : World)
  : Outcome * World :=
  if isRunning (detector w) then (Returned, w)
  else
    let w := with_detector (with_isRunning true (detector w)) w in
    if negb gamma_ok then (Failed, w)
    else
      let w := with_detector
                 (with_monitoredMarkets
                    (fold_left track marketIds (monitoredMarkets (detector w)))
                    (detector w)) w in
      if negb (WS.isConnected (ws w)) then
        let connecting := negb (WS.isConnecting (ws w)) in
        let w := with_ws (WS.connect ctor_ok (ws w)) w in
        if connecting && negb ctor_ok then (Failed, w)
        else (Awaiting, with_pending (S (pending w)) w)
      else (Returned, start_rest w).

(** A suspended [start] goes on. *)
Definition resume (w : World) : option World :=
  match pending w with
  | O => None
  | S n => Some (start_rest (with_pending n w))
  end.

(** [stop()] *)
Definition stop (w : World) : World :=
  let w := with_detector (with_isRunning false (detector w)) w in
  let allAssetIds := allAssetIds (detector w) in
  let w := if (0 <? length allAssetIds)%nat
           then with_ws (WS.unsubscribe allAssetIds (ws w)) w else w in
  with_detector (with_monitoredMarkets [] (detector w)) w.

(** [onOpportunityDetected(callback)] *)
Definition onOpportunityDetected (callback : OpportunityCallback) (w : World) : World :=
  with_detector (with_onOpportunity (Some callback) (detector w)) w.

(** [checkAndNotify(market)] *)
Definition checkAndNotify (market : MonitoredMarket) (w : World) : World :=
  match isRunning (detector w), onOpportunity (detector w) with
  | true, Some callback =>
      match checkYesNoArbitrage (config (detector w)) market with
      | Some opportunity => with_notified (notified w ++ [(callback, opportunity)]) w
      | None => w
      end
  | _, _ => w
  end.

(** [updatePrices(marketId, yesPrice, noPrice)]; [now] is [Date.now()].
    The market object is changed where it is stored. *)
Definition updatePrices (marketId : string) (yesPrice noPrice now : JS.number) (w : World)
  : World :=
  match map_get marketId (monitoredMarkets (detector w)) with
  | Some market =>
      let market :=
        {| Arbitrage.marketId := Arbitrage.marketId market;
           yesAssetId := yesAssetId market; noAssetId := noAssetId market;
           yesPrice := yesPrice; noPrice := noPrice; lastUpdate := now |} in
      checkAndNotify market
        (with_detector
           (with_monitoredMarkets (map_set marketId market (monitoredMarkets (detector w)))
              (detector w)) w)
  | None => w
  end.

(** The loop of [handlePriceUpdate]: the entries with the first market that
    has [assetId] as its YES or its NO asset changed, and that market. *)
Fixpoint update_first (assetId : string) (price now : JS.number)
    (m : list (string * MonitoredMarket))
  : option (list (string * MonitoredMarket) * MonitoredMarket) :=
  match m with
  | [] => None
  | (k, market) :: rest =>
      if String.eqb (yesAssetId market) assetId then
        let market :=
          {| marketId := marketId market;
             yesAssetId := yesAssetId market; noAssetId := noAssetId market;
             yesPrice := price; noPrice := noPrice market; lastUpdate := now |} in
        Some ((k, market) :: rest, market)
      else if String.eqb (noAssetId market) assetId then
        let market :=
          {| marketId := marketId market;
             yesAssetId := yesAssetId market; noAssetId := noAssetId market;
             yesPrice := yesPrice market; noPrice := price; lastUpdate := now |} in
        Some ((k, market) :: rest, market)
      else
        match update_first assetId price now rest with
        | Some (rest, changed) => Some ((k, market) :: rest, changed)
        | None => None
        end
  end.

(** [handlePriceUpdate(assetId, price)]; [now] is [Date.now()]. *)
Definition handlePriceUpdate (assetId : string) (price now : JS.number) (w : World) : World :=
  match update_first assetId price now (monitoredMarkets (detector w)) with
  | Some (markets, market) =>
      checkAndNotify market (with_detector (with_monitoredMarkets markets (detector w)) w)
  | None => w
  end.

(** ** Everything that can happen to the detector *)

(** [PriceUpdate] is a call of the price callback that [start] hands to the
    client, [(assetId, price) => handlePriceUpdate(assetId,
    parseFloat(price))]; any number may come out of [parseFloat]. *)
Inductive Event :=
| Start (gamma_ok ctor_ok : bool) (marketIds : list string)
| Stop
| OnOpportunityDetected (callback : OpportunityCallback)
| UpdatePrices (marketId : string) (yesPrice noPrice now : JS.number)
| PriceUpdate (assetId : string) (price now : JS.number)
| Resume
| Client (e : WS.Event).

Definition step (env : WS.Env) (w : World) (e : Event) : option World :=
  match e with
  | Start gamma_ok ctor_ok marketIds => Some (start gamma_ok ctor_ok marketIds w).2
  | Stop => Some (stop w)
  | OnOpportunityDetected callback => Some (onOpportunityDetected callback w)
  | UpdatePrices marketId yesPrice noPrice now =>
      Some (updatePrices marketId yesPrice noPrice now w)
  | PriceUpdate assetId price now => Some (handlePriceUpdate assetId price now w)
  | Resume => resume w
  | Client e => s ← WS.step env (ws w) e; Some (with_ws s w)
  end.

Fixpoint run (env : WS.Env) (w : World) (events : list Event) : option World :=
  match events with
  | [] => Some w
  | e :: rest => w' ← step env w e; run env w' rest
  end.

Definition reachable (env : WS.Env) (c : PartialConfig) (w : World) : Prop :=
  ∃ events, run env (init c) events = Some w.

End Detector.

(* ===================================================================== *)
(** * The bot status route: the portfolio *)
(* ===================================================================== *)

Module Status.

Record Portfolio := {
  totalValue : JS.number;
  cashBalance : JS.number;
  positionsValue : JS.number }.

(** The object returned without credentials and after a failure *)
Definition empty_portfolio : Portfolio :=
  {| totalValue := 0%float; cashBalance := 0%float; positionsValue := 0%float |}.

(** [getPortfolioData()].  [hasCredentials] is the result of the call of
    that name (of the client module).  [balance] is the [balance] string of
    the response of [getBalanceAllowance], or [None] when
    [getOrInitClobClient] or [getBalanceAllowance] throws or is rejected:
    the [catch] block takes over. *)
Definition getPortfolioData (hasCredentials : bool) (balance : option string) : Portfolio :=
  if negb hasCredentials then empty_portfolio
  else
    match balance with
    | Some balance =>
        let cashBalance := (JS.parseFloat balance / 1000000)%float in
        let positionsValue := 0%float in
        {| totalValue := (cashBalance + positionsValue)%float;
           cashBalance := cashBalance;
           positionsValue := positionsValue |}
    | None => empty_portfolio
    end.

End Status.

(* ===================================================================== *)
(** * Vocabulary of the properties *)
(* ===================================================================== *)

(** ** Order of binary64 values *)

(** Non-NaN values ranked in a lexicographic order of integers. *)
Definition rank (f : spec_float) : Z * Z * Z :=
  match f with
  | S754_nan => (0, 0, 0)
  | S754_zero _ => (0, 0, 0)
  | S754_infinity true => (-2, 0, 0)
  | S754_infinity false => (2, 0, 0)
  | S754_finite true m e => (-1, - e, - Zpos m)
  | S754_finite false m e => (1, e, Zpos m)
  end.

Definition lex_compare (x y : Z * Z * Z) : comparison :=
  let '(a1, b1, c1) := x in
  let '(a2, b2, c2) := y in
  match a1 ?= a2 with
  | Eq => match b1 ?= b2 with Eq => c1 ?= c2 | c => c end
  | c => c
  end.

Definition lex_lt (x y : Z * Z * Z) : Prop :=
  x.1.1 < y.1.1 ∨ (x.1.1 = y.1.1 ∧ (x.1.2 < y.1.2 ∨ (x.1.2 = y.1.2 ∧ x.2 < y.2))).

Definition not_nan (f : spec_float) : Prop := f ≠ S754_nan.

#[local] Instance nan_dec (f : spec_float) : Decision (f = S754_nan).
Proof. destruct f; (by left) || (by right). Defined.


(** ** Strings with four decimals *)



(** [n / 10^f] is a multiple of [10^-f] nearest to [m * 2^e], the larger
    one of two: [m * 2^e * 10^f - 1/2 < n <= m * 2^e * 10^f + 1/2]. *)
Definition nearest_multiple (n : Z) (m : positive) (e : Z) (f : nat) : Prop :=
  let t := Zpos m * 10 ^ Z.of_nat f in
  if 0 <=? e then n = t * 2 ^ e
  else 2 * t - 2 ^ (- e) < 2 * n * 2 ^ (- e) ≤ 2 * t + 2 ^ (- e).


(** ** Books, markets and frames of the scenarios *)

(** A book with one bid and one ask *)
Definition one_level_book (bid ask : string) : OrderBook.t :=
  {| OrderBook.market := "market"; OrderBook.asset_id := "asset";
     OrderBook.bids := [ {| OrderBookEntry.price := bid; OrderBookEntry.size := "100" |} ];
     OrderBook.asks := [ {| OrderBookEntry.price := ask; OrderBookEntry.size := "100" |} ];
     OrderBook.timestamp := "" |}.

(** A host for the examples: every text decodes to one book frame for the
    asset "a", and no callback throws. *)
Definition book_frame_for_a : JS.value :=
  JS.VObj [("type", JS.VStr "book"); ("asset_id", JS.VStr "a");
           ("data", JS.VObj [("bids", JS.VArr []); ("asks", JS.VArr [])])].

Definition sample_env : WS.Env :=
  {| WS.JSON_parse := λ _, Some book_frame_for_a;
     WS.orderBook_throws := λ _ _, false;
     WS.price_throws := λ _ _ _, false |}.

(** ** Arbitrage signals *)

Section ArbitrageVocabulary.

Import Arbitrage.


End ArbitrageVocabulary.

(** ** Quotes *)

(** The property as the specification states it, on the returned strings
    read back as numbers: bid at most [bestBid - 0.001], ask at least
    [bestAsk + 0.001], bid below ask. *)
Definition quotes_outside_best (config : MarketMakerConfig.t) (orderBook : OrderBook.t) : Prop :=
  ∀ b bs a as_ quotes,
    OrderBook.bids orderBook = b :: bs → OrderBook.asks orderBook = a :: as_ →
    MM.calculateQuotes config orderBook = Some quotes →
    let bestBid := JS.parseFloat (OrderBookEntry.price b) in
    let bestAsk := JS.parseFloat (OrderBookEntry.price a) in
    JS.le (JS.parseFloat (MM.bid quotes)) (bestBid - 0.001)%float = true ∧
    JS.ge (JS.parseFloat (MM.ask quotes)) (bestAsk + 0.001)%float = true ∧
    JS.lt (JS.parseFloat (MM.bid quotes)) (JS.parseFloat (MM.ask quotes)) = true.

(** ** The streaming client *)

Section ClientVocabulary.

Import WS.

(** The callbacks registered for an asset *)
Definition bookCallbacks (s : t) (a : string) : list OrderBookCallback :=
  default [] (orderBookCallbacks s !! a).
Definition tickCallbacks (s : t) (a : string) : list PriceCallback :=
  default [] (priceCallbacks s !! a).

(** How often [a] occurs in a list of asset ids *)
Definition occurrences (a : string) (assetIds : list string) : nat :=
  length (filter (λ x, x = a) assetIds).

(** An inbound frame that carries the asset id [a] *)
Definition frame_for (env : Env) (data : string) (a : string) : Prop :=
  ∃ message, JSON_parse env data = Some message ∧
             JS.get message "asset_id" = Some (JS.VStr a).

(** A book frame: [type] is "book" and [data] is truthy. *)
Definition book_frame (env : Env) (data : string) (a : string) (orderBook : ParsedOrderBook) (now : string) : Prop :=
  ∃ message d,
    JSON_parse env data = Some message ∧
    JS.get message "type" = Some (JS.VStr "book") ∧
    JS.get message "data" = Some d ∧ JS.truthy d = true ∧
    parseOrderBook message now = Some orderBook ∧
    asset_id orderBook = JS.VStr a.

(** The registry is a set: a second identical subscription changes
    nothing.  This is what the specification asks for. *)
Definition subscribe_is_idempotent : Prop :=
  ∀ (s : t) (assetIds : list string) (cb : OrderBookCallback),
    orderBookCallbacks (subscribeOrderBook assetIds cb (subscribeOrderBook assetIds cb s)) =
    orderBookCallbacks (subscribeOrderBook assetIds cb s).

Definition terminal_message : string := "Max reconnection attempts reached".

(** [n] consecutive failed connection attempts, the first on socket
    [first]: each socket closes without having opened (after an error event
    when [with_error]), and the reconnect timer that the close started
    fires. *)
Fixpoint failures (with_error : bool) (first n : nat) : list Event :=
  match n with
  | O => []
  | S n' =>
      (if with_error then [Error first] else []) ++
      [Close first; Timeout true] ++ failures with_error (S first) n'
  end.

(** The client is waiting for socket [k] to open, after [c] attempts. *)
Definition retrying (h : ErrorCallback) (s : t) (k : nat) (c : Z) : Prop :=
  ws s = Some k ∧ length (sockets s) = S k ∧ sockets s !! k = Some CONNECTING ∧
  shouldReconnect s = true ∧ reconnectAttempts s = c ∧ timers s = 0%nat ∧
  onError s = Some h.

(** A configuration that sets only the attempt ceiling *)
Definition ceiling (n : nat) : WebSocketConfig :=
  {| url := None; reconnectInterval := None; maxReconnectAttempts := Some (Z.of_nat n) |}.

End ClientVocabulary.

(** Unfolds the field updates of the client on an explicit state. *)
Ltac client_simpl :=
  cbv beta iota zeta delta
    [WS.connect WS.disconnect WS.onopen WS.onerror WS.onclose WS.attemptReconnect
     WS.isConnected WS.readyState WS.set_readyState WS.emit WS.with_ws WS.with_config
     WS.with_reconnectAttempts WS.with_isConnecting WS.with_shouldReconnect
     WS.with_orderBookCallbacks WS.with_priceCallbacks WS.with_onError WS.with_sockets
     WS.with_timers WS.with_trace WS.ws WS.config WS.reconnectAttempts WS.isConnecting
     WS.shouldReconnect WS.orderBookCallbacks WS.priceCallbacks WS.onError WS.sockets
     WS.timers WS.trace negb].

(** The specification's sentence, on runs of a client with the default
    configuration and an error handler: whenever the counter stands at the
    ceiling, the handler has been called exactly once. *)
Definition gives_up_once (events : list WS.Event) : Prop :=
  ∀ s, WS.run sample_env (WS.setErrorHandler 0%nat (WS.create WS.no_config)) events = Some s →
       WS.cfg_maxReconnectAttempts (WS.config s) ≤ WS.reconnectAttempts s →
       WS.count WS.is_ErrorCall s = 1%nat.

(** What is observed of a run: the ceiling, the counter, the reconnect
    timers started, the calls of the error handler, and those of them that
    report the terminal error. *)
Definition summary (events : list WS.Event) : option (Z * Z * nat * nat * nat) :=
  s ← WS.run sample_env (WS.setErrorHandler 0%nat (WS.create WS.no_config)) events;
  Some (WS.cfg_maxReconnectAttempts (WS.config s), WS.reconnectAttempts s,
        WS.count WS.is_SetTimeout s, WS.count WS.is_ErrorCall s,
        WS.count WS.is_terminal_error s).

(** ** The market maker *)

Section EngineVocabulary.

Import MM.

(** Every tracked state has position 0. *)
Definition flat_map (m : gmap string MarketMakerState) : Prop :=
  ∀ a state, m !! a = Some state → position state = 0%float.

Definition flat (w : World) : Prop := flat_map (states (mm w)).

(** The subscriptions of the engine for an asset *)
Definition subscriptions (w : World) (a : string) : list WS.OrderBookCallback :=
  bookCallbacks (ws w) a.

End EngineVocabulary.

(** ** The arbitrage detector *)

Section DetectorVocabulary.

Import Arbitrage Detector.

(** The ids under which markets are monitored, in insertion order *)
Definition monitored (w : World) : list string := (monitoredMarkets (detector w)).*1.

(** Every market is stored under its own id and has no asset ids. *)
Definition unpopulated (m : list (string * MonitoredMarket)) : Prop :=
  ∀ k market, (k, market) ∈ m →
    marketId market = k ∧ yesAssetId market = "" ∧ noAssetId market = "".

(** What every operation of the detector keeps *)
Definition well_kept (w : World) : Prop :=
  unpopulated (monitoredMarkets (detector w)) ∧
  NoDup (monitored w) ∧
  (isRunning (detector w) = false → monitoredMarkets (detector w) = []).

(** [market] with new prices and a new time stamp *)
Definition priced (market : MonitoredMarket) (yesPrice noPrice now : JS.number)
  : MonitoredMarket :=
  {| marketId := marketId market;
     yesAssetId := yesAssetId market; noAssetId := noAssetId market;
     yesPrice := yesPrice; noPrice := noPrice; lastUpdate := now |}.

(** The call of the opportunity callback that a change of [market] causes *)
Definition notification (d : t) (market : MonitoredMarket)
  : list (OpportunityCallback * ArbitrageOpportunity.t) :=
  match isRunning d, onOpportunity d, checkYesNoArbitrage (config d) market with
  | true, Some callback, Some opportunity => [(callback, opportunity)]
  | _, _, _ => []
  end.

(** [assetId] is the YES or the NO asset of [market]. *)
Definition has_asset (assetId : string) (market : MonitoredMarket) : Prop :=
  yesAssetId market = assetId ∨ noAssetId market = assetId.

(** [market] after a price of [assetId] came in: the YES price when it is
    the YES asset, the NO price otherwise. *)
Definition repriced (assetId : string) (price now : JS.number) (market : MonitoredMarket)
  : MonitoredMarket :=
  if String.eqb (yesAssetId market) assetId
  then priced market price (noPrice market) now
  else priced market (yesPrice market) price now.

End DetectorVocabulary.

(** ** Effects of the streaming client *)

Section ClientEffects.

Import WS.

(** What may be said of an effect in the state in which the step that
    caused it ends: a reconnect timer runs for the configured interval, a
    new socket is the client's socket and is connecting to the configured
    address, and a frame goes to the client's socket, which is open. *)
Definition sound_effect (s : t) (e : Effect) : Prop :=
  match e with
  | SetTimeout ms => ms = cfg_reconnectInterval (config s)
  | NewWebSocket sock url =>
      ws s = Some sock ∧ readyState s sock = Some CONNECTING ∧ url = cfg_url (config s)
  | SocketSend sock _ => ws s = Some sock ∧ readyState s sock = Some OPEN
  | _ => True
  end.

(** The effects of one step, and that the configuration stays. *)
Definition step_grows (s s' : t) : Prop :=
  config s' = config s ∧
  ∃ effects, trace s' = trace s ++ effects ∧ Forall (sound_effect s') effects.

(** The frames that [resubscribeAll] sends to socket [sock] *)
Definition resubscription (s : t) (sock : nat) : list Effect :=
  (if decide (keys (orderBookCallbacks s) = []) then []
   else [SocketSend sock (subscribe book (keys (orderBookCallbacks s)))]) ++
  (if decide (keys (priceCallbacks s) = []) then []
   else [SocketSend sock (subscribe price (keys (priceCallbacks s)))]).

(** A price frame: [type] is "price_change", [data] is truthy and carries
    [price]. *)
Definition price_frame (env : Env) (data : string) (a : string) (p : JS.value) : Prop :=
  ∃ message d,
    JSON_parse env data = Some message ∧
    JS.get message "type" = Some (JS.VStr "price_change") ∧
    JS.get message "data" = Some d ∧ JS.truthy d = true ∧
    JS.get message "asset_id" = Some (JS.VStr a) ∧
    JS.get d "price" = Some p.

(** A frame that the client has nothing to dispatch for: its text is not
    JSON, or it is [null], or its [type] is neither "book" nor
    "price_change", or its [data] is missing or falsy, or its [asset_id] is
    not a string. *)
Definition undeliverable (env : Env) (data : string) : Prop :=
  match JSON_parse env data with
  | None => True
  | Some message =>
      match JS.get message "type", JS.get message "data", JS.get message "asset_id" with
      | Some type, Some d, Some a =>
          (is_string type "book" = false ∧ is_string type "price_change" = false) ∨
          JS.truthy d = false ∨
          match a with JS.VStr _ => False | _ => True end
      | _, _, _ => True
      end
  end.

End ClientEffects.

(** ** Registries of the client *)

(** No asset is registered with an empty list of callbacks. *)
Definition no_empty_entry {A} (m : gmap string (list A)) : Prop :=
  ∀ a callbacks, m !! a = Some callbacks → callbacks ≠ [].

(** ** Hosts of the examples *)

(** Every text decodes to one price frame for the asset "a". *)
Definition price_frame_for_a : JS.value :=
  JS.VObj [("type", JS.VStr "price_change"); ("asset_id", JS.VStr "a");
           ("data", JS.VObj [("price", JS.VStr "0.52")])].

Definition price_env : WS.Env :=
  {| WS.JSON_parse := λ _, Some price_frame_for_a;
     WS.orderBook_throws := λ _ _, false;
     WS.price_throws := λ _ _ _, false |}.

(** Every text decodes to a heartbeat, which is no market data. *)
Definition heartbeat_env : WS.Env :=
  {| WS.JSON_parse := λ _, Some (JS.VObj [("type", JS.VStr "pong")]);
     WS.orderBook_throws := λ _ _, false;
     WS.price_throws := λ _ _ _, false |}.

(** As [sample_env], but the order-book callback with tag 1 throws. *)
Definition throwing_env : WS.Env :=
  {| WS.JSON_parse := λ _, Some book_frame_for_a;
     WS.orderBook_throws :=
       λ cb _, match cb with WS.OrderBookListener 1 => true | _ => false end;
     WS.price_throws := λ _ _ _, false |}.

(** ** Timers and orders of the market maker *)

Section EngineTimers.

Import MM.

(** Every timer handle the engine keeps for an asset is a live interval
    that refreshes this asset, and handles are given out in increasing
    order. *)
Definition timers_live (w : World) : Prop :=
  (∀ a timer, refreshTimers (mm w) !! a = Some timer → intervals w !! timer = Some a) ∧
  (∀ timer a, intervals w !! timer = Some a → (timer < nextTimer w)%nat).

(** Every tracked state is stored under its own asset id and records no
    order. *)
Definition no_orders (w : World) : Prop :=
  ∀ a state, states (mm w) !! a = Some state →
    assetId state = a ∧ currentBid state = None ∧ currentAsk state = None.

(** No tracked state is running. *)
Definition all_stopped (w : World) : Prop :=
  ∀ a state, states (mm w) !! a = Some state → isRunning state = false.

End EngineTimers.

(** ** Calls of the opportunity callback *)

Section DetectorCalls.

Import Arbitrage Detector.

(** [opp] is what [checkYesNoArbitrage] returns for some market without
    asset ids: its spread is above the threshold and its expected profit
    above zero. *)
Definition genuine (config : ArbitrageConfig.t) (opp : ArbitrageOpportunity.t) : Prop :=
  ∃ market,
    checkYesNoArbitrage config market = Some opp ∧
    yesAssetId market = "" ∧ noAssetId market = "".

(** The events that bring a price *)
Definition is_price_event (e : Event) : bool :=
  match e with
  | UpdatePrices _ _ _ _ | PriceUpdate _ _ _ => true
  | _ => false
  end.

End DetectorCalls.
(* ===================================================================== *)
(** * Properties *)
(* ===================================================================== *)

(** ** The number model on known values *)

Example parseFloat_samples :
  JS.parseFloat "0.40" = 0.4%float ∧
  JS.parseFloat "0.1" = 0.1%float ∧
  JS.parseFloat "  3.14abc" = 3.14%float ∧
  JS.parseFloat "-.5e1" = (-5)%float ∧
  JS.parseFloat "5." = 5%float ∧
  JS.parseFloat "1e" = 1%float ∧
  JS.parseFloat "-0" = (-0)%float ∧
  JS.parseFloat "1e400" = infinity ∧
  JS.parseFloat "-Infinity" = neg_infinity ∧
  JS.parseFloat "9007199254740993" = 9007199254740992%float ∧
  JS.parseFloat "4.9e-324" = 0x1p-1074%float ∧
  JS.parseFloat "2.4703282292062327e-324" = 0%float ∧
  JS.parseFloat "abc" = nan ∧ JS.parseFloat "" = nan ∧ JS.parseFloat "." = nan ∧
  JS.parseFloat "e5" = nan ∧ JS.parseFloat "Inf" = nan.
Proof. vm_compute. repeat split. Qed.

Example toFixed_samples :
  JS.toFixed 0.399 4 = "0.3990" ∧
  JS.toFixed 123.456 4 = "123.4560" ∧
  JS.toFixed 1.005 2 = "1.00" ∧
  JS.toFixed 2.5 0 = "3" ∧
  JS.toFixed (-1.5) 0 = "-2" ∧
  JS.toFixed 0.00005 4 = "0.0001" ∧
  JS.toFixed (-0.00001) 4 = "-0.0000" ∧
  JS.toFixed (-0) 4 = "0.0000" ∧
  JS.toFixed 1e20 2 = "100000000000000000000.00" ∧
  JS.toFixed 1e21 4 = "1e+21" ∧
  JS.toFixed 1.5e300 4 = "1.5e+300" ∧
  JS.toFixed 0x1p70 4 = "1.1805916207174113e+21" ∧
  JS.toFixed (-1e30) 4 = "-1e+30" ∧
  JS.toFixed nan 4 = "NaN" ∧ JS.toFixed neg_infinity 4 = "-Infinity".
Proof. vm_compute. repeat split. Qed.

Example Math_min_max_samples :
  JS.Math_min 1 2 = 1%float ∧ JS.Math_max 1 2 = 2%float ∧
  JS.Math_min 0 (-0) = (-0)%float ∧ JS.Math_min (-0) 0 = (-0)%float ∧
  JS.Math_max 0 (-0) = 0%float ∧ JS.Math_max (-0) 0 = 0%float ∧
  JS.Math_min nan 1 = nan ∧ JS.Math_max 1 nan = nan ∧
  JS.Math_min infinity 1 = 1%float.
Proof. vm_compute. repeat split. Qed.

(** ** Order of binary64 values *)

Section FloatOrder.

#[local] Open Scope Z_scope.

Lemma SFcompare_rank (a b : spec_float) :
  not_nan a → not_nan b → SFcompare a b = Some (lex_compare (rank a) (rank b)).
Proof.
  unfold not_nan.
  destruct a as [[]|[]| |[] m1 e1], b as [[]|[]| |[] m2 e2]; intros Ha Hb;
    try congruence; try reflexivity; cbn [SFcompare rank lex_compare].
  change (PosDef.Pos.compare_cont Eq m1 m2) with (Pos.compare m1 m2).
  destruct (Z.compare_spec e1 e2), (Z.compare_spec (- e1) (- e2)),
    (Pos.compare_spec m1 m2), (Z.compare_spec (- Z.pos m1) (- Z.pos m2));
    cbn; try reflexivity; lia.
Qed.

Lemma lex_compare_refl x : lex_compare x x = Eq.
Proof. destruct x as [[a b] c]. cbn. by rewrite !Z.compare_refl. Qed.

Lemma lex_compare_antisym x y : lex_compare y x = CompOpp (lex_compare x y).
Proof.
  destruct x as [[a1 b1] c1], y as [[a2 b2] c2]. cbn.
  rewrite (Z.compare_antisym a1 a2), (Z.compare_antisym b1 b2), (Z.compare_antisym c1 c2).
  destruct (a1 ?= a2), (b1 ?= b2), (c1 ?= c2); reflexivity.
Qed.

Lemma lex_compare_Lt x y : lex_compare x y = Lt ↔ lex_lt x y.
Proof.
  destruct x as [[a1 b1] c1], y as [[a2 b2] c2]. unfold lex_lt. cbn.
  destruct (Z.compare_spec a1 a2), (Z.compare_spec b1 b2), (Z.compare_spec c1 c2);
    split; intros; try discriminate; try reflexivity; lia.
Qed.

Lemma lex_compare_Eq x y : lex_compare x y = Eq ↔ x = y.
Proof.
  destruct x as [[a1 b1] c1], y as [[a2 b2] c2]. cbn.
  destruct (Z.compare_spec a1 a2), (Z.compare_spec b1 b2), (Z.compare_spec c1 c2);
    split; intros H'; try discriminate; try reflexivity; try (inversion H'; lia); congruence.
Qed.

Lemma lex_lt_trans x y z : lex_lt x y → lex_lt y z → lex_lt x z.
Proof. unfold lex_lt. lia. Qed.

Lemma lex_lt_irrefl x : ¬ lex_lt x x.
Proof. unfold lex_lt. lia. Qed.

Lemma lex_total x y : lex_lt x y ∨ x = y ∨ lex_lt y x.
Proof.
  destruct x as [[a1 b1] c1], y as [[a2 b2] c2]. unfold lex_lt. cbn.
  destruct (Z.lt_trichotomy a1 a2) as [|[|]], (Z.lt_trichotomy b1 b2) as [|[|]],
    (Z.lt_trichotomy c1 c2) as [|[|]]; subst; auto; lia.
Qed.

Lemma is_nan_spec (x : float) : is_nan x = true ↔ Prim2SF x = S754_nan.
Proof.
  unfold is_nan. rewrite FloatAxioms.eqb_spec. unfold SFeqb.
  destruct (Prim2SF x) as [s|s| |s m e] eqn:E.
  - destruct s; cbn; split; intros; discriminate.
  - destruct s; cbn; split; intros; discriminate.
  - cbn. tauto.
  - rewrite SFcompare_rank by (unfold not_nan; congruence).
    rewrite lex_compare_refl. cbn. split; intros; discriminate.
Qed.

Lemma is_nan_false (x : float) : is_nan x = false ↔ not_nan (Prim2SF x).
Proof.
  unfold not_nan. rewrite <- is_nan_spec. destruct (is_nan x); split; congruence.
Qed.

Lemma lt_spec (x y : float) :
  JS.lt x y = true ↔
  not_nan (Prim2SF x) ∧ not_nan (Prim2SF y) ∧ lex_lt (rank (Prim2SF x)) (rank (Prim2SF y)).
Proof.
  unfold JS.lt. rewrite FloatAxioms.ltb_spec. unfold SFltb.
  destruct (decide (Prim2SF x = S754_nan)) as [Hx|Hx].
  { rewrite Hx. cbn. unfold not_nan. split; [discriminate | intuition congruence]. }
  destruct (decide (Prim2SF y = S754_nan)) as [Hy|Hy].
  { rewrite Hy. unfold not_nan. destruct (Prim2SF x); cbn; split; try discriminate; intuition congruence. }
  rewrite SFcompare_rank by assumption. rewrite <- lex_compare_Lt.
  unfold not_nan. destruct (lex_compare _ _); intuition congruence.
Qed.

Lemma le_spec (x y : float) :
  JS.le x y = true ↔
  not_nan (Prim2SF x) ∧ not_nan (Prim2SF y) ∧
  (lex_lt (rank (Prim2SF x)) (rank (Prim2SF y)) ∨ rank (Prim2SF x) = rank (Prim2SF y)).
Proof.
  unfold JS.le. rewrite FloatAxioms.leb_spec. unfold SFleb.
  destruct (decide (Prim2SF x = S754_nan)) as [Hx|Hx].
  { rewrite Hx. cbn. unfold not_nan. split; [discriminate | intuition congruence]. }
  destruct (decide (Prim2SF y = S754_nan)) as [Hy|Hy].
  { rewrite Hy. unfold not_nan. destruct (Prim2SF x); cbn; split; try discriminate; intuition congruence. }
  rewrite SFcompare_rank by assumption.
  rewrite <- lex_compare_Lt, <- lex_compare_Eq.
  unfold not_nan. destruct (lex_compare _ _); intuition congruence.
Qed.

Lemma le_refl (x : float) : is_nan x = false → JS.le x x = true.
Proof. rewrite is_nan_false, le_spec. auto. Qed.

Lemma not_lt_le (a b : float) :
  is_nan a = false → is_nan b = false → JS.lt b a = false → JS.le a b = true.
Proof.
  rewrite !is_nan_false, le_spec. intros Ha Hb Hlt.
  split; [assumption|]. split; [assumption|].
  destruct (lex_total (rank (Prim2SF a)) (rank (Prim2SF b))) as [|[|H]]; auto.
  exfalso. assert (JS.lt b a = true) by (apply lt_spec; auto). congruence.
Qed.

Lemma lt_le (a b : float) : JS.lt a b = true → JS.le a b = true.
Proof. rewrite lt_spec, le_spec. tauto. Qed.

Lemma le_lt_trans (a b c : float) : JS.le a b = true → JS.lt b c = true → JS.lt a c = true.
Proof.
  rewrite le_spec, !lt_spec. intros (Ha & Hb & [H|H]) (_ & Hc & H'); repeat split; auto.
  - eapply lex_lt_trans; eauto.
  - by rewrite H.
Qed.

Lemma lt_le_trans (a b c : float) : JS.lt a b = true → JS.le b c = true → JS.lt a c = true.
Proof.
  rewrite le_spec, !lt_spec. intros (Ha & Hb & H) (_ & Hc & [H'|H']); repeat split; auto.
  - eapply lex_lt_trans; eauto.
  - by rewrite <- H'.
Qed.

Lemma nan_is_nan : is_nan nan = true.
Proof. reflexivity. Qed.

(** [Math.min] is below both arguments and [Math.max] above both, unless
    the result is NaN. *)
Lemma Math_min_le (a b : float) :
  is_nan (JS.Math_min a b) = false →
  JS.le (JS.Math_min a b) a = true ∧ JS.le (JS.Math_min a b) b = true.
Proof.
  unfold JS.Math_min.
  destruct (is_nan a) eqn:Ha, (is_nan b) eqn:Hb; cbn [orb]; try (intros; discriminate).
  destruct (JS.is_neg_zero b && JS.is_pos_zero a) eqn:Hz.
  - intros _. split; [|by apply le_refl].
    apply andb_prop in Hz as [Hzb Hza]. unfold JS.is_neg_zero, JS.is_pos_zero in *.
    apply le_spec. rewrite <- !is_nan_false. repeat split; auto.
    destruct (Prim2SF b) as [[]| | |]; try discriminate.
    destruct (Prim2SF a) as [[]| | |]; try discriminate. auto.
  - destruct (JS.lt b a) eqn:Hlt; intros _.
    + split; [by apply lt_le | by apply le_refl].
    + split; [by apply le_refl | by apply not_lt_le].
Qed.

Lemma Math_max_ge (a b : float) :
  is_nan (JS.Math_max a b) = false →
  JS.ge (JS.Math_max a b) a = true ∧ JS.ge (JS.Math_max a b) b = true.
Proof.
  unfold JS.Math_max, JS.ge. change (λ x y : float, (y <=? x)%float) with (λ x y, JS.le y x).
  destruct (is_nan a) eqn:Ha, (is_nan b) eqn:Hb; cbn [orb]; try (intros; discriminate).
  destruct (JS.is_pos_zero b && JS.is_neg_zero a) eqn:Hz.
  - intros _. split; [|by apply le_refl].
    apply andb_prop in Hz as [Hzb Hza]. unfold JS.is_neg_zero, JS.is_pos_zero in *.
    apply le_spec. rewrite <- !is_nan_false. repeat split; auto.
    destruct (Prim2SF b) as [[]| | |]; try discriminate.
    destruct (Prim2SF a) as [[]| | |]; try discriminate. auto.
  - unfold JS.gt. fold (JS.lt a b). destruct (JS.lt a b) eqn:Hlt; intros _.
    + split; [by apply lt_le | by apply le_refl].
    + split; [by apply le_refl | by apply not_lt_le].
Qed.

End FloatOrder.

(** ** Subtracting from 1 a number above 1 *)






(** ** The arbitrage check *)

Section CheckYesNoArbitrage.

Import Arbitrage.

Variable config : ArbitrageConfig.t.
Variable market : MonitoredMarket.

Let total : JS.number := (yesPrice market + noPrice market)%float.
Let spread : JS.number := (1 - total)%float.
Let expectedProfit : JS.number :=
  (spread * JS.parseFloat (ArbitrageConfig.orderSize config)
   - ArbitrageConfig.maxSlippage config * 2)%float.




End CheckYesNoArbitrage.

(** The scenario of the specification: 0.48 and 0.47 with the default
    configuration give a spread of about 0.05 and two BUY signals; the
    profit is [0.05 * 50 - 0.005 * 2], about 2.49. *)
Example arbitrage_scenario :
  let market := {| Arbitrage.marketId := "m"; Arbitrage.yesAssetId := "yes";
                   Arbitrage.noAssetId := "no"; Arbitrage.yesPrice := 0.48%float;
                   Arbitrage.noPrice := 0.47%float; Arbitrage.lastUpdate := 0%float |} in
  ∃ opp, Arbitrage.checkYesNoArbitrage Arbitrage.DEFAULT_CONFIG market = Some opp ∧
    JS.toFixed (ArbitrageOpportunity.spread opp) 4 = "0.0500" ∧
    JS.toFixed (ArbitrageOpportunity.expectedProfit opp) 4 = "2.4900" ∧
    map TradeSignal.action (ArbitrageOpportunity.signals opp) = [BUY; BUY] ∧
    map TradeSignal.price (ArbitrageOpportunity.signals opp) = ["0.4800"; "0.4700"].
Proof. cbv zeta. eexists. split; [vm_compute; reflexivity|]. vm_compute. auto. Qed.

(** ** Four decimal places *)












Lemma scaled_round_nearest (m : positive) (e : Z) (f : nat) :
  nearest_multiple (JS.scaled_round m e f) m e f.
Proof.
  unfold nearest_multiple, JS.scaled_round. cbv zeta.
  destruct (Z.leb_spec 0 e) as [He|He]; [reflexivity|].
  set (t := Z.pos m * 10 ^ Z.of_nat f). set (k := - e).
  assert (0 < 2 ^ k) as Hk by (apply Z.pow_pos_nonneg; lia).
  replace (2 ^ (k + 1)) with (2 * 2 ^ k) by (rewrite Z.pow_add_r by lia; lia).
  pose proof (Z.div_mod (2 * t + 2 ^ k) (2 * 2 ^ k) ltac:(lia)) as D.
  pose proof (Z.mod_pos_bound (2 * t + 2 ^ k) (2 * 2 ^ k) ltac:(lia)) as B.
  nia.
Qed.

(** For a finite value below [10^21], [toFixed] writes the nearest
    multiple of [10^-f]. *)
Lemma toFixed_nearest (x : JS.number) (s : bool) (m : positive) (e : Z) (f : nat) :
  Prim2SF x = S754_finite s m e → JS.at_least_1e21 m e = false →
  ∃ n, JS.toFixed x f = (if s then "-" else "") +:+ JS.fixed_notation n f ∧
       nearest_multiple n m e f.
Proof.
  intros Hx Hr. exists (JS.scaled_round m e f).
  split; [|apply scaled_round_nearest]. unfold JS.toFixed. by rewrite Hx, Hr.
Qed.

(** ** Quotes of the market maker *)

Lemma calculateQuotes_none_iff (config : MarketMakerConfig.t) (orderBook : OrderBook.t) :
  MM.calculateQuotes config orderBook = None ↔
  OrderBook.bids orderBook = [] ∨ OrderBook.asks orderBook = [].
Proof.
  unfold MM.calculateQuotes.
  destruct (OrderBook.bids orderBook), (OrderBook.asks orderBook);
    split; intros H; auto; try discriminate; destruct H; discriminate.
Qed.



(** ** NaN propagates *)

Lemma is_nan_eq (x : float) : is_nan x = true → x = nan.
Proof.
  rewrite is_nan_spec. intros H. rewrite <- (SF2Prim_Prim2SF x), H. reflexivity.
Qed.

Lemma Prim2SF_nan_eq (x : float) : Prim2SF x = S754_nan → x = nan.
Proof. intros H. apply is_nan_eq, is_nan_spec, H. Qed.

Lemma add_nan_l (y : float) : (nan + y)%float = nan.
Proof. apply Prim2SF_nan_eq. rewrite add_spec. reflexivity. Qed.

Lemma add_nan_r (x : float) : (x + nan)%float = nan.
Proof.
  apply Prim2SF_nan_eq. rewrite add_spec. change (Prim2SF nan) with S754_nan.
  by destruct (Prim2SF x) as [[]|[]| |].
Qed.

Lemma sub_nan_l (y : float) : (nan - y)%float = nan.
Proof. apply Prim2SF_nan_eq. rewrite sub_spec. reflexivity. Qed.

Lemma mul_nan_l (y : float) : (nan * y)%float = nan.
Proof. apply Prim2SF_nan_eq. rewrite mul_spec. reflexivity. Qed.

Lemma div_nan_l (y : float) : (nan / y)%float = nan.
Proof. apply Prim2SF_nan_eq. rewrite div_spec. reflexivity. Qed.

Lemma Math_min_nan_l (y : float) : JS.Math_min nan y = nan.
Proof. reflexivity. Qed.

Lemma Math_max_nan_l (y : float) : JS.Math_max nan y = nan.
Proof. reflexivity. Qed.

Lemma final_quotes_nan (config : MarketMakerConfig.t) (bestBid bestAsk : float) :
  is_nan bestBid = true ∨ is_nan bestAsk = true →
  MM.finalBid config bestBid bestAsk = nan ∧ MM.finalAsk config bestBid bestAsk = nan.
Proof.
  intros H. assert (MM.midPrice bestBid bestAsk = nan) as E.
  { unfold MM.midPrice. destruct H as [H|H]; apply is_nan_eq in H; subst.
    - by rewrite add_nan_l, div_nan_l.
    - by rewrite add_nan_r, div_nan_l. }
  unfold MM.finalBid, MM.finalAsk. rewrite E, !mul_nan_l. auto.
Qed.

(** C10. [calculateQuotes] returns none exactly when a side is empty, and
    never looks at what the prices are: when the best bid or the best ask
    is not numeric, a quote is still returned, and both of its strings are
    "NaN", the rendering of NaN by [toFixed(4)]; the book with best bid
    "abc" and best ask "xyz" is such a book. *)
Theorem calculateQuotes_not_validated (config : MarketMakerConfig.t) :
  (∀ orderBook, MM.calculateQuotes config orderBook = None ↔
                OrderBook.bids orderBook = [] ∨ OrderBook.asks orderBook = []) ∧
  (∀ orderBook b bs a as_,
     OrderBook.bids orderBook = b :: bs → OrderBook.asks orderBook = a :: as_ →
     is_nan (JS.parseFloat (OrderBookEntry.price b)) = true ∨
     is_nan (JS.parseFloat (OrderBookEntry.price a)) = true →
     MM.calculateQuotes config orderBook = Some {| MM.bid := "NaN"; MM.ask := "NaN" |}) ∧
  (let orderBook := one_level_book "abc" "xyz" in
   OrderBook.bids orderBook ≠ [] ∧ OrderBook.asks orderBook ≠ [] ∧
   is_nan (JS.parseFloat "abc") = true ∧ is_nan (JS.parseFloat "xyz") = true ∧
   JS.toFixed nan 4 = "NaN" ∧
   MM.calculateQuotes config orderBook = Some {| MM.bid := "NaN"; MM.ask := "NaN" |}).
Proof.
  assert (∀ orderBook b bs a as_,
     OrderBook.bids orderBook = b :: bs → OrderBook.asks orderBook = a :: as_ →
     is_nan (JS.parseFloat (OrderBookEntry.price b)) = true ∨
     is_nan (JS.parseFloat (OrderBookEntry.price a)) = true →
     MM.calculateQuotes config orderBook = Some {| MM.bid := "NaN"; MM.ask := "NaN" |}) as N.
  { intros orderBook b bs a as_ Hb Ha H. unfold MM.calculateQuotes. rewrite Hb, Ha.
    destruct (final_quotes_nan config _ _ H) as [-> ->]. reflexivity. }
  split; [intros; apply calculateQuotes_none_iff|]. split; [exact N|].
  cbv zeta. split; [discriminate|]. split; [discriminate|].
  split; [reflexivity|]. split; [reflexivity|]. split; [reflexivity|].
  eapply N; [reflexivity | reflexivity | left; reflexivity].
Qed.

(** ** Signals of the market maker *)

Section GenerateSignals.

Variable m : MM.MarketMaker.
Variable assetId : string.
Variable orderBook : OrderBook.t.

Let maxPosition : JS.number :=
  JS.parseFloat (MarketMakerConfig.maxPosition (MM.config m)).

(** C6. [generateSignals] returns the empty sequence when the asset is not
    managed, when it is not running, and when [calculateQuotes] returns
    none.  Otherwise the result is a BUY signal at the bid quote, present
    exactly when the position is below [maxPosition], followed by a SELL
    signal at the ask quote, present exactly when the position is above
    [-maxPosition]; each has the configured order size; and both are
    present when both comparisons hold. *)
Theorem generateSignals_spec :
  (MM.states m !! assetId = None → MM.generateSignals m assetId orderBook = []) ∧
  (∀ state, MM.states m !! assetId = Some state → MM.isRunning state = false →
     MM.generateSignals m assetId orderBook = []) ∧
  (MM.calculateQuotes (MM.config m) orderBook = None →
     MM.generateSignals m assetId orderBook = []) ∧
  (∀ state quotes,
     MM.states m !! assetId = Some state → MM.isRunning state = true →
     MM.calculateQuotes (MM.config m) orderBook = Some quotes →
     let buy := MM.bid_signal (MM.config m) state assetId quotes in
     let sell := MM.ask_signal (MM.config m) state assetId quotes in
     TradeSignal.action buy = BUY ∧ TradeSignal.price buy = MM.bid quotes ∧
     TradeSignal.size buy = MarketMakerConfig.orderSize (MM.config m) ∧
     TradeSignal.action sell = SELL ∧ TradeSignal.price sell = MM.ask quotes ∧
     TradeSignal.size sell = MarketMakerConfig.orderSize (MM.config m) ∧
     MM.generateSignals m assetId orderBook =
       (if JS.lt (MM.position state) maxPosition then [buy] else []) ++
       (if JS.gt (MM.position state) (- maxPosition)%float then [sell] else []) ∧
     (buy ∈ MM.generateSignals m assetId orderBook ↔
        JS.lt (MM.position state) maxPosition = true) ∧
     (sell ∈ MM.generateSignals m assetId orderBook ↔
        JS.gt (MM.position state) (- maxPosition)%float = true) ∧
     (JS.lt (MM.position state) maxPosition = true →
      JS.gt (MM.position state) (- maxPosition)%float = true →
      MM.generateSignals m assetId orderBook = [buy; sell])).
Proof.
  split. { intros H. unfold MM.generateSignals. by rewrite H. }
  split. { intros state Hs Hr. unfold MM.generateSignals. by rewrite Hs, Hr. }
  split. { intros Hq. unfold MM.generateSignals. rewrite Hq.
           destruct (MM.states m !! assetId) as [state|]; [|reflexivity].
           by destruct (MM.isRunning state). }
  intros state quotes Hs Hr Hq buy sell.
  assert (MM.generateSignals m assetId orderBook =
          (if JS.lt (MM.position state) maxPosition then [buy] else []) ++
          (if JS.gt (MM.position state) (- maxPosition)%float then [sell] else [])) as E.
  { unfold MM.generateSignals. by rewrite Hs, Hr, Hq. }
  rewrite E. do 6 (split; [reflexivity|]). split; [reflexivity|].
  assert (buy ≠ sell) as D by (unfold buy, sell, MM.bid_signal, MM.ask_signal; congruence).
  destruct (JS.lt _ _), (JS.gt _ _); cbn [app];
    repeat split; intros; try reflexivity; try discriminate;
    set_unfold; intuition congruence.
Qed.

End GenerateSignals.

(** ** Quotes and the best of book *)

(** C3, refuted as stated.  With a best bid of 0.40006 the bound is
    0.39906 and the quote, rounded to four decimals, is 0.3991.  With a best
    bid of 0.011 the quote 0.0100 exceeds [0.011 - 0.001], which is
    0.009999999999999998 in binary64.  With prices that are not numeric both
    quotes are NaN and no comparison holds.  With a best bid of 0.5 above a
    best ask of -0.5 both quotes are 0.0000. *)
Lemma quotes_outside_best_fails :
  ¬ quotes_outside_best MM.DEFAULT_CONFIG (one_level_book "0.40006" "0.44") ∧
  ¬ quotes_outside_best MM.DEFAULT_CONFIG (one_level_book "0.011" "0.021") ∧
  ¬ quotes_outside_best MM.DEFAULT_CONFIG (one_level_book "abc" "xyz") ∧
  ¬ quotes_outside_best MM.DEFAULT_CONFIG (one_level_book "0.5" "-0.5") ∧
  MM.calculateQuotes MM.DEFAULT_CONFIG (one_level_book "0.40006" "0.44") =
    Some {| MM.bid := "0.3991"; MM.ask := "0.4410" |} ∧
  JS.toFixed (JS.parseFloat "0.40006" - 0.001) 5 = "0.39906" ∧
  MM.calculateQuotes MM.DEFAULT_CONFIG (one_level_book "0.011" "0.021") =
    Some {| MM.bid := "0.0100"; MM.ask := "0.0220" |} ∧
  JS.toFixed (JS.parseFloat "0.011" - 0.001) 20 = "0.00999999999999999847" ∧
  MM.calculateQuotes MM.DEFAULT_CONFIG (one_level_book "abc" "xyz") =
    Some {| MM.bid := "NaN"; MM.ask := "NaN" |} ∧
  MM.calculateQuotes MM.DEFAULT_CONFIG (one_level_book "0.5" "-0.5") =
    Some {| MM.bid := "0.0000"; MM.ask := "0.0000" |}.
Proof.
  assert (MM.calculateQuotes MM.DEFAULT_CONFIG (one_level_book "0.40006" "0.44") =
          Some {| MM.bid := "0.3991"; MM.ask := "0.4410" |}) as E1
    by (vm_compute; reflexivity).
  assert (MM.calculateQuotes MM.DEFAULT_CONFIG (one_level_book "0.011" "0.021") =
          Some {| MM.bid := "0.0100"; MM.ask := "0.0220" |}) as E2
    by (vm_compute; reflexivity).
  assert (MM.calculateQuotes MM.DEFAULT_CONFIG (one_level_book "abc" "xyz") =
          Some {| MM.bid := "NaN"; MM.ask := "NaN" |}) as E3
    by (vm_compute; reflexivity).
  assert (MM.calculateQuotes MM.DEFAULT_CONFIG (one_level_book "0.5" "-0.5") =
          Some {| MM.bid := "0.0000"; MM.ask := "0.0000" |}) as E4
    by (vm_compute; reflexivity).
  split; [|split; [|split; [|split]]].
  - intros H. specialize (H _ _ _ _ _ eq_refl eq_refl E1) as [H _].
    vm_compute in H. discriminate.
  - intros H. specialize (H _ _ _ _ _ eq_refl eq_refl E2) as [H _].
    vm_compute in H. discriminate.
  - intros H. specialize (H _ _ _ _ _ eq_refl eq_refl E3) as [H _].
    vm_compute in H. discriminate.
  - intros H. specialize (H _ _ _ _ _ eq_refl eq_refl E4) as (_ & _ & H).
    vm_compute in H. discriminate.
  - split; [exact E1|]. split; [vm_compute; reflexivity|].
    split; [exact E2|]. split; [vm_compute; reflexivity|].
    split; [exact E3 | exact E4].
Qed.

(** C3, as the code has it.  The quotes are [toFixed(4)] of a final bid
    and a final ask; whenever these are numbers, the final bid is at most
    [bestBid - 0.001] and the final ask at least [bestAsk + 0.001], and the
    final bid is below the final ask whenever [bestBid - 0.001] is below
    [bestAsk + 0.001]. *)
Theorem final_quotes_outside_best (config : MarketMakerConfig.t) (orderBook : OrderBook.t)
    (b a : OrderBookEntry.t) (bs as_ : list OrderBookEntry.t) :
  OrderBook.bids orderBook = b :: bs →
  OrderBook.asks orderBook = a :: as_ →
  let bestBid := JS.parseFloat (OrderBookEntry.price b) in
  let bestAsk := JS.parseFloat (OrderBookEntry.price a) in
  let bid := MM.finalBid config bestBid bestAsk in
  let ask := MM.finalAsk config bestBid bestAsk in
  MM.calculateQuotes config orderBook =
    Some {| MM.bid := JS.toFixed bid 4; MM.ask := JS.toFixed ask 4 |} ∧
  (is_nan bid = false → JS.le bid (bestBid - 0.001)%float = true) ∧
  (is_nan ask = false → JS.ge ask (bestAsk + 0.001)%float = true) ∧
  (is_nan bid = false → is_nan ask = false →
   JS.lt (bestBid - 0.001)%float (bestAsk + 0.001)%float = true → JS.lt bid ask = true).
Proof.
  intros Hb Ha bestBid bestAsk bid ask.
  split. { unfold MM.calculateQuotes. by rewrite Hb, Ha. }
  assert (is_nan bid = false → JS.le bid (bestBid - 0.001)%float = true) as Lb.
  { intros N. by apply Math_min_le in N as [_ ?]. }
  assert (is_nan ask = false → JS.ge ask (bestAsk + 0.001)%float = true) as La.
  { intros N. by apply Math_max_ge in N as [_ ?]. }
  split; [exact Lb|]. split; [exact La|].
  intros Nb Na Hlt.
  eapply le_lt_trans; [exact (Lb Nb)|].
  eapply lt_le_trans; [exact Hlt|]. exact (La Na).
Qed.

Lemma final_quotes_outside_best_witness :
  let bid := MM.finalBid MM.DEFAULT_CONFIG (JS.parseFloat "0.40") (JS.parseFloat "0.44") in
  let ask := MM.finalAsk MM.DEFAULT_CONFIG (JS.parseFloat "0.40") (JS.parseFloat "0.44") in
  JS.le bid (JS.parseFloat "0.40" - 0.001)%float = true ∧
  JS.ge ask (JS.parseFloat "0.44" + 0.001)%float = true ∧
  JS.lt bid ask = true.
Proof.
  pose proof (final_quotes_outside_best MM.DEFAULT_CONFIG (one_level_book "0.40" "0.44")
                _ _ _ _ eq_refl eq_refl) as (_ & Hb & Ha & Hlt).
  cbv zeta. split; [apply Hb; reflexivity|]. split; [apply Ha; reflexivity|].
  apply Hlt; reflexivity.
Defined.

(** ** The subscription registry *)

Section Registry.

Import WS.

Variable env : Env.

Lemma with_trace_same (s : t) : with_trace (trace s) s = s.
Proof. by destruct s. Qed.

Lemma remove_callbacks_fold (assetIds : list string) (s : t) :
  let s' := fold_left remove_callbacks assetIds s in
  (∀ a, orderBookCallbacks s' !! a =
        if decide (a ∈ assetIds) then None else orderBookCallbacks s !! a) ∧
  (∀ a, priceCallbacks s' !! a =
        if decide (a ∈ assetIds) then None else priceCallbacks s !! a) ∧
  ws s' = ws s ∧ sockets s' = sockets s ∧ trace s' = trace s.
Proof.
  assert (∀ (a x : string) ids (A : Type) (u v : option A),
            (if decide (a ∈ ids) then None
             else if decide (a = x) then None else v) =
            if decide (a ∈ x :: ids) then None else v) as D.
  { intros a x ids A u v. destruct (decide (a ∈ ids)) as [Hin|Hin].
    - by rewrite decide_True by (by apply list_elem_of_further).
    - destruct (decide (a = x)) as [->|Hne].
      + by rewrite decide_True by apply list_elem_of_here.
      + rewrite decide_False; [done|]. by intros [?|?]%elem_of_cons. }
  revert s. induction assetIds as [|x ids IH]; intros s; cbn [fold_left].
  - repeat split; intros a; rewrite decide_False; try done; apply not_elem_of_nil.
  - destruct (IH (remove_callbacks s x)) as (Hb & Hp & Hw & Hs & Ht).
    cbv zeta. rewrite Hw, Hs, Ht. repeat split; try reflexivity; intros a.
    + rewrite Hb, <- (D a x ids _ None). cbn. destruct (decide (a ∈ ids)); [done|].
      destruct (decide (a = x)) as [->|Hne];
        [apply lookup_delete_eq | by apply lookup_delete_ne].
    + rewrite Hp, <- (D a x ids _ None). cbn. destruct (decide (a ∈ ids)); [done|].
      destruct (decide (a = x)) as [->|Hne];
        [apply lookup_delete_eq | by apply lookup_delete_ne].
Qed.

Lemma unsubscribe_registry (assetIds : list string) (s : t) :
  orderBookCallbacks (unsubscribe assetIds s) =
    orderBookCallbacks (fold_left remove_callbacks assetIds s) ∧
  priceCallbacks (unsubscribe assetIds s) =
    priceCallbacks (fold_left remove_callbacks assetIds s).
Proof.
  unfold unsubscribe, send. destruct (isConnected _); [|done].
  by destruct (ws _).
Qed.

(** A frame for an asset without callbacks calls nothing. *)
Lemma dispatch_no_callbacks (s : t) (message : JS.value) (now a : string) :
  JS.get message "asset_id" = Some (JS.VStr a) →
  orderBookCallbacks s !! a = None → priceCallbacks s !! a = None →
  dispatch env s message now = Some [] ∨ dispatch env s message now = None.
Proof.
  intros Ha Hb Hp. unfold dispatch, parseOrderBook. rewrite Ha.
  destruct (JS.get message "type") as [type|]; [|by right]. cbn [mbind option_bind].
  destruct (is_string type "book").
  - destruct (JS.get message "data") as [data|]; [|by right]. cbn [mbind option_bind].
    destruct (JS.truthy data).
    + destruct (JS.get message "market") as [mk|]; [|by right]. cbn [mbind option_bind].
      destruct (JS.get data "bids"); [|by right]. cbn [mbind option_bind].
      destruct (JS.get data "asks"); [|by right]. cbn [mbind option_bind].
      destruct (JS.get data "timestamp"); [|by right]. cbn [mbind option_bind asset_id lookup_value].
      rewrite Hb. cbn [default call_each mbind option_bind].
      destruct (is_string type "price_change"); [|by left].
      destruct (JS.get data "price"); [|by right].
      cbn [mbind option_bind lookup_value]. rewrite Hp. by left.
    + cbn [mbind option_bind].
      destruct (is_string type "price_change"); by left.
  - cbn [mbind option_bind].
    destruct (is_string type "price_change"); [|by left].
    destruct (JS.get message "data") as [data|]; [|by right]. cbn [mbind option_bind].
    destruct (JS.truthy data); [|by left].
    cbn [mbind option_bind lookup_value]. rewrite Hp.
    destruct (JS.get data "price"); [|by right]. by left.
Qed.

Lemma handleMessage_no_callbacks (s : t) (data now a : string) :
  frame_for env data a →
  orderBookCallbacks s !! a = None → priceCallbacks s !! a = None →
  handleMessage env data now s = s.
Proof.
  intros (message & Hp & Ha) Hb Hpr. unfold handleMessage. rewrite Hp.
  destruct (dispatch_no_callbacks s message now a Ha Hb Hpr) as [-> | ->]; [|done].
  rewrite app_nil_r. apply with_trace_same.
Qed.

(** C8. [unsubscribe(assetIds)] removes every order-book callback and
    every price callback of each of these ids, however many there were, and
    a frame that then arrives for such an asset calls no callback at all. *)
Theorem unsubscribe_removes_all (assetIds : list string) (s : t) (a : string) :
  a ∈ assetIds →
  let s' := unsubscribe assetIds s in
  orderBookCallbacks s' !! a = None ∧
  priceCallbacks s' !! a = None ∧
  bookCallbacks s' a = [] ∧ tickCallbacks s' a = [] ∧
  (∀ data now, frame_for env data a →
     handleMessage env data now s' = s' ∧
     count is_callback_call (handleMessage env data now s') = count is_callback_call s').
Proof.
  intros Hin s'.
  destruct (unsubscribe_registry assetIds s) as [Eb Ep].
  destruct (remove_callbacks_fold assetIds s) as (Hb & Hp & _).
  assert (orderBookCallbacks s' !! a = None) as Nb.
  { unfold s'. rewrite Eb, Hb. by rewrite decide_True. }
  assert (priceCallbacks s' !! a = None) as Np.
  { unfold s'. rewrite Ep, Hp. by rewrite decide_True. }
  split; [exact Nb|]. split; [exact Np|].
  split; [unfold bookCallbacks; by rewrite Nb|].
  split; [unfold tickCallbacks; by rewrite Np|].
  intros data now Hf. by rewrite (handleMessage_no_callbacks s' data now a Hf Nb Np).
Qed.

Lemma add_orderBookCallback_fold (cb : OrderBookCallback) (assetIds : list string) (s : t) :
  let s' := fold_left (add_orderBookCallback cb) assetIds s in
  (∀ a, bookCallbacks s' a = bookCallbacks s a ++ replicate (occurrences a assetIds) cb) ∧
  priceCallbacks s' = priceCallbacks s ∧
  ws s' = ws s ∧ sockets s' = sockets s ∧ trace s' = trace s.
Proof.
  revert s. induction assetIds as [|x ids IH]; intros s; cbn [fold_left].
  - repeat split. intros a. cbn. by rewrite app_nil_r.
  - destruct (IH (add_orderBookCallback cb s x)) as (Hb & Hp & Hw & Hs & Ht).
    cbv zeta. rewrite Hp, Hw, Hs, Ht. repeat split. intros a. rewrite Hb.
    unfold occurrences, bookCallbacks. cbn [add_orderBookCallback orderBookCallbacks with_orderBookCallbacks].
    rewrite filter_cons. destruct (decide (x = a)) as [->|Hne].
    + rewrite lookup_insert_eq. cbn. by rewrite <- app_assoc.
    + by rewrite lookup_insert_ne by done.
Qed.

Lemma add_priceCallback_fold (cb : PriceCallback) (assetIds : list string) (s : t) :
  let s' := fold_left (add_priceCallback cb) assetIds s in
  (∀ a, tickCallbacks s' a = tickCallbacks s a ++ replicate (occurrences a assetIds) cb) ∧
  orderBookCallbacks s' = orderBookCallbacks s ∧
  ws s' = ws s ∧ sockets s' = sockets s ∧ trace s' = trace s.
Proof.
  revert s. induction assetIds as [|x ids IH]; intros s; cbn [fold_left].
  - repeat split. intros a. cbn. by rewrite app_nil_r.
  - destruct (IH (add_priceCallback cb s x)) as (Hb & Hp & Hw & Hs & Ht).
    cbv zeta. rewrite Hp, Hw, Hs, Ht. repeat split. intros a. rewrite Hb.
    unfold occurrences, tickCallbacks. cbn [add_priceCallback priceCallbacks with_priceCallbacks].
    rewrite filter_cons. destruct (decide (x = a)) as [->|Hne].
    + rewrite lookup_insert_eq. cbn. by rewrite <- app_assoc.
    + by rewrite lookup_insert_ne by done.
Qed.

Lemma sendSubscription_registry (assetIds : list string) (type : Channel) (s : t) :
  orderBookCallbacks (sendSubscription assetIds type s) = orderBookCallbacks s ∧
  priceCallbacks (sendSubscription assetIds type s) = priceCallbacks s.
Proof.
  unfold sendSubscription, send. destruct (negb _); [done|]. by destruct (ws s).
Qed.

Lemma subscribeOrderBook_callbacks (assetIds : list string) (cb : OrderBookCallback) (s : t) a :
  bookCallbacks (subscribeOrderBook assetIds cb s) a =
    bookCallbacks s a ++ replicate (occurrences a assetIds) cb.
Proof.
  destruct (add_orderBookCallback_fold cb assetIds s) as (Hb & _).
  unfold subscribeOrderBook. destruct (isConnected _); [|apply Hb].
  unfold bookCallbacks at 1.
  rewrite (proj1 (sendSubscription_registry _ _ _)). apply Hb.
Qed.

Lemma subscribePrice_callbacks (assetIds : list string) (cb : PriceCallback) (s : t) a :
  tickCallbacks (subscribePrice assetIds cb s) a =
    tickCallbacks s a ++ replicate (occurrences a assetIds) cb.
Proof.
  destruct (add_priceCallback_fold cb assetIds s) as (Hb & _).
  unfold subscribePrice. destruct (isConnected _); [|apply Hb].
  unfold tickCallbacks at 1.
  rewrite (proj2 (sendSubscription_registry _ _ _)). apply Hb.
Qed.

Lemma call_each_no_throw {A} (throws : A → bool) (call : A → Effect) (callbacks : list A) :
  (∀ cb, cb ∈ callbacks → throws cb = false) →
  call_each throws call callbacks = (map call callbacks, false).
Proof.
  induction callbacks as [|cb rest IH]; intros H; [done|]. cbn.
  rewrite H by apply list_elem_of_here.
  rewrite IH; [done|]. intros cb' Hin. by apply H, list_elem_of_further.
Qed.

(** Such a frame calls every callback registered for its asset, in order,
    when none of them throws. *)
Lemma handleMessage_book (s : t) (data now a : string) (orderBook : ParsedOrderBook) :
  book_frame env data a orderBook now →
  (∀ cb, cb ∈ bookCallbacks s a → orderBook_throws env cb orderBook = false) →
  trace (handleMessage env data now s) =
    trace s ++ map (λ cb, OrderBookCall cb orderBook) (bookCallbacks s a).
Proof.
  intros (message & d & Hp & Ht & Hd & Htr & Hob & Ha) Hth.
  unfold handleMessage. rewrite Hp. unfold dispatch.
  rewrite Ht. cbn [mbind option_bind is_string String.eqb Ascii.eqb Bool.eqb].
  rewrite Hd. cbn [mbind option_bind]. rewrite Htr, Hob. cbn [mbind option_bind].
  rewrite Ha. cbn [lookup_value]. fold (bookCallbacks s a).
  rewrite call_each_no_throw by done. reflexivity.
Qed.

Lemma unsubscribe_connection (assetIds : list string) (s : t) :
  ws (unsubscribe assetIds s) = ws s ∧ sockets (unsubscribe assetIds s) = sockets s ∧
  isConnected (unsubscribe assetIds s) = isConnected s.
Proof.
  destruct (remove_callbacks_fold assetIds s) as (_ & _ & Hw & Hs & _).
  assert (isConnected (fold_left remove_callbacks assetIds s) = isConnected s) as Hc.
  { unfold isConnected, readyState. by rewrite Hw, Hs. }
  unfold unsubscribe. rewrite Hc. destruct (isConnected s); [|by rewrite Hw, Hs].
  unfold send. rewrite Hw. destruct (ws s); cbn; rewrite ?Hw, ?Hs; done.
Qed.

Lemma unsubscribe_twice (assetIds : list string) (s : t) :
  orderBookCallbacks (unsubscribe assetIds (unsubscribe assetIds s)) =
    orderBookCallbacks (unsubscribe assetIds s) ∧
  priceCallbacks (unsubscribe assetIds (unsubscribe assetIds s)) =
    priceCallbacks (unsubscribe assetIds s).
Proof.
  destruct (unsubscribe_registry assetIds (unsubscribe assetIds s)) as [-> ->].
  destruct (remove_callbacks_fold assetIds (unsubscribe assetIds s)) as (Hb2 & Hp2 & _).
  destruct (unsubscribe_registry assetIds s) as [Eb Ep].
  destruct (remove_callbacks_fold assetIds s) as (Hb & Hp & _).
  split; apply map_eq; intros a.
  - rewrite Hb2, Eb, Hb. by destruct (decide _).
  - rewrite Hp2, Ep, Hp. by destruct (decide _).
Qed.

(** C5, as the code has it.  Subscriptions are additive: every call of
    [subscribeOrderBook] (of [subscribePrice]) appends the callback to the
    list of each asset id it names, once per occurrence, so two identical
    calls register it twice, and a frame for that asset then calls it twice
    (when no callback throws).  Removal is idempotent: a second
    [unsubscribe] with the same ids leaves both maps as they are. *)
Theorem subscribe_appends (assetIds : list string) (s : t) (a : string) :
  (∀ cb,
     bookCallbacks (subscribeOrderBook assetIds cb s) a =
       bookCallbacks s a ++ replicate (occurrences a assetIds) cb ∧
     bookCallbacks (subscribeOrderBook assetIds cb (subscribeOrderBook assetIds cb s)) a =
       bookCallbacks s a ++ replicate (2 * occurrences a assetIds) cb) ∧
  (∀ cb,
     tickCallbacks (subscribePrice assetIds cb s) a =
       tickCallbacks s a ++ replicate (occurrences a assetIds) cb ∧
     tickCallbacks (subscribePrice assetIds cb (subscribePrice assetIds cb s)) a =
       tickCallbacks s a ++ replicate (2 * occurrences a assetIds) cb) ∧
  (∀ cb data now orderBook,
     let s2 := subscribeOrderBook assetIds cb (subscribeOrderBook assetIds cb s) in
     book_frame env data a orderBook now →
     bookCallbacks s a = [] → occurrences a assetIds = 1%nat →
     orderBook_throws env cb orderBook = false →
     trace (handleMessage env data now s2) =
       trace s2 ++ [OrderBookCall cb orderBook; OrderBookCall cb orderBook]) ∧
  orderBookCallbacks (unsubscribe assetIds (unsubscribe assetIds s)) =
    orderBookCallbacks (unsubscribe assetIds s) ∧
  priceCallbacks (unsubscribe assetIds (unsubscribe assetIds s)) =
    priceCallbacks (unsubscribe assetIds s).
Proof.
  assert (∀ (A : Type) (l : list A) n (x : A),
            (l ++ replicate n x) ++ replicate n x = l ++ replicate (2 * n) x) as R.
  { intros A l n x. rewrite <- app_assoc. f_equal.
    replace (2 * n)%nat with (n + n)%nat by lia. by rewrite replicate_add. }
  split; [|split; [|split; [|apply unsubscribe_twice]]].
  - intros cb. split; [apply subscribeOrderBook_callbacks|].
    by rewrite !subscribeOrderBook_callbacks, R.
  - intros cb. split; [apply subscribePrice_callbacks|].
    by rewrite !subscribePrice_callbacks, R.
  - intros cb data now orderBook s2 Hf He Ho Hth.
    assert (bookCallbacks s2 a = [cb; cb]) as E.
    { unfold s2. by rewrite !subscribeOrderBook_callbacks, He, Ho. }
    rewrite (handleMessage_book s2 data now a orderBook Hf); rewrite E; [done|].
    intros cb' Hin. apply elem_of_cons in Hin as [->|Hin]; [done|].
    by apply list_elem_of_singleton in Hin as ->.
Qed.

End Registry.

(** C5, refuted as stated.  After two identical calls of
    [subscribeOrderBook] the callback is registered twice, the registry
    differs from the one after a single call, and one frame calls the
    callback twice. *)
Lemma subscribe_twice_registers_twice :
  let cb := WS.OrderBookListener 0 in
  let s1 := WS.subscribeOrderBook ["a"] cb (WS.create WS.no_config) in
  let s2 := WS.subscribeOrderBook ["a"] cb s1 in
  ¬ subscribe_is_idempotent ∧
  WS.orderBookCallbacks s1 !! "a" = Some [cb] ∧
  WS.orderBookCallbacks s2 !! "a" = Some [cb; cb] ∧
  WS.count (WS.is_call_of cb) (WS.handleMessage sample_env "frame" "now" s1) = 1%nat ∧
  WS.count (WS.is_call_of cb) (WS.handleMessage sample_env "frame" "now" s2) = 2%nat.
Proof.
  cbv zeta.
  assert (WS.orderBookCallbacks
            (WS.subscribeOrderBook ["a"] (WS.OrderBookListener 0)
               (WS.create WS.no_config)) !! "a" = Some [WS.OrderBookListener 0]) as E1
    by (vm_compute; reflexivity).
  assert (WS.orderBookCallbacks
            (WS.subscribeOrderBook ["a"] (WS.OrderBookListener 0)
               (WS.subscribeOrderBook ["a"] (WS.OrderBookListener 0)
                  (WS.create WS.no_config))) !! "a" =
          Some [WS.OrderBookListener 0; WS.OrderBookListener 0]) as E2
    by (vm_compute; reflexivity).
  split; [|split; [exact E1|split; [exact E2|split; vm_compute; reflexivity]]].
  intros H.
  specialize (H (WS.create WS.no_config) ["a"] (WS.OrderBookListener 0)).
  rewrite H in E2. rewrite E1 in E2. discriminate.
Qed.

Lemma subscribe_appends_witness :
  let cb := WS.OrderBookListener 0 in
  let s2 := WS.subscribeOrderBook ["a"] cb
              (WS.subscribeOrderBook ["a"] cb (WS.create WS.no_config)) in
  ∃ orderBook,
    WS.trace (WS.handleMessage sample_env "frame" "now" s2) =
      WS.trace s2 ++ [WS.OrderBookCall cb orderBook; WS.OrderBookCall cb orderBook].
Proof.
  cbv zeta. eexists.
  refine (proj1 (proj2 (proj2
    (subscribe_appends sample_env ["a"] (WS.create WS.no_config) "a")))
    (WS.OrderBookListener 0) "frame" "now" _ _ _ _ _).
  - exists book_frame_for_a, (JS.VObj [("bids", JS.VArr []); ("asks", JS.VArr [])]).
    repeat split; reflexivity.
  - reflexivity.
  - reflexivity.
  - reflexivity.
Defined.

(** ** Reconnection *)

Section Reconnect.

Import WS.

Variable env : Env.

Lemma run_app (s : t) (es1 es2 : list Event) :
  run env s (es1 ++ es2) = (s' ← run env s es1; run env s' es2).
Proof.
  revert s. induction es1 as [|e es1 IH]; intros s; [done|].
  cbn. destruct (step env s e); [apply IH | done].
Qed.

Lemma step_Error (s : t) (k : nat) (r : ReadyState) :
  sockets s !! k = Some r → r ≠ CLOSED → step env s (Error k) = Some (onerror s).
Proof. intros H Hr. cbn. unfold readyState. rewrite H. by destruct r. Qed.

Lemma step_Close (s : t) (k : nat) (r : ReadyState) :
  sockets s !! k = Some r → r ≠ CLOSED →
  step env s (Close k) = Some (onclose (set_readyState k CLOSED s)).
Proof. intros H Hr. cbn. unfold readyState. rewrite H. by destruct r. Qed.

Lemma step_Timeout (s : t) (n : nat) (ctor_ok : bool) :
  timers s = S n → step env s (Timeout ctor_ok) = Some (connect ctor_ok (with_timers n s)).
Proof. intros H. cbn. by rewrite H. Qed.

Lemma one_failure (with_error : bool) (h : ErrorCallback) (s : t) (k : nat) (c : Z) :
  retrying h s k c → c < cfg_maxReconnectAttempts (config s) →
  ∃ s', run env s ((if with_error then [Error k] else []) ++ [Close k; Timeout true]) = Some s' ∧
        retrying h s' (S k) (c + 1) ∧ config s' = config s ∧
        orderBookCallbacks s' = orderBookCallbacks s ∧
        priceCallbacks s' = priceCallbacks s ∧
        trace s' = trace s ++
                   (if with_error then [ErrorCall h "WebSocket error"] else []) ++
                   [SetTimeout (cfg_reconnectInterval (config s));
                    NewWebSocket (S k) (cfg_url (config s))].
Proof.
  intros (Hw & Hl & Hk & Hr & Hc & Ht & He) Hlt.
  destruct s as [w cf ra ic sr obc pc oe so ti tr]. cbn in *. subst.
  assert (k < length so)%nat as Hk' by lia.
  assert ((cfg_maxReconnectAttempts cf <=? c) = false) as Hle by lia.
  assert (∀ ic1 tr1,
            run env {| ws := Some k; config := cf; reconnectAttempts := c;
                       isConnecting := ic1; shouldReconnect := true;
                       orderBookCallbacks := obc; priceCallbacks := pc;
                       onError := Some h; sockets := so; timers := 0; trace := tr1 |}
                [Close k; Timeout true] =
            Some {| ws := Some (S k); config := cf; reconnectAttempts := c + 1;
                    isConnecting := true; shouldReconnect := true;
                    orderBookCallbacks := obc; priceCallbacks := pc;
                    onError := Some h; sockets := <[k:=CLOSED]> so ++ [CONNECTING];
                    timers := 0;
                    trace := (tr1 ++ [SetTimeout (cfg_reconnectInterval cf)]) ++
                             [NewWebSocket (S k) (cfg_url cf)] |}) as Hclose.
  { intros ic1 tr1. cbn [run]. rewrite (step_Close _ k CONNECTING) by done.
    cbn [mbind option_bind].
    rewrite (step_Timeout _ 0) by (client_simpl; by rewrite Hle).
    cbn [mbind option_bind]. client_simpl. rewrite Hle. client_simpl.
    rewrite list_lookup_insert_eq by done. by rewrite length_insert, Hl. }
  destruct with_error; (eexists; split;
    [cbn [app run];
     rewrite ?(step_Error _ k CONNECTING) by done; cbn [mbind option_bind];
     client_simpl; apply Hclose|]);
  unfold retrying; client_simpl; rewrite length_app, length_insert, Hl;
  (rewrite lookup_app_r by (rewrite length_insert; lia));
  rewrite length_insert, Hl, Nat.sub_diag;
  repeat split; try reflexivity; try (cbn; lia);
  cbn; by rewrite <- ?app_assoc.
Qed.

Lemma count_app (p : Effect → bool) (s s' : t) (l : list Effect) :
  trace s' = trace s ++ l →
  count p s' = (count p s + length (List.filter p l))%nat.
Proof. intros H. unfold count. by rewrite H, List.filter_app, length_app. Qed.

Lemma many_failures (with_error : bool) (h : ErrorCallback) (n : nat) :
  ∀ (s : t) (k : nat) (c : Z),
    retrying h s k c → c + Z.of_nat n ≤ cfg_maxReconnectAttempts (config s) →
    ∃ s', run env s (failures with_error k n) = Some s' ∧
          retrying h s' (k + n) (c + Z.of_nat n) ∧ config s' = config s ∧
          orderBookCallbacks s' = orderBookCallbacks s ∧
          priceCallbacks s' = priceCallbacks s ∧
          count is_SetTimeout s' = (count is_SetTimeout s + n)%nat ∧
          count is_terminal_error s' = count is_terminal_error s ∧
          count is_ErrorCall s' = (count is_ErrorCall s + if with_error then n else 0)%nat.
Proof.
  induction n as [|n IH]; intros s k c Hs Hc.
  - exists s. cbn [failures run]. rewrite Nat.add_0_r, Z.add_0_r.
    split; [done|]. split; [exact Hs|]. split; [done|]. split; [done|]. split; [done|].
    split; [lia|]. split; [done|]. destruct with_error; lia.
  - destruct (one_failure with_error h s k c Hs) as (s1 & R1 & H1 & C1 & B1 & P1 & T1); [lia|].
    destruct (IH s1 (S k) (c + 1)) as (s2 & R2 & H2 & C2 & B2 & P2 & N1 & N2 & N3);
      [done | rewrite C1; lia |].
    exists s2. split.
    { cbn [failures]. rewrite app_assoc, run_app, R1. exact R2. }
    replace (k + S n)%nat with (S k + n)%nat by lia.
    replace (c + Z.of_nat (S n)) with (c + 1 + Z.of_nat n) by lia.
    split; [done|]. split; [congruence|]. split; [congruence|]. split; [congruence|].
    rewrite N1, N2, N3.
    rewrite (count_app is_SetTimeout _ _ _ T1), (count_app is_terminal_error _ _ _ T1),
      (count_app is_ErrorCall _ _ _ T1).
    destruct with_error; cbn; repeat split; lia.
Qed.

Lemma last_failure (with_error : bool) (h : ErrorCallback) (s : t) (k : nat) (c : Z) :
  retrying h s k c → cfg_maxReconnectAttempts (config s) ≤ c →
  ∃ s', run env s ((if with_error then [Error k] else []) ++ [Close k]) = Some s' ∧
        reconnectAttempts s' = c ∧ timers s' = 0%nat ∧
        trace s' = trace s ++
                   (if with_error then [ErrorCall h "WebSocket error"] else []) ++
                   [ErrorCall h terminal_message].
Proof.
  intros (Hw & Hl & Hk & Hr & Hc & Ht & He) Hle.
  destruct s as [w cf ra ic sr obc pc oe so ti tr]. cbn in *. subst.
  assert ((cfg_maxReconnectAttempts cf <=? c) = true) as Hle' by lia.
  destruct with_error; (eexists; split;
    [cbn [app run];
     rewrite ?(step_Error _ k CONNECTING) by done; cbn [mbind option_bind];
     rewrite (step_Close _ k CONNECTING) by done; cbn [mbind option_bind];
     client_simpl; rewrite Hle'; reflexivity|]);
  client_simpl; repeat split; cbn; by rewrite <- ?app_assoc.
Qed.

(** The state after [connect()] on a fresh client with an error handler *)
Lemma first_attempt (c : WebSocketConfig) (h : ErrorCallback) :
  let s := connect true (setErrorHandler h (create c)) in
  retrying h s 0 0 ∧ config s = config (create c) ∧
  trace s = [NewWebSocket 0 (cfg_url (config (create c)))].
Proof. cbv zeta. unfold retrying. client_simpl. cbn. repeat split. Qed.

Lemma sendSubscription_fields (assetIds : list string) (type : Channel) (s : t) :
  reconnectAttempts (sendSubscription assetIds type s) = reconnectAttempts s ∧
  timers (sendSubscription assetIds type s) = timers s ∧
  isConnected (sendSubscription assetIds type s) = isConnected s.
Proof.
  unfold sendSubscription, send. destruct (negb _); [done|]. by destruct s as [[w|] ? ? ? ? ? ? ? ? ? ?].
Qed.

Lemma open_resets (s s' : t) (sock : nat) :
  step env s (Open sock) = Some s' → reconnectAttempts s' = 0.
Proof.
  cbn. destruct (readyState s sock) as [[]|]; try discriminate. intros [= <-].
  unfold onopen, resubscribeAll.
  repeat (destruct (_ <? _)%nat); rewrite ?(proj1 (sendSubscription_fields _ _ _)); done.
Qed.

Lemma close_below_max (s s' : t) (sock : nat) :
  step env s (Close sock) = Some s' → shouldReconnect s = true →
  reconnectAttempts s < cfg_maxReconnectAttempts (config s) →
  reconnectAttempts s' = reconnectAttempts s + 1 ∧ timers s' = S (timers s) ∧
  trace s' = trace s ++ [SetTimeout (cfg_reconnectInterval (config s))].
Proof.
  cbn. destruct (readyState s sock) as [r|]; [|discriminate]. intros H Hr Hlt.
  assert ((cfg_maxReconnectAttempts (config s) <=? reconnectAttempts s) = false) as Hle by lia.
  assert (s' = onclose (set_readyState sock CLOSED s)) as -> by (destruct r; congruence).
  destruct s. cbn in *. subst. client_simpl. by rewrite Hle.
Qed.

Lemma close_at_max (s s' : t) (sock : nat) :
  step env s (Close sock) = Some s' → shouldReconnect s = true →
  cfg_maxReconnectAttempts (config s) ≤ reconnectAttempts s →
  reconnectAttempts s' = reconnectAttempts s ∧ timers s' = timers s ∧
  trace s' = trace s ++ match onError s with
                        | Some h => [ErrorCall h terminal_message]
                        | None => []
                        end.
Proof.
  cbn. destruct (readyState s sock) as [r|]; [|discriminate]. intros H Hr Hlt.
  assert ((cfg_maxReconnectAttempts (config s) <=? reconnectAttempts s) = true) as Hle by lia.
  assert (s' = onclose (set_readyState sock CLOSED s)) as -> by (destruct r; congruence).
  destruct s as [? ? ? ? ? ? ? oe ? ? ?]. cbn in *. subst. client_simpl. rewrite Hle.
  destruct oe; client_simpl; by rewrite ?app_nil_r.
Qed.

Lemma close_not_reconnecting (s s' : t) (sock : nat) :
  step env s (Close sock) = Some s' → shouldReconnect s = false →
  reconnectAttempts s' = reconnectAttempts s ∧ timers s' = timers s ∧ trace s' = trace s.
Proof.
  cbn. destruct (readyState s sock) as [r|]; [|discriminate]. intros H Hr.
  assert (s' = onclose (set_readyState sock CLOSED s)) as -> by (destruct r; congruence).
  destruct s. cbn in *. subst. by client_simpl.
Qed.

Lemma disconnect_stops (s : t) : shouldReconnect (disconnect s) = false.
Proof. unfold disconnect. by destruct s as [[w|] ? ? ? ? ? ? ? ? ? ?]. Qed.

(** C4, as the code has it.  An open resets the attempt counter to zero.
    A close handled while reconnection is wanted and the counter is below
    the ceiling adds one to the counter and starts one reconnect timer; at
    the ceiling it changes neither, starts no timer and reports the terminal
    error to the error handler, if there is one.  A close handled after
    [disconnect()], while reconnection is not wanted, does nothing.  So a
    client whose every attempt fails makes as many reconnects as the
    ceiling says, and reports the terminal error once, at the failure after
    the last reconnect; the handler is also called at every error event of
    a socket. *)
Theorem reconnect_policy :
  (∀ s s' sock, step env s (Open sock) = Some s' → reconnectAttempts s' = 0) ∧
  (∀ s s' sock,
     step env s (Close sock) = Some s' → shouldReconnect s = true →
     reconnectAttempts s < cfg_maxReconnectAttempts (config s) →
     reconnectAttempts s' = reconnectAttempts s + 1 ∧ timers s' = S (timers s) ∧
     trace s' = trace s ++ [SetTimeout (cfg_reconnectInterval (config s))]) ∧
  (∀ s s' sock,
     step env s (Close sock) = Some s' → shouldReconnect s = true →
     cfg_maxReconnectAttempts (config s) ≤ reconnectAttempts s →
     reconnectAttempts s' = reconnectAttempts s ∧ timers s' = timers s ∧
     trace s' = trace s ++ match onError s with
                           | Some h => [ErrorCall h terminal_message]
                           | None => []
                           end) ∧
  (∀ s s' sock,
     step env s (Close sock) = Some s' → shouldReconnect s = false →
     reconnectAttempts s' = reconnectAttempts s ∧ timers s' = timers s ∧
     trace s' = trace s) ∧
  (∀ s, shouldReconnect (disconnect s) = false) ∧
  (∀ (n : nat) (h : ErrorCallback) (with_error : bool), (0 < n)%nat →
     ∃ s, run env (setErrorHandler h (create (ceiling n)))
            (Connect true :: failures with_error 0 n ++
             (if with_error then [Error n] else []) ++ [Close n]) = Some s ∧
          reconnectAttempts s = Z.of_nat n ∧ timers s = 0%nat ∧
          count is_SetTimeout s = n ∧
          count is_terminal_error s = 1%nat ∧
          count is_ErrorCall s = (if with_error then n + 2 else 1)%nat) ∧
  cfg_maxReconnectAttempts (config (create no_config)) = 10 ∧
  cfg_reconnectInterval (config (create no_config)) = 5000.
Proof.
  split; [exact open_resets|]. split; [exact close_below_max|].
  split; [exact close_at_max|]. split; [exact close_not_reconnecting|].
  split; [exact disconnect_stops|]. split; [|done].
  intros n h with_error Hn.
  destruct (first_attempt (ceiling n) h) as (H0 & C0 & T0).
  set (s0 := connect true (setErrorHandler h (create (ceiling n)))) in *.
  assert (cfg_maxReconnectAttempts (config s0) = Z.of_nat n) as Hmax.
  { rewrite C0. cbn. destruct n; [lia|]. reflexivity. }
  destruct (many_failures with_error h n s0 0%nat 0 H0)
    as (s1 & R1 & H1 & C1 & _ & _ & N1 & N2 & N3); [lia|].
  destruct (last_failure with_error h s1 n (Z.of_nat n) H1)
    as (s2 & R2 & A2 & I2 & T2); [rewrite C1; lia|].
  exists s2. split.
  { cbn [run step mbind option_bind]. fold s0. by rewrite run_app, R1. }
  split; [done|]. split; [done|].
  rewrite (count_app is_SetTimeout _ _ _ T2), (count_app is_terminal_error _ _ _ T2),
    (count_app is_ErrorCall _ _ _ T2), N1, N2, N3.
  unfold count. rewrite T0. destruct with_error; cbn; repeat split; lia.
Qed.

End Reconnect.

Lemma summary_refutes (events : list WS.Event) (ceiling counter : Z) (t e x : nat) :
  summary events = Some (ceiling, counter, t, e, x) →
  ceiling ≤ counter → e ≠ 1%nat → ¬ gives_up_once events.
Proof.
  unfold summary, gives_up_once. intros Hs Hle Hne H.
  destruct (WS.run _ _ events) as [s|]; [|discriminate].
  injection Hs as Hc Ha _ He _. specialize (H s eq_refl). lia.
Qed.

(** C4, refuted as stated.  After ten consecutive failures the counter is
    at the ceiling of 10, the tenth close has started the tenth reconnect,
    and the handler has not been called.  The eleventh close does not add to
    the counter.  With the error event that a socket raises before it
    closes, the handler has been called twelve times when the client gives
    up.  A later [connect()] that fails reports the terminal error again.
    When [disconnect()] is called while a reconnect timer is pending, the
    timer still fires and reconnects, and the next close starts another
    reconnect although it follows [disconnect()]. *)
Lemma reconnect_off_by_one :
  summary (WS.Connect true :: failures false 0 10) =
    Some (10, 10, 10%nat, 0%nat, 0%nat) ∧
  summary (WS.Connect true :: failures false 0 10 ++ [WS.Close 10%nat]) =
    Some (10, 10, 10%nat, 1%nat, 1%nat) ∧
  summary (WS.Connect true :: failures true 0 10 ++ [WS.Error 10%nat; WS.Close 10%nat]) =
    Some (10, 10, 10%nat, 12%nat, 1%nat) ∧
  summary (WS.Connect true :: failures false 0 10 ++
           [WS.Close 10%nat; WS.Connect true; WS.Close 11%nat]) =
    Some (10, 10, 10%nat, 2%nat, 2%nat) ∧
  summary [WS.Connect true; WS.Close 0%nat; WS.Disconnect; WS.Timeout true; WS.Close 1%nat] =
    Some (10, 2, 2%nat, 0%nat, 0%nat) ∧
  ¬ gives_up_once (WS.Connect true :: failures false 0 10) ∧
  ¬ gives_up_once (WS.Connect true :: failures true 0 10 ++
                   [WS.Error 10%nat; WS.Close 10%nat]).
Proof.
  assert (summary (WS.Connect true :: failures false 0 10) =
            Some (10, 10, 10%nat, 0%nat, 0%nat)) as E1 by (vm_compute; reflexivity).
  assert (summary (WS.Connect true :: failures true 0 10 ++
                   [WS.Error 10%nat; WS.Close 10%nat]) =
            Some (10, 10, 10%nat, 12%nat, 1%nat)) as E2 by (vm_compute; reflexivity).
  split; [exact E1|]. split; [vm_compute; reflexivity|].
  split; [exact E2|]. split; [vm_compute; reflexivity|]. split; [vm_compute; reflexivity|].
  split; [eapply (summary_refutes _ _ _ _ _ _ E1) | eapply (summary_refutes _ _ _ _ _ _ E2)];
    lia.
Qed.

Lemma reconnect_policy_witness :
  ∃ s, WS.run sample_env (WS.setErrorHandler 0%nat (WS.create (ceiling 10)))
         (WS.Connect true :: failures true 0 10 ++ [WS.Error 10%nat] ++ [WS.Close 10%nat]) =
       Some s ∧
       WS.reconnectAttempts s = 10 ∧ WS.timers s = 0%nat ∧
       WS.count WS.is_SetTimeout s = 10%nat ∧
       WS.count WS.is_terminal_error s = 1%nat ∧
       WS.count WS.is_ErrorCall s = 12%nat.
Proof.
  exact (proj1 (proj2 (proj2 (proj2 (proj2 (proj2 (reconnect_policy sample_env))))))
           10%nat 0%nat true ltac:(lia)).
Defined.

(** ** The market maker's position *)

Section Position.

Import MM.

Variable env : WS.Env.

Lemma flat_alter (f : MarketMakerState → MarketMakerState) (a : string)
    (m : gmap string MarketMakerState) :
  (∀ state, position (f state) = position state) → flat_map m → flat_map (alter f a m).
Proof.
  unfold flat_map. intros Hf H b state. rewrite lookup_alter.
  destruct (decide (a = b)) as [->|]; [|apply H].
  destruct (m !! b) as [st|] eqn:E; [|discriminate].
  intros [= <-]. rewrite Hf. by apply (H b).
Qed.

Lemma flat_delete (a : string) (m : gmap string MarketMakerState) :
  flat_map m → flat_map (delete a m).
Proof.
  unfold flat_map. intros H b state. rewrite lookup_delete.
  destruct (decide (a = b)); [discriminate|apply H].
Qed.

Lemma flat_insert (a marketId : string) (m : gmap string MarketMakerState) :
  flat_map m → flat_map (<[a := new_state a marketId]> m).
Proof.
  unfold flat_map. intros H b state. rewrite lookup_insert.
  destruct (decide (a = b)); [by intros [= <-]|apply H].
Qed.

Lemma start_states (hasCredentials ctor_ok : bool) (a marketId : string) (w : World) :
  let w' := (start hasCredentials ctor_ok a marketId w).2 in
  states (mm w') = states (mm w) ∨
  states (mm w') = <[a := new_state a marketId]> (states (mm w)).
Proof.
  cbv zeta. unfold start. destruct hasCredentials; [|by left]. cbn [negb].
  destruct (bool_decide _); [by left|]. right.
  destruct (negb (WS.isConnected _)); [|reflexivity].
  by destruct (_ && _).
Qed.

Lemma flat_start (hasCredentials ctor_ok : bool) (a marketId : string) (w : World) :
  flat w → flat (start hasCredentials ctor_ok a marketId w).2.
Proof.
  unfold flat. intros H.
  destruct (start_states hasCredentials ctor_ok a marketId w) as [-> | ->];
    [done | by apply flat_insert].
Qed.

Lemma stop_states (a : string) (w : World) :
  states (mm (stop a w).2) = states (mm w) ∨
  states (mm (stop a w).2) = alter clear_orders a (alter not_running a (states (mm w))).
Proof.
  unfold stop. destruct (states (mm w) !! a); [|by left]. right. cbn.
  by destruct (refreshTimers (mm w) !! a).
Qed.

Lemma flat_stop (a : string) (w : World) : flat w → flat (stop a w).2.
Proof.
  unfold flat. intros H. destruct (stop_states a w) as [-> | ->]; [done|].
  by repeat apply flat_alter.
Qed.

Lemma flat_stopAll (w : World) : flat w → flat (stopAll w).
Proof.
  unfold stopAll. generalize (WS.keys (states (mm w))). intros ids. revert w.
  induction ids as [|a ids IH]; intros w H; [done|]. cbn [fold_left].
  by apply IH, flat_stop.
Qed.

Lemma flat_step (w w' : World) (e : Event) : step env w e = Some w' → flat w → flat w'.
Proof.
  destruct e as [hc ok a m|a| |k|timer|a ob|e]; cbn [step].
  - intros [= <-]. apply flat_start.
  - intros [= <-]. apply flat_stop.
  - intros [= <-]. apply flat_stopAll.
  - unfold resume. destruct (suspended w !! k) as [[a|a]|]; [| |discriminate];
      intros [= <-] H; [exact H|]. by apply flat_delete.
  - destruct (intervals w !! timer) as [a|]; [|discriminate]. intros [= <-] H.
    unfold refreshOrders. destruct (states (mm w) !! a) as [st|]; [|done].
    destruct (negb (isRunning st)); [done|]. by apply flat_alter.
  - intros [= <-]. unfold handleOrderBookUpdate.
    destruct (states (mm w) !! a) as [st|]; [|done]. by destruct (negb (isRunning st)).
  - destruct (WS.step env (ws w) e); [|discriminate]. by intros [= <-].
Qed.

Lemma flat_run (events : list Event) (w w' : World) :
  run env w events = Some w' → flat w → flat w'.
Proof.
  revert w. induction events as [|e events IH]; intros w; cbn [run].
  - by intros [= <-].
  - destruct (step env w e) as [w1|] eqn:E; [|discriminate]. cbn.
    intros R H. apply (IH w1 R). by apply (flat_step w w1 e).
Qed.

Lemma zero_between (x : float) :
  JS.gt x 0 = true → JS.lt 0 x = true ∧ JS.gt 0 (- x) = true.
Proof.
  unfold JS.gt. fold (JS.lt 0 x). fold (JS.lt (- x) 0). intros H. split; [done|].
  apply lt_spec in H as (_ & Hx & H). apply lt_spec. rewrite opp_spec.
  change (Prim2SF 0) with (S754_zero false) in *. unfold not_nan in *.
  destruct (Prim2SF x) as [s|[]| |[] m e]; cbn in *;
    unfold lex_lt in *; cbn in *; try congruence; repeat split; try discriminate; lia.
Qed.

(** C9. In every state the engine can reach, every tracked per-asset
    state has position 0: [start] creates it at 0 and nothing changes it.
    So whenever the configured [maxPosition] is above zero, neither
    position guard of [generateSignals] holds a signal back: a running asset
    with a quotable book gets both the BUY and the SELL signal. *)
Theorem position_stays_zero (c : PartialConfig) (w : World) :
  reachable env c w →
  (∀ a state, states (mm w) !! a = Some state → position state = 0%float) ∧
  position (new_state "asset" "market") = 0%float ∧
  (JS.gt (JS.parseFloat (MarketMakerConfig.maxPosition (config (mm w)))) 0 = true →
   ∀ a state orderBook quotes,
     states (mm w) !! a = Some state → isRunning state = true →
     calculateQuotes (config (mm w)) orderBook = Some quotes →
     generateSignals (mm w) a orderBook =
       [bid_signal (config (mm w)) state a quotes;
        ask_signal (config (mm w)) state a quotes]).
Proof.
  intros [events R].
  assert (flat w) as F.
  { apply (flat_run events (init c) w R). intros a state. cbn. by rewrite lookup_empty. }
  split; [exact F|]. split; [reflexivity|].
  intros Hmax a state orderBook quotes Hs Hr Hq.
  unfold generateSignals. rewrite Hs, Hr, Hq. cbn [negb].
  rewrite (F a state Hs).
  destruct (zero_between _ Hmax) as [-> ->]. reflexivity.
Qed.

End Position.

Lemma position_stays_zero_witness :
  let events := [MM.Start true true "a" "m"; MM.Client (WS.Open 0); MM.Resume 0] in
  let w := default (MM.init MM.no_config) (MM.run sample_env (MM.init MM.no_config) events) in
  map TradeSignal.action (MM.generateSignals (MM.mm w) "a" (one_level_book "0.40" "0.44")) =
    [BUY; SELL].
Proof.
  cbv zeta.
  set (events := [MM.Start true true "a" "m"; MM.Client (WS.Open 0); MM.Resume 0]).
  set (w := default (MM.init MM.no_config)
              (MM.run sample_env (MM.init MM.no_config) events)).
  assert (MM.reachable sample_env MM.no_config w) as R.
  { exists events. vm_compute. reflexivity. }
  destruct (position_stays_zero sample_env MM.no_config w R) as (_ & _ & H).
  assert (JS.gt (JS.parseFloat (MarketMakerConfig.maxPosition (MM.config (MM.mm w)))) 0
          = true) as Hmax by (vm_compute; reflexivity).
  assert (MM.states (MM.mm w) !! "a" = Some (MM.new_state "a" "m")) as Hs
    by (vm_compute; reflexivity).
  assert (MM.calculateQuotes (MM.config (MM.mm w)) (one_level_book "0.40" "0.44") =
          Some {| MM.bid := "0.3990"; MM.ask := "0.4410" |}) as Hq
    by (vm_compute; reflexivity).
  rewrite (H Hmax "a" _ _ _ Hs eq_refl Hq). reflexivity.
Defined.

(** ** Starting the market maker *)

Section Start.

Import MM.

Lemma connect_registry (ctor_ok : bool) (s : WS.t) :
  WS.orderBookCallbacks (WS.connect ctor_ok s) = WS.orderBookCallbacks s ∧
  WS.priceCallbacks (WS.connect ctor_ok s) = WS.priceCallbacks s.
Proof.
  unfold WS.connect. destruct (WS.isConnected s); [done|].
  destruct (WS.isConnecting s); [done|]. by destruct ctor_ok.
Qed.

Lemma start_rest_effect (a : string) (w : World) :
  let w' := start_rest a w in
  subscriptions w' a = subscriptions w a ++ [WS.MarketMakerUpdate a] ∧
  refreshTimers (mm w') = <[a := nextTimer w]> (refreshTimers (mm w)) ∧
  intervals w' = <[nextTimer w := a]> (intervals w) ∧
  states (mm w') = states (mm w).
Proof.
  cbv zeta. split; [|done]. unfold subscriptions, start_rest. cbn [ws with_ws with_mm
    with_nextTimer with_intervals].
  rewrite subscribeOrderBook_callbacks. unfold occurrences. cbn.
  by rewrite decide_True.
Qed.

Lemma start_without_credentials (ctor_ok : bool) (a marketId : string) (w : World) :
  start false ctor_ok a marketId w =
    (Thrown "Trading credentials required for market making", w).
Proof. reflexivity. Qed.

Lemma start_managed (ctor_ok : bool) (a marketId : string) (w : World) :
  is_Some (states (mm w) !! a) → start true ctor_ok a marketId w = (Returned, w).
Proof. intros H. unfold start. cbn [negb]. by rewrite bool_decide_eq_true_2. Qed.

Lemma start_fresh (ctor_ok : bool) (a marketId : string) (w : World) :
  states (mm w) !! a = None →
  let w0 := with_mm (with_states (<[a := new_state a marketId]> (states (mm w))) (mm w)) w in
  start true ctor_ok a marketId w =
    if WS.isConnected (ws w) then (Returned, start_rest a w0)
    else if negb (WS.isConnecting (ws w)) && negb ctor_ok
         then (Failed, with_ws (WS.connect ctor_ok (ws w)) w0)
         else (Awaiting,
               with_suspended (suspended w ++ [StartAfterConnect a])
                 (with_ws (WS.connect ctor_ok (ws w)) w0)).
Proof.
  intros H. cbv zeta. unfold start. cbn [negb].
  rewrite bool_decide_eq_false_2 by (rewrite H; by intros [? [=]]).
  cbn [ws with_mm]. by destruct (WS.isConnected (ws w)).
Qed.

Lemma resume_last (c : Suspended) (w : World) (l : list Suspended) :
  suspended w = l ++ [c] →
  resume (length l) w =
    Some match c with
         | StartAfterConnect a => start_rest a (with_suspended l w)
         | StopAfterCancel a => stop_rest a (with_suspended l w)
         end.
Proof.
  intros H. unfold resume. rewrite H, list_lookup_middle by done.
  rewrite take_app_length, drop_ge by (rewrite length_app; cbn; lia).
  by rewrite app_nil_r.
Qed.

(** C7. Without credentials [start] fails with an error and leaves
    everything as it was: no per-asset state, no timer, no subscription.
    For an asset it already manages, [start] returns at once and changes
    nothing.  So after a first [start] of an asset, which adds exactly one
    state entry, a second [start] of that asset is void, whether it comes
    after the first has finished or while the first is still waiting for
    the connection; the order-book subscription and the refresh timer are
    registered exactly once, by the first call. *)
Theorem start_is_guarded (w : World) (ctor_ok : bool) (assetId marketId : string) :
  start false ctor_ok assetId marketId w =
    (Thrown "Trading credentials required for market making", w) ∧
  (is_Some (states (mm w) !! assetId) →
   ∀ ok' m', start true ok' assetId m' w = (Returned, w)) ∧
  (states (mm w) !! assetId = None →
   ∀ outcome w1, start true ctor_ok assetId marketId w = (outcome, w1) →
     states (mm w1) = <[assetId := new_state assetId marketId]> (states (mm w)) ∧
     size (states (mm w1)) = S (size (states (mm w))) ∧
     (∀ ok' m', start true ok' assetId m' w1 = (Returned, w1)) ∧
     (outcome = Returned →
      subscriptions w1 assetId = subscriptions w assetId ++ [WS.MarketMakerUpdate assetId] ∧
      intervals w1 = <[nextTimer w := assetId]> (intervals w) ∧
      refreshTimers (mm w1) = <[assetId := nextTimer w]> (refreshTimers (mm w))) ∧
     (outcome = Awaiting →
      subscriptions w1 assetId = subscriptions w assetId ∧
      intervals w1 = intervals w ∧ refreshTimers (mm w1) = refreshTimers (mm w) ∧
      ∃ w2, resume (length (suspended w)) w1 = Some w2 ∧
        subscriptions w2 assetId =
          subscriptions w assetId ++ [WS.MarketMakerUpdate assetId] ∧
        intervals w2 = <[nextTimer w := assetId]> (intervals w) ∧
        refreshTimers (mm w2) = <[assetId := nextTimer w]> (refreshTimers (mm w)) ∧
        (∀ ok' m', start true ok' assetId m' w2 = (Returned, w2)))).
Proof.
  split; [apply start_without_credentials|].
  split; [intros H ok' m'; by apply start_managed|].
  intros Hnone outcome w1 Hstart.
  rewrite (start_fresh ctor_ok assetId marketId w Hnone) in Hstart.
  set (w0 := with_mm (with_states (<[assetId := new_state assetId marketId]>
                                     (states (mm w))) (mm w)) w) in *.
  assert (states (mm w1) = <[assetId := new_state assetId marketId]> (states (mm w))) as Hst.
  { destruct (WS.isConnected (ws w)); [|destruct (_ && _)]; by injection Hstart as <- <-. }
  assert (∀ w', states (mm w') = <[assetId := new_state assetId marketId]> (states (mm w)) →
                ∀ ok' m', start true ok' assetId m' w' = (Returned, w')) as Hagain.
  { intros w' E ok' m'. apply start_managed. rewrite E, lookup_insert_eq. by eexists. }
  split; [exact Hst|].
  split; [rewrite Hst; by apply map_size_insert_None|].
  split; [by apply Hagain|].
  destruct (WS.isConnected (ws w)) eqn:Hc.
  - injection Hstart as <- <-. split; [|discriminate]. intros _.
    destruct (start_rest_effect assetId w0) as (Hs & Ht & Hi & _). auto.
  - destruct (_ && _); injection Hstart as <- <-; (split; [discriminate|]);
      [discriminate|]. intros _.
    assert (subscriptions (with_ws (WS.connect ctor_ok (ws w)) w0) assetId =
            subscriptions w assetId) as Hsub.
    { unfold subscriptions, bookCallbacks. cbn [ws with_ws].
      by rewrite (proj1 (connect_registry ctor_ok (ws w))). }
    split; [exact Hsub|]. split; [reflexivity|]. split; [reflexivity|].
    eexists. split.
    { apply (resume_last (StartAfterConnect assetId)). reflexivity. }
    destruct (start_rest_effect assetId
                (with_suspended (suspended w) (with_suspended
                   (suspended w ++ [StartAfterConnect assetId])
                   (with_ws (WS.connect ctor_ok (ws w)) w0)))) as (Hs & Ht & Hi & He).
    split; [rewrite Hs; by rewrite <- Hsub|]. split; [exact Hi|]. split; [exact Ht|].
    apply Hagain. by rewrite He.
Qed.

Lemma start_is_guarded_witness :
  let w := MM.init MM.no_config in
  let w1 := (start true true "a" "m" w).2 in
  start false true "a" "m" w = (Thrown "Trading credentials required for market making", w) ∧
  start true true "a" "other" w1 = (Returned, w1) ∧
  size (states (mm w1)) = 1%nat.
Proof.
  cbv zeta.
  pose proof (start_is_guarded (MM.init MM.no_config) true "a" "m") as (H1 & _ & H3).
  split; [exact H1|].
  destruct (H3 eq_refl _ _ (surjective_pairing _)) as (_ & Hsize & Hagain & _).
  split; [apply Hagain | exact Hsize].
Defined.

End Start.

(** ** Instances *)

Lemma unsubscribe_removes_all_witness :
  let s := WS.subscribePrice ["a"] (WS.PriceListener 1)
             (WS.subscribeOrderBook ["a"] (WS.OrderBookListener 0)
                (WS.subscribeOrderBook ["a"] (WS.OrderBookListener 0)
                   (WS.create WS.no_config))) in
  let s' := WS.unsubscribe ["a"] s in
  bookCallbacks s "a" = [WS.OrderBookListener 0; WS.OrderBookListener 0] ∧
  tickCallbacks s "a" = [WS.PriceListener 1] ∧
  bookCallbacks s' "a" = [] ∧ tickCallbacks s' "a" = [] ∧
  WS.handleMessage sample_env "frame" "now" s' = s'.
Proof.
  cbv zeta.
  split; [vm_compute; reflexivity|]. split; [vm_compute; reflexivity|].
  pose proof (unsubscribe_removes_all sample_env ["a"]
                (WS.subscribePrice ["a"] (WS.PriceListener 1)
                   (WS.subscribeOrderBook ["a"] (WS.OrderBookListener 0)
                      (WS.subscribeOrderBook ["a"] (WS.OrderBookListener 0)
                         (WS.create WS.no_config)))) "a"
                (list_elem_of_here "a" [])) as (_ & _ & Hb & Hp & Hf).
  split; [exact Hb|]. split; [exact Hp|].
  apply (Hf "frame" "now"). exists book_frame_for_a. split; reflexivity.
Defined.


Lemma calculateQuotes_not_validated_witness :
  MM.calculateQuotes MM.DEFAULT_CONFIG (one_level_book "abc" "0.44") =
    Some {| MM.bid := "NaN"; MM.ask := "NaN" |}.
Proof.
  apply (proj1 (proj2 (calculateQuotes_not_validated MM.DEFAULT_CONFIG))
           (one_level_book "abc" "0.44") _ _ _ _ eq_refl eq_refl).
  left. reflexivity.
Defined.

Lemma generateSignals_spec_witness :
  let state := MM.new_state "a" "m" in
  let m := {| MM.config := MM.DEFAULT_CONFIG; MM.states := {[ "a" := state ]};
              MM.refreshTimers := ∅ |} in
  let quotes := {| MM.bid := "0.3990"; MM.ask := "0.4410" |} in
  MM.generateSignals m "a" (one_level_book "0.40" "0.44") =
    [MM.bid_signal MM.DEFAULT_CONFIG state "a" quotes;
     MM.ask_signal MM.DEFAULT_CONFIG state "a" quotes].
Proof.
  cbv zeta.
  apply (proj2 (proj2 (proj2 (generateSignals_spec
           {| MM.config := MM.DEFAULT_CONFIG; MM.states := {[ "a" := MM.new_state "a" "m" ]};
              MM.refreshTimers := ∅ |} "a" (one_level_book "0.40" "0.44"))))
           (MM.new_state "a" "m") {| MM.bid := "0.3990"; MM.ask := "0.4410" |}).
  - vm_compute. reflexivity.
  - reflexivity.
  - vm_compute. reflexivity.
  - vm_compute. reflexivity.
  - vm_compute. reflexivity.
Defined.

(* ===================================================================== *)
(** * The arbitrage detector *)
(* ===================================================================== *)

Section DetectorMap.

Import Arbitrage Detector.

Context {V : Type}.

Lemma map_get_set_eq (k : string) (v : V) (m : list (string * V)) :
  map_get k (map_set k v m) = Some v.
Proof.
  induction m as [|[k' v'] m IH]; cbn.
  - by rewrite String.eqb_refl.
  - destruct (String.eqb_spec k' k) as [->|Hne]; cbn.
    + by rewrite String.eqb_refl.
    + by rewrite (proj2 (String.eqb_neq k' k) Hne).
Qed.

Lemma map_get_set_ne (k k' : string) (v : V) (m : list (string * V)) :
  k' ≠ k → map_get k' (map_set k v m) = map_get k' m.
Proof.
  intros Hne. induction m as [|[k0 v0] m IH]; cbn.
  - by rewrite (proj2 (String.eqb_neq k k')) by done.
  - destruct (String.eqb_spec k0 k) as [->|Hne0]; cbn.
    + by rewrite (proj2 (String.eqb_neq k k')) by done.
    + by rewrite IH.
Qed.

Lemma map_get_elem (k : string) (v : V) (m : list (string * V)) :
  map_get k m = Some v → (k, v) ∈ m.
Proof.
  induction m as [|[k0 v0] m IH]; cbn; [done|].
  destruct (String.eqb_spec k0 k) as [->|Hne].
  - intros [= ->]. apply list_elem_of_here.
  - intros H. by apply list_elem_of_further, IH.
Qed.

Lemma map_get_None (k : string) (m : list (string * V)) :
  map_get k m = None ↔ k ∉ m.*1.
Proof.
  induction m as [|[k0 v0] m IH]; cbn.
  - split; [intros _; apply not_elem_of_nil | done].
  - destruct (String.eqb_spec k0 k) as [->|Hne].
    + split; [done|]. intros H. destruct H. apply list_elem_of_here.
    + rewrite IH, elem_of_cons. intuition congruence.
Qed.

Lemma map_set_present (k : string) (v : V) (m : list (string * V)) :
  k ∈ m.*1 → (map_set k v m).*1 = m.*1.
Proof.
  induction m as [|[k0 v0] m IH]; cbn.
  - by intros ?%not_elem_of_nil.
  - destruct (String.eqb_spec k0 k) as [->|Hne]; [done|].
    intros [?|Hin]%elem_of_cons; [congruence|]. cbn. by rewrite IH.
Qed.

Lemma map_set_absent (k : string) (v : V) (m : list (string * V)) :
  k ∉ m.*1 → map_set k v m = m ++ [(k, v)].
Proof.
  induction m as [|[k0 v0] m IH]; cbn; [done|].
  intros Hn. apply not_elem_of_cons in Hn as [Hne Hn].
  rewrite (proj2 (String.eqb_neq k0 k)) by done. by rewrite IH.
Qed.

Lemma map_set_elem (k k' : string) (v v' : V) (m : list (string * V)) :
  (k', v') ∈ map_set k v m → (k', v') = (k, v) ∨ (k', v') ∈ m.
Proof.
  induction m as [|[k0 v0] m IH]; cbn.
  - intros ->%list_elem_of_singleton. by left.
  - destruct (String.eqb_spec k0 k) as [->|Hne].
    + intros [->|Hin]%elem_of_cons; [by left|]. right. by apply list_elem_of_further.
    + intros [->|Hin]%elem_of_cons; [right; apply list_elem_of_here|].
      destruct (IH Hin) as [?|?]; [by left|]. right. by apply list_elem_of_further.
Qed.

Lemma map_set_NoDup (k : string) (v : V) (m : list (string * V)) :
  NoDup m.*1 → NoDup (map_set k v m).*1.
Proof.
  intros H. destruct (decide (k ∈ m.*1)) as [Hin|Hn].
  - by rewrite map_set_present.
  - rewrite map_set_absent, fmap_app by done. cbn.
    apply NoDup_app. split; [done|]. split; [|apply NoDup_singleton].
    intros x Hx ->%list_elem_of_singleton. done.
Qed.

Lemma map_set_keys (k k' : string) (v : V) (m : list (string * V)) :
  k' ∈ (map_set k v m).*1 ↔ k' = k ∨ k' ∈ m.*1.
Proof.
  destruct (decide (k ∈ m.*1)) as [Hin|Hn].
  - rewrite map_set_present by done. intuition congruence.
  - rewrite map_set_absent, fmap_app, elem_of_app by done. cbn.
    rewrite list_elem_of_singleton. tauto.
Qed.

End DetectorMap.

Section DetectorInvariant.

Import Arbitrage Detector.

Variable env : WS.Env.

Lemma unpopulated_set (k : string) (market : MonitoredMarket)
    (m : list (string * MonitoredMarket)) :
  marketId market = k → yesAssetId market = "" → noAssetId market = "" →
  unpopulated m → unpopulated (map_set k market m).
Proof.
  intros H1 H2 H3 H k' market' Hin.
  apply map_set_elem in Hin as [[= -> ->]|Hin]; [done|by apply H].
Qed.

Lemma track_fold (marketIds : list string) (m : list (string * MonitoredMarket)) :
  let m' := fold_left track marketIds m in
  (unpopulated m → unpopulated m') ∧
  (NoDup m.*1 → NoDup m'.*1) ∧
  (∀ k, k ∈ m'.*1 ↔ k ∈ marketIds ∨ k ∈ m.*1) ∧
  (∀ k, k ∈ marketIds ∨ map_get k m = Some (new_market k) →
        map_get k m' = Some (new_market k)).
Proof.
  revert m. induction marketIds as [|x ids IH]; intros m; cbn [fold_left].
  - split; [done|]. split; [done|]. split.
    + intros k. rewrite elem_of_nil. tauto.
    + intros k [?%not_elem_of_nil|?]; done.
  - destruct (IH (track m x)) as (I1 & I2 & I3 & I4). cbv zeta.
    split; [|split; [|split]].
    + intros H. by apply I1, unpopulated_set.
    + intros H. by apply I2, map_set_NoDup.
    + intros k. rewrite I3. unfold track. rewrite map_set_keys, elem_of_cons. tauto.
    + intros k Hk. apply I4. unfold track.
      destruct (decide (k = x)) as [->|Hne]; [right; apply map_get_set_eq|].
      rewrite map_get_set_ne by done.
      destruct Hk as [[?|?]%elem_of_cons|?]; [done|by left|by right].
Qed.

Lemma update_first_spec (assetId : string) (price now : JS.number)
    (m : list (string * MonitoredMarket)) :
  match update_first assetId price now m with
  | None => ∀ k market, (k, market) ∈ m → ¬ has_asset assetId market
  | Some (m', changed) =>
      ∃ pre k market post,
        m = pre ++ (k, market) :: post ∧
        (∀ k0 market0, (k0, market0) ∈ pre → ¬ has_asset assetId market0) ∧
        has_asset assetId market ∧
        changed = repriced assetId price now market ∧
        m' = pre ++ (k, changed) :: post
  end.
Proof.
  induction m as [|[k market] rest IH]; cbn [update_first].
  - by intros k market ?%not_elem_of_nil.
  - destruct (String.eqb_spec (yesAssetId market) assetId) as [Hy|Hy].
    { exists [], k, market, rest. split; [done|].
      split; [by intros ? ? ?%not_elem_of_nil|]. split; [by left|].
      unfold repriced. rewrite (proj2 (String.eqb_eq _ _) Hy). done. }
    destruct (String.eqb_spec (noAssetId market) assetId) as [Hn|Hn].
    { exists [], k, market, rest. split; [done|].
      split; [by intros ? ? ?%not_elem_of_nil|]. split; [by right|].
      unfold repriced. rewrite (proj2 (String.eqb_neq _ _) Hy). done. }
    destruct (update_first assetId price now rest) as [[m' changed]|].
    + destruct IH as (pre & k1 & market1 & post & -> & Hpre & Hhas & -> & ->).
      exists ((k, market) :: pre), k1, market1, post. split; [done|].
      split; [|done].
      intros k0 market0 [[= -> ->]|Hin]%elem_of_cons; [|by apply (Hpre k0)].
      unfold has_asset. tauto.
    + intros k0 market0 [[= -> ->]|Hin]%elem_of_cons; [|by apply (IH k0)].
      unfold has_asset. tauto.
Qed.

Lemma checkAndNotify_spec (market : MonitoredMarket) (w : World) :
  checkAndNotify market w =
    with_notified (notified w ++ notification (detector w) market) w.
Proof.
  unfold checkAndNotify, notification. destruct w as [d s p n]. cbn.
  destruct (isRunning d), (onOpportunity d); rewrite ?app_nil_r; try done.
  destruct (checkYesNoArbitrage _ _); by rewrite ?app_nil_r.
Qed.

Lemma start_detector (gamma_ok ctor_ok : bool) (marketIds : list string) (w : World) :
  let w' := (start gamma_ok ctor_ok marketIds w).2 in
  detector w' = detector w ∨
  (isRunning (detector w) = false ∧
   detector w' = with_isRunning true (detector w) ∧ gamma_ok = false) ∨
  (isRunning (detector w) = false ∧ gamma_ok = true ∧
   detector w' =
     with_monitoredMarkets (fold_left track marketIds (monitoredMarkets (detector w)))
       (with_isRunning true (detector w))).
Proof.
  cbv zeta. unfold start. destruct (isRunning (detector w)) eqn:E; [by left|].
  destruct gamma_ok; cbn [negb]; [|right; left; done].
  right; right. split; [done|]. split; [done|].
  destruct (negb (WS.isConnected _)); cbn.
  - by destruct (_ && _).
  - unfold start_rest. by destruct (Nat.ltb _ _).
Qed.

Lemma stop_detector (w : World) :
  detector (stop w) = with_monitoredMarkets [] (with_isRunning false (detector w)).
Proof. unfold stop. by destruct (Nat.ltb _ _). Qed.

Lemma start_rest_detector (w : World) : detector (start_rest w) = detector w.
Proof. unfold start_rest. by destruct (Nat.ltb _ _). Qed.

Lemma well_kept_step (w w' : World) (e : Event) :
  step env w e = Some w' → well_kept w → well_kept w'.
Proof.
  unfold well_kept, monitored.
  destruct e as [g ok ids| |cb|id y n now|a p now| |e]; cbn [step].
  - intros [= <-] (U & N & I).
    destruct (start_detector g ok ids w) as [-> | [(E & -> & _) | (E & _ & ->)]];
      [done|..].
    + cbn. rewrite (I E). split; [by intros ? ? ?%not_elem_of_nil|].
      split; [apply NoDup_nil_2 | done].
    + cbn. destruct (track_fold ids (monitoredMarkets (detector w))) as (T1 & T2 & _).
      split; [by apply T1|]. split; [by apply T2 | done].
  - intros [= <-] _. rewrite stop_detector. cbn.
    split; [by intros ? ? ?%not_elem_of_nil|]. split; [apply NoDup_nil_2 | done].
  - intros [= <-] H. exact H.
  - intros [= <-] (U & N & I). unfold updatePrices.
    destruct (map_get id (monitoredMarkets (detector w))) as [market|] eqn:G; [|done].
    rewrite checkAndNotify_spec. cbn.
    destruct (U id market (map_get_elem _ _ _ G)) as (M1 & M2 & M3).
    split; [by apply unpopulated_set|]. split; [by apply map_set_NoDup|].
    intros E. rewrite (I E) in G. discriminate.
  - intros [= <-] (U & N & I). unfold handlePriceUpdate.
    pose proof (update_first_spec a p now (monitoredMarkets (detector w))) as S.
    destruct (update_first a p now _) as [[m' changed]|]; [|done].
    destruct S as (pre & k & market & post & Em & _ & _ & -> & ->).
    rewrite checkAndNotify_spec. cbn. rewrite Em in U, N, I.
    split; [|split].
    + intros k0 market0 [Hin|[[= -> ->]|Hin]%elem_of_cons]%elem_of_app.
      * apply U, elem_of_app. by left.
      * destruct (U k market) as (M1 & M2 & M3).
        { apply elem_of_app. right. apply list_elem_of_here. }
        unfold repriced. by destruct (String.eqb _ _).
      * apply U, elem_of_app. right. by apply list_elem_of_further.
    + by rewrite fmap_app, fmap_cons in *.
    + intros E. by destruct pre; specialize (I E).
  - unfold resume. destruct (pending w); [discriminate|]. intros [= <-].
    by rewrite start_rest_detector.
  - destruct (WS.step env (ws w) e); [|discriminate]. by intros [= <-].
Qed.

Lemma well_kept_run (events : list Event) (w w' : World) :
  run env w events = Some w' → well_kept w → well_kept w'.
Proof.
  revert w. induction events as [|e events IH]; intros w; cbn [run].
  - by intros [= <-].
  - destruct (step env w e) as [w1|] eqn:E; [|discriminate]. cbn.
    intros R H. apply (IH w1 R). by apply (well_kept_step w w1 e).
Qed.

Lemma well_kept_reachable (c : PartialConfig) (w : World) :
  reachable env c w → well_kept w.
Proof.
  intros [events R]. apply (well_kept_run events (init c) w R).
  split; [by intros ? ? ?%not_elem_of_nil|]. split; [apply NoDup_nil_2 | done].
Qed.

Lemma unpopulated_no_assets (d : t) :
  unpopulated (monitoredMarkets d) → allAssetIds d = [].
Proof.
  unfold allAssetIds, getMarketStates. induction (monitoredMarkets d) as [|[k market] m IH].
  - done.
  - intros U. cbn. destruct (U k market) as (_ & -> & ->); [apply list_elem_of_here|].
    cbn. apply IH. intros k0 market0 Hin. by apply U, list_elem_of_further.
Qed.

End DetectorInvariant.

Section DetectorProperties.

Import Arbitrage Detector.

Variable env : WS.Env.

Lemma map_elem_get {V} (k : string) (v : V) (m : list (string * V)) :
  NoDup m.*1 → (k, v) ∈ m → map_get k m = Some v.
Proof.
  induction m as [|[k0 v0] m IH]; cbn; [by intros _ ?%not_elem_of_nil|].
  intros [Hn N]%NoDup_cons [[= -> ->]|Hin]%elem_of_cons.
  - by rewrite String.eqb_refl.
  - destruct (String.eqb_spec k0 k) as [->|Hne]; [|by apply IH].
    destruct Hn. apply list_elem_of_fmap. by exists (k, v).
Qed.

Lemma update_first_none (assetId : string) (price now : JS.number)
    (m : list (string * MonitoredMarket)) :
  (∀ k market, (k, market) ∈ m → ¬ has_asset assetId market) →
  update_first assetId price now m = None.
Proof.
  intros H. pose proof (update_first_spec assetId price now m) as S.
  destruct (update_first assetId price now m) as [[m' changed]|]; [|done].
  destruct S as (pre & k & market & post & -> & _ & Hhas & _).
  destruct (H k market); [|done]. apply elem_of_app. right. apply list_elem_of_here.
Qed.

Lemma update_first_app (assetId : string) (price now : JS.number)
    (pre post : list (string * MonitoredMarket)) (k : string) (market : MonitoredMarket) :
  (∀ k0 market0, (k0, market0) ∈ pre → ¬ has_asset assetId market0) →
  has_asset assetId market →
  update_first assetId price now (pre ++ (k, market) :: post) =
    Some (pre ++ (k, repriced assetId price now market) :: post,
          repriced assetId price now market).
Proof.
  intros Hpre Hhas. induction pre as [|[k0 market0] pre IH]; cbn [app update_first].
  - unfold repriced, priced.
    destruct (String.eqb_spec (yesAssetId market) assetId) as [Hy|Hy]; [done|].
    destruct Hhas as [?|Hn]; [done|]. by rewrite (proj2 (String.eqb_eq _ _) Hn).
  - assert (¬ has_asset assetId market0) as N by (apply (Hpre k0), list_elem_of_here).
    unfold has_asset in N.
    rewrite (proj2 (String.eqb_neq (yesAssetId market0) assetId)) by tauto.
    rewrite (proj2 (String.eqb_neq (noAssetId market0) assetId)) by tauto.
    rewrite IH; [done|]. intros k1 market1 Hin. by apply (Hpre k1), list_elem_of_further.
Qed.

Lemma scan_omap (d : t) :
  scanForOpportunities d = omap (checkYesNoArbitrage (config d)) (getMarketStates d).
Proof.
  unfold scanForOpportunities.
  assert (∀ l acc,
            fold_left (λ opportunities market,
                         match checkYesNoArbitrage (config d) market with
                         | Some yesNoArb => opportunities ++ [yesNoArb]
                         | None => opportunities
                         end) l acc =
            acc ++ omap (checkYesNoArbitrage (config d)) l) as F.
  { induction l as [|market l IH]; intros acc; cbn; [by rewrite app_nil_r|].
    rewrite IH. destruct (checkYesNoArbitrage _ _); [|done]. by rewrite <- app_assoc. }
  apply (F _ []).
Qed.

Lemma check_shape (config : ArbitrageConfig.t) (market : MonitoredMarket)
    (opp : ArbitrageOpportunity.t) :
  checkYesNoArbitrage config market = Some opp →
  JS.strict_eq (yesPrice market) 0 = false ∧ JS.strict_eq (noPrice market) 0 = false ∧
  ArbitrageOpportunity.markets opp = [marketId market] ∧
  map TradeSignal.asset_id (ArbitrageOpportunity.signals opp) =
    [yesAssetId market; noAssetId market] ∧
  map TradeSignal.action (ArbitrageOpportunity.signals opp) = [BUY; BUY].
Proof.
  unfold checkYesNoArbitrage.
  destruct (JS.strict_eq (yesPrice market) 0); [done|].
  destruct (JS.strict_eq (noPrice market) 0); [done|]. cbn [orb].
  destruct (JS.gt _ _); [|done]. destruct (JS.gt _ _); [|done].
  by intros [= <-].
Qed.

Lemma start_rest_no_assets (w : World) :
  allAssetIds (detector w) = [] → start_rest w = w.
Proof. intros H. unfold start_rest. cbv zeta. by rewrite H. Qed.

Lemma stop_no_assets (w : World) :
  allAssetIds (detector w) = [] →
  stop w = with_detector (with_monitoredMarkets [] (with_isRunning false (detector w))) w.
Proof.
  intros H. unfold stop. cbv zeta.
  change (allAssetIds (detector (with_detector (with_isRunning false (detector w)) w)))
    with (allAssetIds (detector w)).
  by rewrite H.
Qed.

(** X1. In every state the detector can reach, no market id is monitored
    twice, every market is stored under its own id, and its YES and NO
    asset ids are the empty strings that [start] stored: nothing populates
    them.  So the list of assets to subscribe to is always empty, and a
    price update for an asset with a name changes nothing. *)
Theorem markets_never_get_assets (c : PartialConfig) (w : World) :
  reachable env c w →
  NoDup (monitored w) ∧
  (∀ k market, (k, market) ∈ monitoredMarkets (detector w) →
     marketId market = k ∧ yesAssetId market = "" ∧ noAssetId market = "") ∧
  allAssetIds (detector w) = [] ∧
  (∀ assetId price now, assetId ≠ "" → handlePriceUpdate assetId price now w = w).
Proof.
  intros R. destruct (well_kept_reachable env c w R) as (U & N & _).
  split; [exact N|]. split; [exact U|]. split; [by apply unpopulated_no_assets|].
  intros assetId price now Hne. unfold handlePriceUpdate.
  rewrite update_first_none; [done|].
  intros k market Hin [H|H]; destruct (U k market Hin) as (_ & Hy & Hn); congruence.
Qed.

(** X2. The detector never subscribes.  In every state it can reach,
    [start] does nothing to the shared client but what [connect()] does,
    and the rest of [start] after the connection, [stop], the registration
    of the callback and the price updates leave the client as it is: no
    price callback is registered, no frame is sent. *)
Theorem detector_never_subscribes (c : PartialConfig) (w : World) :
  reachable env c w →
  (∀ gamma_ok ctor_ok marketIds,
     ws (start gamma_ok ctor_ok marketIds w).2 = ws w ∨
     ws (start gamma_ok ctor_ok marketIds w).2 = WS.connect ctor_ok (ws w)) ∧
  (∀ w', resume w = Some w' → ws w' = ws w) ∧
  ws (stop w) = ws w ∧
  (∀ callback, ws (onOpportunityDetected callback w) = ws w) ∧
  (∀ marketId yesPrice noPrice now, ws (updatePrices marketId yesPrice noPrice now w) = ws w) ∧
  (∀ assetId price now, ws (handlePriceUpdate assetId price now w) = ws w).
Proof.
  intros R. destruct (well_kept_reachable env c w R) as (U & N & I).
  pose proof (unpopulated_no_assets _ U) as A.
  split; [|split; [|split; [|split; [|split]]]].
  - intros g ok ids. unfold start. destruct (isRunning (detector w)) eqn:E; [by left|].
    destruct g; cbn [negb]; [|by left].
    destruct (negb (WS.isConnected _)); cbn.
    + right. by destruct (_ && _).
    + left. rewrite start_rest_no_assets; [done|].
      apply unpopulated_no_assets. cbn.
      destruct (track_fold ids (monitoredMarkets (detector w))) as (T1 & _). by apply T1.
  - unfold resume. destruct (pending w); [discriminate|]. intros w' [= <-].
    by rewrite start_rest_no_assets.
  - by rewrite stop_no_assets.
  - done.
  - intros id y n now. unfold updatePrices.
    destruct (map_get _ _); [|done]. by rewrite checkAndNotify_spec.
  - intros a p now. unfold handlePriceUpdate.
    destruct (update_first _ _ _ _) as [[m' changed]|]; [|done].
    by rewrite checkAndNotify_spec.
Qed.

Lemma omap_length_le {A B} (f : A → option B) (l : list A) :
  (length (omap f l) ≤ length l)%nat.
Proof. induction l as [|x l IH]; cbn; [done|]. destruct (f x); cbn; lia. Qed.

Lemma omap_all_none {A B} (f : A → option B) (l : list A) :
  (∀ x, x ∈ l → f x = None) → omap f l = [].
Proof.
  induction l as [|x l IH]; intros H; cbn; [done|].
  rewrite (H x) by apply list_elem_of_here. apply IH.
  intros y Hy. by apply H, list_elem_of_further.
Qed.

Lemma new_market_no_arbitrage (config : ArbitrageConfig.t) (k : string) :
  checkYesNoArbitrage config (new_market k) = None.
Proof. reflexivity. Qed.

(** X3. A detector that is not running monitors nothing.  In every state
    it can reach while [isRunning] is false there is no market, so a scan
    finds nothing, and [updatePrices] as well as a price update from the
    stream are void: no price is stored and nobody is notified.  [stop]
    leads to such a state from anywhere, and keeps the callback. *)
Theorem idle_detector_is_empty (c : PartialConfig) (w : World) :
  reachable env c w →
  (isRunning (detector w) = false →
   getMarketStates (detector w) = [] ∧
   scanForOpportunities (detector w) = [] ∧
   (∀ marketId yesPrice noPrice now, updatePrices marketId yesPrice noPrice now w = w) ∧
   (∀ assetId price now, handlePriceUpdate assetId price now w = w)) ∧
  isRunning (detector (stop w)) = false ∧
  monitoredMarkets (detector (stop w)) = [] ∧
  onOpportunity (detector (stop w)) = onOpportunity (detector w) ∧
  notified (stop w) = notified w.
Proof.
  intros R. destruct (well_kept_reachable env c w R) as (U & N & I).
  split.
  - intros E. specialize (I E).
    split; [unfold getMarketStates; by rewrite I|].
    split; [unfold scanForOpportunities, getMarketStates; by rewrite I|].
    split.
    + intros id y n now. unfold updatePrices. by rewrite I.
    + intros a p now. unfold handlePriceUpdate. by rewrite I.
  - by rewrite stop_no_assets by (by apply unpopulated_no_assets).
Qed.

(** X4. [updatePrices] on an id that is not monitored changes nothing.
    On a monitored id it stores both prices and the time in that market,
    leaves the other markets and the order of the markets as they are, does
    not touch the client, and calls the opportunity callback once, with the
    opportunity of the updated market, exactly when the detector is running,
    a callback is set and [checkYesNoArbitrage] finds an opportunity in the
    updated market; otherwise it calls nothing. *)
Theorem updatePrices_spec (w : World) (id : string) (yesPrice noPrice now : JS.number) :
  let w' := updatePrices id yesPrice noPrice now w in
  match map_get id (monitoredMarkets (detector w)) with
  | None => w' = w
  | Some market =>
      let market' := priced market yesPrice noPrice now in
      map_get id (monitoredMarkets (detector w')) = Some market' ∧
      (∀ id', id' ≠ id →
         map_get id' (monitoredMarkets (detector w')) =
           map_get id' (monitoredMarkets (detector w))) ∧
      monitored w' = monitored w ∧
      notified w' = notified w ++ notification (detector w) market' ∧
      isRunning (detector w') = isRunning (detector w) ∧
      onOpportunity (detector w') = onOpportunity (detector w) ∧
      config (detector w') = config (detector w) ∧
      ws w' = ws w ∧ pending w' = pending w
  end.
Proof.
  cbv zeta. unfold updatePrices.
  destruct (map_get id (monitoredMarkets (detector w))) as [market|] eqn:G; [|done].
  rewrite checkAndNotify_spec. cbn. fold (priced market yesPrice noPrice now).
  split; [apply map_get_set_eq|]. split; [intros id' Hne; by apply map_get_set_ne|].
  split; [|done]. unfold monitored. cbn. apply map_set_present.
  apply list_elem_of_fmap. exists (id, market). split; [done|]. by apply map_get_elem.
Qed.

(** X5. A price update for an asset goes to the first market, in the order
    in which the markets were added, that has the asset as its YES or its NO
    asset, and to no other: that market gets the price as its YES price when
    the asset is its YES asset, as its NO price otherwise, and the time; the
    opportunity callback is called as after [updatePrices].  When no market
    has the asset, nothing changes. *)
Theorem handlePriceUpdate_first_match (w : World) (assetId : string) (price now : JS.number) :
  ((∀ k market, (k, market) ∈ monitoredMarkets (detector w) → ¬ has_asset assetId market) →
   handlePriceUpdate assetId price now w = w) ∧
  (∀ pre k market post,
     monitoredMarkets (detector w) = pre ++ (k, market) :: post →
     (∀ k0 market0, (k0, market0) ∈ pre → ¬ has_asset assetId market0) →
     has_asset assetId market →
     let market' := repriced assetId price now market in
     let w' := handlePriceUpdate assetId price now w in
     monitoredMarkets (detector w') = pre ++ (k, market') :: post ∧
     notified w' = notified w ++ notification (detector w) market' ∧
     isRunning (detector w') = isRunning (detector w) ∧
     onOpportunity (detector w') = onOpportunity (detector w) ∧
     ws w' = ws w).
Proof.
  split.
  - intros H. unfold handlePriceUpdate. by rewrite update_first_none.
  - intros pre k market post E Hpre Hhas. cbv zeta. unfold handlePriceUpdate.
    rewrite E, update_first_app by done. by rewrite checkAndNotify_spec.
Qed.

(** X6. A scan reports, in the order of the markets, the opportunity of
    every monitored market in which [checkYesNoArbitrage] finds one, and
    nothing else, whether or not the detector is running; it reports at most
    one opportunity per market.  In every state the detector can reach, an
    opportunity that a scan reports names one monitored market, whose two
    prices are not zero, and its two BUY signals carry the empty asset id. *)
Theorem scan_reports_monitored_markets (c : PartialConfig) (w : World) :
  reachable env c w →
  let d := detector w in
  scanForOpportunities d = omap (checkYesNoArbitrage (config d)) (getMarketStates d) ∧
  (length (scanForOpportunities d) ≤ length (getMarketStates d))%nat ∧
  (∀ opp, opp ∈ scanForOpportunities d →
     ∃ id market,
       map_get id (monitoredMarkets d) = Some market ∧
       checkYesNoArbitrage (config d) market = Some opp ∧
       JS.strict_eq (yesPrice market) 0 = false ∧
       JS.strict_eq (noPrice market) 0 = false ∧
       ArbitrageOpportunity.markets opp = [id] ∧
       map TradeSignal.asset_id (ArbitrageOpportunity.signals opp) = [""; ""] ∧
       map TradeSignal.action (ArbitrageOpportunity.signals opp) = [BUY; BUY]).
Proof.
  intros R d. destruct (well_kept_reachable env c w R) as (U & N & I).
  split; [apply scan_omap|]. split.
  - rewrite scan_omap. apply omap_length_le.
  - intros opp. rewrite scan_omap. intros (market & Hin & Hc)%list_elem_of_omap.
    unfold getMarketStates in Hin. apply list_elem_of_fmap in Hin as ([k m] & -> & Hin).
    cbn in Hc. destruct (U k m Hin) as (Hk & Hy & Hn).
    destruct (check_shape _ _ _ Hc) as (P1 & P2 & P3 & P4 & P5).
    exists k, m. split; [by apply map_elem_get|]. split; [exact Hc|].
    split; [exact P1|]. split; [exact P2|].
    split; [by rewrite P3, Hk|]. split; [by rewrite P4, Hy, Hn | exact P5].
Qed.

(** X7. [start] on a detector that is not running makes it running.  When
    the market data client is there, it then monitors exactly the ids it was
    given, each once however often the list names it, each as a new market
    with both prices zero, so a scan right after finds nothing.  While the
    detector is running every further [start] returns at once and changes
    nothing, whatever ids it is given. *)
Theorem start_monitors_each_id_once (c : PartialConfig) (w : World)
    (gamma_ok ctor_ok : bool) (marketIds : list string) :
  reachable env c w → isRunning (detector w) = false →
  let w1 := (start gamma_ok ctor_ok marketIds w).2 in
  isRunning (detector w1) = true ∧
  (gamma_ok = false → monitoredMarkets (detector w1) = []) ∧
  (gamma_ok = true →
   NoDup (monitored w1) ∧
   (∀ id, id ∈ monitored w1 ↔ id ∈ marketIds) ∧
   (∀ id, id ∈ marketIds →
      map_get id (monitoredMarkets (detector w1)) = Some (new_market id)) ∧
   scanForOpportunities (detector w1) = []) ∧
  (∀ gamma_ok' ctor_ok' marketIds',
     start gamma_ok' ctor_ok' marketIds' w1 = (Returned, w1)).
Proof.
  intros R E. cbv zeta. destruct (well_kept_reachable env c w R) as (U & N & I).
  specialize (I E).
  assert (isRunning (detector (start gamma_ok ctor_ok marketIds w).2) = true) as Hrun.
  { destruct (start_detector gamma_ok ctor_ok marketIds w)
      as [D | [(_ & -> & _) | (_ & _ & ->)]]; [|done..].
    revert D. unfold start. rewrite E. destruct gamma_ok; cbn [negb]; [|done].
    destruct (negb (WS.isConnected _)); cbn.
    - by destruct (_ && _).
    - by rewrite start_rest_detector. }
  split; [exact Hrun|].
  destruct (track_fold marketIds []) as (T1 & T2 & T3 & T4).
  split; [|split].
  - intros ->. unfold start. rewrite E. cbn. exact I.
  - intros ->.
    assert (monitoredMarkets (detector (start true ctor_ok marketIds w).2) =
            fold_left track marketIds []) as Em.
    { destruct (start_detector true ctor_ok marketIds w)
        as [D | [(_ & _ & [=]) | (_ & _ & ->)]]; [|by rewrite <- I].
      rewrite D in Hrun. congruence. }
    unfold monitored. rewrite Em.
    assert (NoDup (fold_left track marketIds []).*1) as ND by apply T2, NoDup_nil_2.
    split; [exact ND|]. split; [|split].
    + intros id. rewrite T3. cbn. rewrite elem_of_nil. tauto.
    + intros id Hin. apply T4. by left.
    + rewrite scan_omap. unfold getMarketStates. rewrite Em.
      apply omap_all_none. intros market ([k m] & -> & Hin)%list_elem_of_fmap. cbn.
      assert (k ∈ marketIds) as Hk.
      { assert (k ∈ (fold_left track marketIds []).*1) as Hk
          by (apply list_elem_of_fmap; by exists (k, m)).
        apply T3 in Hk as [?|?%not_elem_of_nil]; done. }
      pose proof (map_elem_get k m _ ND Hin) as G.
      rewrite (T4 k (or_introl Hk)) in G. injection G as <-.
      apply new_market_no_arbitrage.
  - intros g' ok' ids'. unfold start at 1. by rewrite Hrun.
Qed.

End DetectorProperties.

Section DetectorInstances.

Import Arbitrage Detector.

Lemma markets_never_get_assets_witness :
  let events := [Start true true ["m1"; "m2"; "m1"];
                 UpdatePrices "m1" 0.48%float 0.47%float 1%float;
                 PriceUpdate "" 0.3%float 2%float] in
  let w := default (init no_config) (run sample_env (init no_config) events) in
  monitored w = ["m1"; "m2"] ∧
  allAssetIds (detector w) = [] ∧
  handlePriceUpdate "yes-token" 0.5%float 3%float w = w.
Proof.
  cbv zeta.
  set (events := [Start true true ["m1"; "m2"; "m1"];
                  UpdatePrices "m1" 0.48%float 0.47%float 1%float;
                  PriceUpdate "" 0.3%float 2%float]).
  set (w := default (init no_config) (run sample_env (init no_config) events)).
  assert (reachable sample_env no_config w) as R by (exists events; vm_compute; reflexivity).
  destruct (markets_never_get_assets sample_env no_config w R) as (_ & _ & A & H).
  split; [vm_compute; reflexivity|]. split; [exact A|]. by apply H.
Defined.

Lemma detector_never_subscribes_witness :
  let events := [Start true true ["m1"; "m2"]; Client (WS.Open 0); Resume] in
  let w := default (init no_config) (run sample_env (init no_config) events) in
  WS.priceCallbacks (ws w) = ∅ ∧ ws (stop w) = ws w.
Proof.
  cbv zeta.
  set (events := [Start true true ["m1"; "m2"]; Client (WS.Open 0); Resume]).
  set (w := default (init no_config) (run sample_env (init no_config) events)).
  assert (reachable sample_env no_config w) as R by (exists events; vm_compute; reflexivity).
  destruct (detector_never_subscribes sample_env no_config w R) as (_ & _ & S & _).
  split; [vm_compute; reflexivity | exact S].
Defined.

Lemma idle_detector_is_empty_witness :
  let events := [Start true true ["m1"]; UpdatePrices "m1" 0.48%float 0.47%float 1%float;
                 Stop] in
  let w := default (init no_config) (run sample_env (init no_config) events) in
  updatePrices "m1" 0.48%float 0.47%float 2%float w = w ∧
  scanForOpportunities (detector w) = [].
Proof.
  cbv zeta.
  set (events := [Start true true ["m1"]; UpdatePrices "m1" 0.48%float 0.47%float 1%float;
                  Stop]).
  set (w := default (init no_config) (run sample_env (init no_config) events)).
  assert (reachable sample_env no_config w) as R by (exists events; vm_compute; reflexivity).
  destruct (proj1 (idle_detector_is_empty sample_env no_config w R))
    as (_ & S & U & _); [vm_compute; reflexivity|].
  split; [apply U | exact S].
Defined.

Lemma updatePrices_spec_witness :
  let w := (start true true ["m"] (onOpportunityDetected 7%nat (init no_config))).2 in
  let w' := updatePrices "m" 0.48%float 0.47%float 1%float w in
  map_get "m" (monitoredMarkets (detector w')) =
    Some (priced (new_market "m") 0.48%float 0.47%float 1%float) ∧
  length (notified w') = 1%nat.
Proof.
  cbv zeta.
  set (w := (start true true ["m"] (onOpportunityDetected 7%nat (init no_config))).2).
  pose proof (updatePrices_spec w "m" 0.48%float 0.47%float 1%float) as H.
  cbv zeta in H.
  assert (map_get "m" (monitoredMarkets (detector w)) = Some (new_market "m")) as G
    by (vm_compute; reflexivity).
  rewrite G in H. destruct H as (H1 & _ & _ & H4 & _).
  split; [exact H1|]. rewrite H4. vm_compute. reflexivity.
Defined.

Lemma handlePriceUpdate_first_match_witness :
  let market (k y n : string) :=
    {| marketId := k; yesAssetId := y; noAssetId := n;
       yesPrice := 0.5%float; noPrice := 0.5%float; lastUpdate := 0%float |} in
  let d := with_monitoredMarkets
             [("m1", market "m1" "y1" "n1"); ("m2", market "m2" "y2" "n2");
              ("m3", market "m3" "y3" "n2")] (create no_config) in
  let w := with_detector d (init no_config) in
  monitoredMarkets (detector (handlePriceUpdate "n2" 0.25%float 9%float w)) =
    [("m1", market "m1" "y1" "n1");
     ("m2", priced (market "m2" "y2" "n2") 0.5%float 0.25%float 9%float);
     ("m3", market "m3" "y3" "n2")] ∧
  handlePriceUpdate "other" 0.25%float 9%float w = w.
Proof.
  cbv zeta.
  set (market := λ k y n : string,
         {| marketId := k; yesAssetId := y; noAssetId := n;
            yesPrice := 0.5%float; noPrice := 0.5%float; lastUpdate := 0%float |}).
  set (w := with_detector
              (with_monitoredMarkets
                 [("m1", market "m1" "y1" "n1"); ("m2", market "m2" "y2" "n2");
                  ("m3", market "m3" "y3" "n2")] (create no_config)) (init no_config)).
  split.
  - destruct (proj2 (handlePriceUpdate_first_match w "n2" 0.25%float 9%float)
                [("m1", market "m1" "y1" "n1")] "m2" (market "m2" "y2" "n2")
                [("m3", market "m3" "y3" "n2")] eq_refl) as (H & _).
    + intros k0 market0 [[= -> ->]|?%not_elem_of_nil]%elem_of_cons; [|done].
      by intros [?|?].
    + by right.
    + exact H.
  - apply (proj1 (handlePriceUpdate_first_match w "other" 0.25%float 9%float)).
    intros k0 market0 Hin. cbn in Hin.
    repeat (apply elem_of_cons in Hin as [[= -> ->]|Hin]; [by intros [?|?]|]).
    by apply not_elem_of_nil in Hin.
Defined.

Lemma scan_reports_monitored_markets_witness :
  let events := [Start true true ["m1"; "m2"];
                 UpdatePrices "m1" 0.48%float 0.47%float 1%float] in
  let w := default (init no_config) (run sample_env (init no_config) events) in
  length (scanForOpportunities (detector w)) = 1%nat ∧
  ∀ opp, opp ∈ scanForOpportunities (detector w) →
    map TradeSignal.asset_id (ArbitrageOpportunity.signals opp) = [""; ""] ∧
    map TradeSignal.action (ArbitrageOpportunity.signals opp) = [BUY; BUY].
Proof.
  cbv zeta.
  set (events := [Start true true ["m1"; "m2"];
                  UpdatePrices "m1" 0.48%float 0.47%float 1%float]).
  set (w := default (init no_config) (run sample_env (init no_config) events)).
  assert (reachable sample_env no_config w) as R by (exists events; vm_compute; reflexivity).
  destruct (scan_reports_monitored_markets sample_env no_config w R) as (_ & _ & H).
  split; [vm_compute; reflexivity|].
  intros opp Hin. destruct (H opp Hin) as (id & market & _ & _ & _ & _ & _ & A & B).
  by split.
Defined.

Lemma start_monitors_each_id_once_witness :
  let w1 := (start true true ["a"; "b"; "a"] (init no_config)).2 in
  isRunning (detector w1) = true ∧
  monitored w1 = ["a"; "b"] ∧
  scanForOpportunities (detector w1) = [] ∧
  start true true ["c"] w1 = (Returned, w1).
Proof.
  cbv zeta.
  assert (reachable sample_env no_config (init no_config)) as R by (by exists []).
  destruct (start_monitors_each_id_once sample_env no_config (init no_config) true true
              ["a"; "b"; "a"] R eq_refl) as (H1 & _ & H3 & H4).
  destruct (H3 eq_refl) as (_ & _ & _ & S).
  split; [exact H1|]. split; [vm_compute; reflexivity|]. split; [exact S | apply H4].
Defined.

End DetectorInstances.

(* ===================================================================== *)
(** * More on the streaming client *)
(* ===================================================================== *)

Section ClientEffectsProofs.

Import WS.

Variable env : Env.

Lemma isConnected_spec (s : t) :
  isConnected s = true ↔ ∃ sock, ws s = Some sock ∧ readyState s sock = Some OPEN.
Proof.
  unfold isConnected. destruct (ws s) as [sock|].
  - destruct (readyState s sock) as [[]|] eqn:E; split; try done;
      try (intros (k & [= <-] & H); congruence).
    intros _. by exists sock.
  - split; [done|]. by intros (k & [=] & _).
Qed.

Lemma sound_effect_ext (s1 s2 : t) (e : Effect) :
  ws s1 = ws s2 → sockets s1 = sockets s2 → config s1 = config s2 →
  sound_effect s1 e → sound_effect s2 e.
Proof.
  intros Hw Hs Hc. destruct e; cbn; unfold readyState; by rewrite ?Hw, ?Hs, ?Hc.
Qed.

Lemma sendSubscription_spec (assetIds : list string) (type : Channel) (s : t) :
  (isConnected s = false ∧ sendSubscription assetIds type s = s) ∨
  (∃ sock, ws s = Some sock ∧ readyState s sock = Some OPEN ∧
           sendSubscription assetIds type s = emit (SocketSend sock (subscribe type assetIds)) s).
Proof.
  unfold sendSubscription. destruct (isConnected s) eqn:E; [|by left]. right.
  apply isConnected_spec in E as (sock & Hw & Hr). exists sock.
  split; [done|]. split; [done|]. unfold send. by rewrite Hw.
Qed.

Lemma grows_refl (s : t) : step_grows s s.
Proof. split; [done|]. exists []. by rewrite app_nil_r. Qed.

Lemma connect_grows (ctor_ok : bool) (s : t) : step_grows s (connect ctor_ok s).
Proof.
  unfold connect. destruct (isConnected s); [apply grows_refl|].
  destruct (isConnecting s); [apply grows_refl|].
  destruct ctor_ok.
  - split; [done|]. eexists. split; [reflexivity|].
    apply Forall_singleton. cbn. split; [done|]. split; [|done].
    unfold readyState. cbn. by rewrite list_lookup_middle.
  - split; [done|]. exists []. by rewrite app_nil_r.
Qed.

Lemma disconnect_grows (s : t) : step_grows s (disconnect s).
Proof.
  unfold disconnect. destruct s as [[sock|] ? ? ? ? ? ? ? ? ? ?]; cbn.
  - split; [done|]. eexists. split; [reflexivity|]. by apply Forall_singleton.
  - split; [done|]. exists []. by rewrite app_nil_r.
Qed.

Lemma sendSubscription_grows (assetIds : list string) (type : Channel) (s : t) :
  step_grows s (sendSubscription assetIds type s) ∧
  ws (sendSubscription assetIds type s) = ws s ∧
  sockets (sendSubscription assetIds type s) = sockets s.
Proof.
  destruct (sendSubscription_spec assetIds type s) as [[_ ->]|(sock & Hw & Hr & ->)].
  - split; [apply grows_refl | done].
  - split; [|done]. split; [done|]. eexists. split; [reflexivity|].
    by apply Forall_singleton.
Qed.

Lemma grows_trans (s1 s2 s3 : t) :
  step_grows s1 s2 → step_grows s2 s3 → ws s3 = ws s2 → sockets s3 = sockets s2 →
  step_grows s1 s3.
Proof.
  intros (C1 & e1 & T1 & F1) (C2 & e2 & T2 & F2) Hw Hs.
  split; [congruence|]. exists (e1 ++ e2). split; [by rewrite T2, T1, app_assoc|].
  apply Forall_app. split; [|done].
  eapply Forall_impl; [exact F1|]. intros e. by apply sound_effect_ext.
Qed.

Lemma subscribeOrderBook_grows (assetIds : list string) (cb : OrderBookCallback) (s : t) :
  step_grows s (subscribeOrderBook assetIds cb s).
Proof.
  unfold subscribeOrderBook.
  destruct (add_orderBookCallback_fold cb assetIds s) as (_ & _ & Hw & Hs & Ht).
  set (s1 := fold_left (add_orderBookCallback cb) assetIds s) in *.
  assert (config s1 = config s) as Hc.
  { unfold s1. clear. revert s. induction assetIds as [|x ids IH]; intros s; [done|].
    cbn [fold_left]. by rewrite IH. }
  assert (step_grows s s1) as G1.
  { split; [done|]. exists []. by rewrite app_nil_r. }
  destruct (isConnected s1); [|done].
  destruct (sendSubscription_grows assetIds book s1) as (G2 & Hw2 & Hs2).
  by apply (grows_trans s s1).
Qed.

Lemma subscribePrice_grows (assetIds : list string) (cb : PriceCallback) (s : t) :
  step_grows s (subscribePrice assetIds cb s).
Proof.
  unfold subscribePrice.
  destruct (add_priceCallback_fold cb assetIds s) as (_ & _ & Hw & Hs & Ht).
  set (s1 := fold_left (add_priceCallback cb) assetIds s) in *.
  assert (config s1 = config s) as Hc.
  { unfold s1. clear. revert s. induction assetIds as [|x ids IH]; intros s; [done|].
    cbn [fold_left]. by rewrite IH. }
  assert (step_grows s s1) as G1.
  { split; [done|]. exists []. by rewrite app_nil_r. }
  destruct (isConnected s1); [|done].
  destruct (sendSubscription_grows assetIds price s1) as (G2 & Hw2 & Hs2).
  by apply (grows_trans s s1).
Qed.

Lemma unsubscribe_grows (assetIds : list string) (s : t) :
  step_grows s (unsubscribe assetIds s).
Proof.
  unfold unsubscribe.
  destruct (remove_callbacks_fold assetIds s) as (_ & _ & Hw & Hs & Ht).
  set (s1 := fold_left remove_callbacks assetIds s) in *.
  assert (config s1 = config s) as Hc.
  { unfold s1. clear. revert s. induction assetIds as [|x ids IH]; intros s; [done|].
    cbn [fold_left]. by rewrite IH. }
  destruct (isConnected s1) eqn:E.
  - apply isConnected_spec in E as (sock & Hw1 & Hr1). unfold send. rewrite Hw1.
    split; [done|]. exists [SocketSend sock (unsubscribe_frame assetIds)].
    split; [cbn; by rewrite Ht|]. by apply Forall_singleton.
  - split; [done|]. exists []. by rewrite app_nil_r.
Qed.

Lemma resubscribeAll_spec (s : t) (sock : nat) :
  ws s = Some sock → readyState s sock = Some OPEN →
  resubscribeAll s = with_trace (trace s ++ resubscription s sock) s.
Proof.
  intros Hw Hr.
  assert (∀ ids ch s0 tr, s0 = with_trace tr s →
            sendSubscription ids ch s0 = with_trace (tr ++ [SocketSend sock (subscribe ch ids)]) s)
    as S.
  { intros ids ch s0 tr ->. unfold sendSubscription, isConnected, readyState, send.
    destruct s. cbn in *. subst. unfold readyState in Hr. cbn in Hr. by rewrite Hr. }
  unfold resubscribeAll, resubscription. cbv zeta.
  destruct (decide (keys (orderBookCallbacks s) = [])) as [Eb|Eb];
    destruct (decide (keys (priceCallbacks s) = [])) as [Ep|Ep].
  - rewrite Eb, Ep. cbn. rewrite app_nil_r. by destruct s.
  - rewrite Eb. cbn [length Nat.ltb Nat.leb]. cbn [app].
    destruct (keys (priceCallbacks s)) as [|k ks] eqn:K; [done|]. cbn [length Nat.ltb Nat.leb].
    apply S. by destruct s.
  - rewrite Ep. destruct (keys (orderBookCallbacks s)) as [|k ks] eqn:K; [done|].
    cbn [length Nat.ltb Nat.leb]. rewrite app_nil_r. apply S. by destruct s.
  - destruct (keys (orderBookCallbacks s)) as [|k ks] eqn:K; [done|].
    cbn [length Nat.ltb Nat.leb].
    rewrite (S (k :: ks) book s (trace s)) by (by destruct s).
    destruct (keys (priceCallbacks s)) as [|k' ks'] eqn:K'; [done|].
    cbn [length Nat.ltb Nat.leb].
    rewrite (S (k' :: ks') price _ (trace s ++ [SocketSend sock (subscribe book (k :: ks))])) by done.
    by rewrite <- app_assoc.
Qed.

Lemma call_each_calls {A} (throws : A → bool) (call : A → Effect) (callbacks : list A)
    (P : Effect → Prop) :
  (∀ cb, P (call cb)) → Forall P (call_each throws call callbacks).1.
Proof.
  intros H. induction callbacks as [|cb rest IH]; cbn; [done|].
  destruct (throws cb); cbn; [by apply Forall_singleton|].
  destruct (call_each throws call rest) as [calls threw]. cbn in *. by apply Forall_cons.
Qed.

Lemma dispatch_calls (s : t) (message : JS.value) (now : string) (calls : list Effect) :
  dispatch env s message now = Some calls →
  Forall (λ e, is_callback_call e = true) calls.
Proof.
  unfold dispatch.
  destruct (JS.get message "type") as [type|]; [|done]. cbn [mbind option_bind].
  set (first := if is_string type "book" then _ else _).
  assert (∀ c t, first = Some (c, t) → Forall (λ e, is_callback_call e = true) c) as F.
  { unfold first. intros c t. destruct (is_string type "book"); [|by intros [= <- <-]].
    destruct (JS.get message "data") as [d|]; [|done]. cbn [mbind option_bind].
    destruct (JS.truthy d); [|by intros [= <- <-]].
    destruct (parseOrderBook message now) as [ob|]; [|done]. cbn [mbind option_bind].
    intros [= E].
    match type of E with ?x = _ => assert (c = x.1) as -> by (by rewrite E) end.
    by apply call_each_calls. }
  destruct first as [[calls1 threw]|]; [|done]. cbn [mbind option_bind].
  specialize (F calls1 threw eq_refl).
  destruct threw; [by intros [= <-]|].
  destruct (is_string type "price_change"); [|by intros [= <-]].
  destruct (JS.get message "data") as [d|]; [|done]. cbn [mbind option_bind].
  destruct (JS.truthy d); [|by intros [= <-]].
  destruct (JS.get message "asset_id") as [a|]; [|done]. cbn [mbind option_bind].
  destruct (JS.get d "price") as [p|]; [|done]. cbn [mbind option_bind].
  intros [= <-]. apply Forall_app. split; [done|]. by apply call_each_calls.
Qed.

Lemma handleMessage_calls (data now : string) (s : t) :
  ∃ calls, handleMessage env data now s = with_trace (trace s ++ calls) s ∧
           Forall (λ e, is_callback_call e = true) calls.
Proof.
  unfold handleMessage.
  destruct (JSON_parse env data) as [message|].
  - destruct (dispatch env s message now) as [calls|] eqn:D.
    + exists calls. split; [done|]. by apply (dispatch_calls s message now).
    + exists []. by rewrite app_nil_r, with_trace_same.
  - exists []. by rewrite app_nil_r, with_trace_same.
Qed.

Lemma attemptReconnect_grows (s : t) : step_grows s (attemptReconnect s).
Proof.
  unfold attemptReconnect. destruct (negb (shouldReconnect s)); [apply grows_refl|].
  destruct (_ <=? _).
  - destruct (onError s); [|apply grows_refl].
    split; [done|]. eexists. split; [reflexivity|]. by apply Forall_singleton.
  - split; [done|]. eexists. split; [reflexivity|]. by apply Forall_singleton.
Qed.

Lemma resubscribeAll_disconnected (s : t) :
  isConnected s = false → resubscribeAll s = s.
Proof.
  intros NC. unfold resubscribeAll, sendSubscription. cbv zeta.
  destruct (Nat.ltb _ _); rewrite ?NC; cbn [negb]; destruct (Nat.ltb _ _);
    rewrite ?NC; done.
Qed.

Lemma resubscription_sound (s0 s : t) (k : nat) :
  ws s0 = Some k → readyState s0 k = Some OPEN →
  Forall (sound_effect s0) (resubscription s k).
Proof.
  intros W R1. unfold resubscription. apply Forall_app.
  split; (destruct (decide _); [apply Forall_nil_2 | by apply Forall_singleton]).
Qed.

Lemma step_effects (s s' : t) (e : Event) : step env s e = Some s' → step_grows s s'.
Proof.
  destruct e as [ok| |ids cb|ids cb|ids|cb|sock|sock data now|sock|sock|ok]; cbn [step].
  - intros [= <-]. apply connect_grows.
  - intros [= <-]. apply disconnect_grows.
  - intros [= <-]. apply subscribeOrderBook_grows.
  - intros [= <-]. apply subscribePrice_grows.
  - intros [= <-]. apply unsubscribe_grows.
  - intros [= <-]. split; [done|]. exists []. by rewrite app_nil_r.
  - destruct (readyState s sock) as [[]|] eqn:R; try discriminate. intros [= <-].
    unfold onopen.
    set (s1 := with_reconnectAttempts 0 (with_isConnecting false (set_readyState sock OPEN s))).
    destruct (isConnected s1) eqn:C.
    + apply isConnected_spec in C as (k & W & R1).
      rewrite (resubscribeAll_spec s1 k W R1). split; [done|].
      exists (resubscription s1 k). split; [done|].
      by apply resubscription_sound.
    + rewrite resubscribeAll_disconnected by done. split; [done|].
      exists []. by rewrite app_nil_r.
  - destruct (readyState s sock) as [[]|]; try discriminate. intros [= <-].
    destruct (handleMessage_calls data now s) as (calls & -> & F).
    split; [done|]. exists calls. split; [done|].
    eapply Forall_impl; [exact F|]. by intros [].
  - assert (step_grows s (onerror s)) as G.
    { unfold onerror. cbn. destruct (onError s); [|split; [done|]; exists []; by rewrite app_nil_r].
      split; [done|]. eexists. split; [reflexivity|]. by apply Forall_singleton. }
    destruct (readyState s sock) as [[]|]; try discriminate; by intros [= <-].
  - assert (step_grows s (onclose (set_readyState sock CLOSED s))) as G.
    { unfold onclose. apply (attemptReconnect_grows
        (with_isConnecting false (set_readyState sock CLOSED s))). }
    destruct (readyState s sock) as [[]|]; try discriminate; by intros [= <-].
  - destruct (timers s) as [|n]; [discriminate|]. intros [= <-].
    apply (connect_grows ok (with_timers n s)).
Qed.

End ClientEffectsProofs.

Section ClientRuns.

Import WS.

Variable env : Env.

(** X8. The client sends only on an open connection.  Whatever it does
    in one step, the effects so far stay, and every frame the step sends
    goes to the socket the client holds, which is open.  A subscription or a
    removal made while there is no open connection sends nothing. *)
Theorem frames_go_to_the_open_socket (s s' : t) (e : Event) :
  step env s e = Some s' →
  ∃ effects,
    trace s' = trace s ++ effects ∧
    ∀ sock frame, SocketSend sock frame ∈ effects →
      ws s' = Some sock ∧ readyState s' sock = Some OPEN ∧ isConnected s' = true.
Proof.
  intros (_ & effects & T & F)%step_effects. exists effects. split; [exact T|].
  intros sock frame Hin. rewrite Forall_forall in F. destruct (F _ Hin) as [W R].
  split; [exact W|]. split; [exact R|]. apply isConnected_spec. by exists sock.
Qed.

Lemma run_effects (events : list Event) (s s' : t) :
  run env s events = Some s' →
  config s' = config s ∧
  ∃ effects, trace s' = trace s ++ effects ∧
    Forall (λ e, match e with
                 | SetTimeout ms => ms = cfg_reconnectInterval (config s)
                 | NewWebSocket _ url => url = cfg_url (config s)
                 | _ => True
                 end) effects.
Proof.
  revert s. induction events as [|e events IH]; intros s; cbn [run].
  - intros [= <-]. split; [done|]. exists []. by rewrite app_nil_r.
  - destruct (step env s e) as [s1|] eqn:E; [|discriminate]. cbn [mbind option_bind].
    intros R. destruct (IH s1 R) as (C2 & e2 & T2 & F2).
    destruct (step_effects env s s1 e E) as (C1 & e1 & T1 & F1).
    split; [congruence|]. exists (e1 ++ e2). split; [by rewrite T2, T1, app_assoc|].
    apply Forall_app. split.
    + eapply Forall_impl; [exact F1|]. intros []; cbn; rewrite ?C1; tauto.
    + eapply Forall_impl; [exact F2|]. intros []; cbn; rewrite ?C1; tauto.
Qed.

(** X9. Reconnection uses one delay and one address.  Over any sequence
    of events the configuration of the client stays what the constructor
    made it, every reconnect timer that is started runs for the configured
    interval, however many attempts have failed, and every socket that is
    created connects to the configured address. *)
Theorem reconnect_delay_is_constant (s s' : t) (events : list Event) :
  run env s events = Some s' →
  config s' = config s ∧
  ∃ effects,
    trace s' = trace s ++ effects ∧
    (∀ ms, SetTimeout ms ∈ effects → ms = cfg_reconnectInterval (config s)) ∧
    (∀ sock url, NewWebSocket sock url ∈ effects → url = cfg_url (config s)).
Proof.
  intros (C & effects & T & F)%run_effects. split; [exact C|].
  exists effects. split; [exact T|]. rewrite Forall_forall in F.
  split; [intros ms Hin | intros sock url Hin]; exact (F _ Hin).
Qed.





End ClientRuns.

Section ClientFrames.

Import WS.

Variable env : Env.

Lemma keys_spec {A} (m : gmap string A) (a : string) : a ∈ keys m ↔ is_Some (m !! a).
Proof.
  unfold keys. rewrite list_elem_of_fmap. split.
  - intros ([k v] & -> & Hin). apply elem_of_map_to_list in Hin. by exists v.
  - intros [v Hv]. exists (a, v). split; [done|]. by apply elem_of_map_to_list.
Qed.



Lemma get_total (message : JS.value) (k : string) (v : JS.value) :
  JS.get message k = Some v → ∀ k', is_Some (JS.get message k').
Proof. destruct message; cbn; try done; by eexists. Qed.

Lemma truthy_get (d : JS.value) : JS.truthy d = true → ∀ k, is_Some (JS.get d k).
Proof. destruct d; cbn; try done; by eexists. Qed.

Lemma dispatch_undeliverable (s : t) (message type d a : JS.value) (now : string) :
  JS.get message "type" = Some type → JS.get message "data" = Some d →
  JS.get message "asset_id" = Some a →
  (is_string type "book" = false ∧ is_string type "price_change" = false) ∨
  JS.truthy d = false ∨ match a with JS.VStr _ => False | _ => True end →
  dispatch env s message now = Some [].
Proof.
  intros Ht Hd Ha H. unfold dispatch, parseOrderBook. rewrite Ht, Hd, Ha.
  cbn [mbind option_bind].
  destruct (JS.truthy d) eqn:Tr.
  - destruct (get_total message "type" type Ht "market") as [mk ->].
    destruct (truthy_get d Tr "bids") as [vb ->].
    destruct (truthy_get d Tr "asks") as [va ->].
    destruct (truthy_get d Tr "timestamp") as [vt ->].
    destruct (truthy_get d Tr "price") as [vp ->].
    cbn [mbind option_bind asset_id].
    destruct H as [[-> ->]|[?|H]]; [done|done|].
    assert (∀ A (m : gmap string A), lookup_value m a = None) as L by (by destruct a).
    rewrite !L. cbn [default call_each fst mbind option_bind].
    by destruct (is_string type "book"), (is_string type "price_change").
  - by destruct (is_string type "book"), (is_string type "price_change").
Qed.

(** X12. A frame never does more than call callbacks: it changes no
    field of the client, registers and removes nothing, sends nothing, and
    no exception leaves [handleMessage].  A frame that cannot be delivered
    (no JSON, [null], a type other than "book" and "price_change", no data,
    an asset id that is not a string) calls nothing at all. *)
Theorem undeliverable_frames_are_dropped (s : t) (data now : string) :
  (undeliverable env data → handleMessage env data now s = s) ∧
  ∃ calls,
    handleMessage env data now s = with_trace (trace s ++ calls) s ∧
    Forall (λ e, is_callback_call e = true) calls.
Proof.
  split; [|apply handleMessage_calls].
  unfold undeliverable, handleMessage.
  destruct (JSON_parse env data) as [message|]; [|done].
  destruct (JS.get message "type") as [type|] eqn:Ht.
  - destruct (get_total message "type" type Ht "data") as [d Hd].
    destruct (get_total message "type" type Ht "asset_id") as [a Ha].
    rewrite Hd, Ha. intros H.
    rewrite (dispatch_undeliverable s message type d a now Ht Hd Ha H).
    by rewrite app_nil_r, with_trace_same.
  - intros _. unfold dispatch. by rewrite Ht.
Qed.

Lemma call_each_throw {A} (throws : A → bool) (call : A → Effect) (pre post : list A) (cb : A) :
  (∀ cb', cb' ∈ pre → throws cb' = false) → throws cb = true →
  call_each throws call (pre ++ cb :: post) = (map call (pre ++ [cb]), true).
Proof.
  intros Hpre Hcb. induction pre as [|x pre IH]; cbn.
  - by rewrite Hcb.
  - rewrite (Hpre x) by apply list_elem_of_here.
    rewrite IH; [done|]. intros cb' Hin. by apply Hpre, list_elem_of_further.
Qed.

Lemma handleMessage_price_calls (s : t) (data now a : string) (p : JS.value) :
  price_frame env data a p →
  trace (handleMessage env data now s) =
    trace s ++ (call_each (λ cb, price_throws env cb (JS.VStr a) p)
                          (λ cb, PriceCall cb (JS.VStr a) p) (tickCallbacks s a)).1.
Proof.
  intros (message & d & Hp & Ht & Hd & Htr & Ha & Hpr).
  unfold handleMessage. rewrite Hp. unfold dispatch.
  rewrite Ht. cbn [mbind option_bind is_string String.eqb Ascii.eqb Bool.eqb].
  rewrite Hd. cbn [mbind option_bind]. rewrite Htr, Ha. cbn [mbind option_bind].
  rewrite Hpr. cbn [mbind option_bind lookup_value]. reflexivity.
Qed.

(** X13. A callback that throws ends the dispatch of its frame.  When
    the callbacks of the frame's asset are called in the order of their
    registration and one of them throws, the callbacks registered after it
    are not called for this frame; this holds for book frames and for price
    frames. *)
Theorem throwing_callback_ends_dispatch (s : t) (data now a : string) :
  (∀ orderBook pre cb post,
     book_frame env data a orderBook now →
     bookCallbacks s a = pre ++ cb :: post →
     (∀ cb', cb' ∈ pre → orderBook_throws env cb' orderBook = false) →
     orderBook_throws env cb orderBook = true →
     trace (handleMessage env data now s) =
       trace s ++ map (λ cb, OrderBookCall cb orderBook) (pre ++ [cb])) ∧
  (∀ p pre cb post,
     price_frame env data a p →
     tickCallbacks s a = pre ++ cb :: post →
     (∀ cb', cb' ∈ pre → price_throws env cb' (JS.VStr a) p = false) →
     price_throws env cb (JS.VStr a) p = true →
     trace (handleMessage env data now s) =
       trace s ++ map (λ cb, PriceCall cb (JS.VStr a) p) (pre ++ [cb])).
Proof.
  split.
  - intros orderBook pre cb post (message & d & Hp & Ht & Hd & Htr & Hob & Ha) E Hpre Hcb.
    unfold handleMessage. rewrite Hp. unfold dispatch.
    rewrite Ht. cbn [mbind option_bind is_string String.eqb Ascii.eqb Bool.eqb].
    rewrite Hd. cbn [mbind option_bind]. rewrite Htr, Hob. cbn [mbind option_bind].
    rewrite Ha. cbn [lookup_value]. fold (bookCallbacks s a). rewrite E.
    by rewrite (call_each_throw _ _ pre post cb Hpre Hcb).
  - intros p pre cb post Hf E Hpre Hcb.
    rewrite (handleMessage_price_calls s data now a p Hf), E.
    by rewrite (call_each_throw _ _ pre post cb Hpre Hcb).
Qed.

(** X14. A price frame calls every price callback registered for its
    asset, in the order of registration, each with the asset id and the
    price the frame carries, when none of them throws; it calls no
    order-book callback. *)
Theorem price_frame_calls_in_order (s : t) (data now a : string) (p : JS.value) :
  price_frame env data a p →
  (∀ cb, cb ∈ tickCallbacks s a → price_throws env cb (JS.VStr a) p = false) →
  trace (handleMessage env data now s) =
    trace s ++ map (λ cb, PriceCall cb (JS.VStr a) p) (tickCallbacks s a).
Proof.
  intros Hf Hth. rewrite (handleMessage_price_calls s data now a p Hf).
  by rewrite call_each_no_throw.
Qed.

End ClientFrames.

Section ClientRegistry.

Import WS.

Variable env : Env.

Lemma add_orderBookCallback_other (cb : OrderBookCallback) (assetIds : list string)
    (s : t) (a : string) :
  a ∉ assetIds →
  orderBookCallbacks (fold_left (add_orderBookCallback cb) assetIds s) !! a =
    orderBookCallbacks s !! a.
Proof.
  revert s. induction assetIds as [|x ids IH]; intros s Hn; [done|].
  apply not_elem_of_cons in Hn as [Hne Hn]. cbn [fold_left]. rewrite IH by done.
  cbn. by rewrite lookup_insert_ne.
Qed.

Lemma add_priceCallback_other (cb : PriceCallback) (assetIds : list string)
    (s : t) (a : string) :
  a ∉ assetIds →
  priceCallbacks (fold_left (add_priceCallback cb) assetIds s) !! a =
    priceCallbacks s !! a.
Proof.
  revert s. induction assetIds as [|x ids IH]; intros s Hn; [done|].
  apply not_elem_of_cons in Hn as [Hne Hn]. cbn [fold_left]. rewrite IH by done.
  cbn. by rewrite lookup_insert_ne.
Qed.

Lemma subscribeOrderBook_registry (assetIds : list string) (cb : OrderBookCallback) (s : t) :
  orderBookCallbacks (subscribeOrderBook assetIds cb s) =
    orderBookCallbacks (fold_left (add_orderBookCallback cb) assetIds s) ∧
  priceCallbacks (subscribeOrderBook assetIds cb s) = priceCallbacks s.
Proof.
  destruct (add_orderBookCallback_fold cb assetIds s) as (_ & Hp & _).
  unfold subscribeOrderBook. destruct (isConnected _); [|done].
  destruct (sendSubscription_registry assetIds book
              (fold_left (add_orderBookCallback cb) assetIds s)) as [-> ->]. done.
Qed.

Lemma subscribePrice_registry (assetIds : list string) (cb : PriceCallback) (s : t) :
  priceCallbacks (subscribePrice assetIds cb s) =
    priceCallbacks (fold_left (add_priceCallback cb) assetIds s) ∧
  orderBookCallbacks (subscribePrice assetIds cb s) = orderBookCallbacks s.
Proof.
  destruct (add_priceCallback_fold cb assetIds s) as (_ & Hp & _).
  unfold subscribePrice. destruct (isConnected _); [|done].
  destruct (sendSubscription_registry assetIds price
              (fold_left (add_priceCallback cb) assetIds s)) as [-> ->]. done.
Qed.

Lemma unsubscribe_lookup (assetIds : list string) (s : t) (a : string) :
  orderBookCallbacks (unsubscribe assetIds s) !! a =
    (if decide (a ∈ assetIds) then None else orderBookCallbacks s !! a) ∧
  priceCallbacks (unsubscribe assetIds s) !! a =
    (if decide (a ∈ assetIds) then None else priceCallbacks s !! a).
Proof.
  destruct (unsubscribe_registry assetIds s) as [-> ->].
  destruct (remove_callbacks_fold assetIds s) as (Hb & Hp & _). by rewrite Hb, Hp.
Qed.

(** X15. [unsubscribe] undoes subscriptions.  A subscription changes the
    callbacks of the assets it names and of no other asset, and leaves the
    registry of the other channel alone.  After [subscribeOrderBook] or
    [subscribePrice] for some assets, [unsubscribe] for the same assets
    leaves both registries as [unsubscribe] alone would have; so when none
    of these assets had a callback before, both registries are back to what
    they were. *)
Theorem subscribe_unsubscribe_round_trip (assetIds : list string) (s : t) :
  (∀ cb,
     let s1 := subscribeOrderBook assetIds cb s in
     (∀ a, a ∉ assetIds → orderBookCallbacks s1 !! a = orderBookCallbacks s !! a) ∧
     priceCallbacks s1 = priceCallbacks s ∧
     orderBookCallbacks (unsubscribe assetIds s1) = orderBookCallbacks (unsubscribe assetIds s) ∧
     priceCallbacks (unsubscribe assetIds s1) = priceCallbacks (unsubscribe assetIds s)) ∧
  (∀ cb,
     let s1 := subscribePrice assetIds cb s in
     (∀ a, a ∉ assetIds → priceCallbacks s1 !! a = priceCallbacks s !! a) ∧
     orderBookCallbacks s1 = orderBookCallbacks s ∧
     orderBookCallbacks (unsubscribe assetIds s1) = orderBookCallbacks (unsubscribe assetIds s) ∧
     priceCallbacks (unsubscribe assetIds s1) = priceCallbacks (unsubscribe assetIds s)) ∧
  ((∀ a, a ∈ assetIds → orderBookCallbacks s !! a = None ∧ priceCallbacks s !! a = None) →
   orderBookCallbacks (unsubscribe assetIds s) = orderBookCallbacks s ∧
   priceCallbacks (unsubscribe assetIds s) = priceCallbacks s).
Proof.
  split; [|split].
  - intros cb. cbv zeta.
    destruct (subscribeOrderBook_registry assetIds cb s) as [Eb Ep].
    split; [intros a Hn; rewrite Eb; by apply add_orderBookCallback_other|].
    split; [exact Ep|].
    split; apply map_eq; intros a;
      rewrite (proj1 (unsubscribe_lookup assetIds _ a)) ||
      rewrite (proj2 (unsubscribe_lookup assetIds _ a));
      rewrite (proj1 (unsubscribe_lookup assetIds s a)) ||
      rewrite (proj2 (unsubscribe_lookup assetIds s a));
      destruct (decide (a ∈ assetIds)); try done.
    + rewrite Eb. by apply add_orderBookCallback_other.
    + by rewrite Ep.
  - intros cb. cbv zeta.
    destruct (subscribePrice_registry assetIds cb s) as [Ep Eb].
    split; [intros a Hn; rewrite Ep; by apply add_priceCallback_other|].
    split; [exact Eb|].
    split; apply map_eq; intros a;
      rewrite (proj1 (unsubscribe_lookup assetIds _ a)) ||
      rewrite (proj2 (unsubscribe_lookup assetIds _ a));
      rewrite (proj1 (unsubscribe_lookup assetIds s a)) ||
      rewrite (proj2 (unsubscribe_lookup assetIds s a));
      destruct (decide (a ∈ assetIds)); try done.
    + by rewrite Eb.
    + rewrite Ep. by apply add_priceCallback_other.
  - intros H. split; apply map_eq; intros a.
    + rewrite (proj1 (unsubscribe_lookup assetIds s a)).
      destruct (decide (a ∈ assetIds)) as [Hin|]; [|done]. by rewrite (proj1 (H a Hin)).
    + rewrite (proj2 (unsubscribe_lookup assetIds s a)).
      destruct (decide (a ∈ assetIds)) as [Hin|]; [|done]. by rewrite (proj2 (H a Hin)).
Qed.

End ClientRegistry.

Section ClientInvariants.

Import WS.

Variable env : Env.

Lemma no_empty_entry_add_book (cb : OrderBookCallback) (assetIds : list string) (s : t) :
  no_empty_entry (orderBookCallbacks s) →
  no_empty_entry (orderBookCallbacks (fold_left (add_orderBookCallback cb) assetIds s)).
Proof.
  revert s. induction assetIds as [|x ids IH]; intros s H; [done|].
  cbn [fold_left]. apply IH. intros a callbacks. cbn. rewrite lookup_insert.
  destruct (decide (x = a)); [|apply H].
  intros [= <-]. by destruct (default [] _).
Qed.

Lemma no_empty_entry_add_price (cb : PriceCallback) (assetIds : list string) (s : t) :
  no_empty_entry (priceCallbacks s) →
  no_empty_entry (priceCallbacks (fold_left (add_priceCallback cb) assetIds s)).
Proof.
  revert s. induction assetIds as [|x ids IH]; intros s H; [done|].
  cbn [fold_left]. apply IH. intros a callbacks. cbn. rewrite lookup_insert.
  destruct (decide (x = a)); [|apply H].
  intros [= <-]. by destruct (default [] _).
Qed.

Lemma resubscribeAll_registry (s : t) :
  orderBookCallbacks (resubscribeAll s) = orderBookCallbacks s ∧
  priceCallbacks (resubscribeAll s) = priceCallbacks s.
Proof.
  unfold resubscribeAll. cbv zeta.
  destruct (Nat.ltb _ _); destruct (Nat.ltb _ _);
    rewrite ?(proj1 (sendSubscription_registry _ _ _)),
            ?(proj2 (sendSubscription_registry _ _ _)); done.
Qed.

Lemma step_registry (s s' : t) (e : Event) :
  step env s e = Some s' →
  match e with
  | SubscribeOrderBook _ _ | SubscribePrice _ _ | Unsubscribe _ => True
  | _ => orderBookCallbacks s' = orderBookCallbacks s ∧ priceCallbacks s' = priceCallbacks s
  end.
Proof.
  destruct e as [ok| |ids cb|ids cb|ids|cb|sock|sock data now|sock|sock|ok]; cbn [step];
    try done.
  - intros [= <-]. apply connect_registry.
  - intros [= <-]. unfold disconnect. by destruct s as [[k|] ? ? ? ? ? ? ? ? ? ?].
  - by intros [= <-].
  - destruct (readyState s sock) as [[]|]; try discriminate. intros [= <-].
    unfold onopen. by destruct (resubscribeAll_registry
      (with_reconnectAttempts 0 (with_isConnecting false (set_readyState sock OPEN s))))
      as [-> ->].
  - destruct (readyState s sock) as [[]|]; try discriminate. intros [= <-].
    by destruct (handleMessage_calls env data now s) as (calls & -> & _).
  - assert (orderBookCallbacks (onerror s) = orderBookCallbacks s ∧
            priceCallbacks (onerror s) = priceCallbacks s) as G.
    { unfold onerror. cbn. by destruct (onError s). }
    destruct (readyState s sock) as [[]|]; try discriminate; by intros [= <-].
  - assert (∀ s0, orderBookCallbacks (attemptReconnect s0) = orderBookCallbacks s0 ∧
                  priceCallbacks (attemptReconnect s0) = priceCallbacks s0) as G.
    { intros s0. unfold attemptReconnect. destruct (negb _); [done|].
      destruct (_ <=? _); [|done]. by destruct (onError s0). }
    destruct (readyState s sock) as [[]|]; try discriminate; intros [= <-];
      unfold onclose; by destruct (G (with_isConnecting false (set_readyState sock CLOSED s)))
        as [-> ->].
  - destruct (timers s) as [|n]; [discriminate|]. intros [= <-].
    apply (connect_registry ok (with_timers n s)).
Qed.

Lemma no_empty_entry_step (s s' : t) (e : Event) :
  step env s e = Some s' →
  no_empty_entry (orderBookCallbacks s) ∧ no_empty_entry (priceCallbacks s) →
  no_empty_entry (orderBookCallbacks s') ∧ no_empty_entry (priceCallbacks s').
Proof.
  intros E [Hb Hp]. pose proof (step_registry s s' e E) as R.
  destruct e as [ok| |ids cb|ids cb|ids|cb|sock|sock data now|sock|sock|ok];
    [by destruct R as [-> ->] | by destruct R as [-> ->] | | | |
     by destruct R as [-> ->] ..]; cbn [step] in E; injection E as <-.
  - destruct (subscribeOrderBook_registry ids cb s) as [-> ->].
    split; [by apply no_empty_entry_add_book | done].
  - destruct (subscribePrice_registry ids cb s) as [-> ->].
    split; [done | by apply no_empty_entry_add_price].
  - split; intros a callbacks.
    + rewrite (proj1 (unsubscribe_lookup ids s a)). destruct (decide _); [done|apply Hb].
    + rewrite (proj2 (unsubscribe_lookup ids s a)). destruct (decide _); [done|apply Hp].
Qed.

(** X16. The registries hold no empty entry.  In every state that a new
    client reaches, an asset is a key of a registry exactly when at least
    one callback is registered for it there; so the frames sent when a
    connection opens list the assets with a callback and no others. *)
Theorem registries_hold_no_empty_entry (c : WebSocketConfig) (events : list Event) (s : t) :
  run env (create c) events = Some s →
  (∀ a, a ∈ keys (orderBookCallbacks s) ↔ bookCallbacks s a ≠ []) ∧
  (∀ a, a ∈ keys (priceCallbacks s) ↔ tickCallbacks s a ≠ []).
Proof.
  assert (∀ events s0 s, run env s0 events = Some s →
            no_empty_entry (orderBookCallbacks s0) ∧ no_empty_entry (priceCallbacks s0) →
            no_empty_entry (orderBookCallbacks s) ∧ no_empty_entry (priceCallbacks s)) as H.
  { clear. intros events. induction events as [|e events IH]; intros s0 s; cbn [run].
    - by intros [= <-].
    - destruct (step env s0 e) as [s1|] eqn:E; [|discriminate]. cbn [mbind option_bind].
      intros R B. apply (IH s1 s R). by apply (no_empty_entry_step s0 s1 e). }
  intros R. destruct (H events (create c) s R) as [Hb Hp].
  { split; intros a callbacks; cbn; by rewrite lookup_empty. }
  split; intros a; rewrite keys_spec.
  - unfold bookCallbacks. destruct (orderBookCallbacks s !! a) as [cbs|] eqn:E; cbn.
    + split; [intros _; by apply (Hb a) | by eexists].
    + split; [by intros [? [=]] | done].
  - unfold tickCallbacks. destruct (priceCallbacks s !! a) as [cbs|] eqn:E; cbn.
    + split; [intros _; by apply (Hp a) | by eexists].
    + split; [by intros [? [=]] | done].
Qed.

Lemma connect_noop (s : t) (ok : bool) :
  isConnected s = true ∨ isConnecting s = true → connect ok s = s.
Proof.
  intros H. unfold connect. destruct (isConnected s); [done|].
  destruct (isConnecting s); [done|]. by destruct H.
Qed.

(** X17. [connect()] twice is [connect()] once.  While the socket is
    open or an attempt is pending, [connect()] changes nothing; so a second
    call right after a first one creates no second socket. *)
Theorem connect_twice (s : t) (ctor_ok : bool) :
  (isConnected s = true ∨ isConnecting s = true → connect ctor_ok s = s) ∧
  connect ctor_ok (connect true s) = connect true s ∧
  (length (sockets (connect ctor_ok (connect true s))) ≤ S (length (sockets s)))%nat.
Proof.
  assert (∀ ok, connect ok (connect true s) = connect true s) as H2.
  { intros ok. destruct (isConnected s) eqn:C.
    { rewrite (connect_noop s true) by (by left). apply connect_noop. by left. }
    destruct (isConnecting s) eqn:I.
    { rewrite (connect_noop s true) by (by right). apply connect_noop. by right. }
    apply connect_noop. right. unfold connect. by rewrite C, I. }
  split; [intros H; by apply connect_noop|]. split; [apply H2|]. rewrite H2.
  unfold connect. destruct (isConnected s); [lia|]. destruct (isConnecting s); [lia|].
  cbn. rewrite length_app. cbn. lia.
Qed.



End ClientInvariants.

Section ClientInstances.

Import WS.

Lemma frames_go_to_the_open_socket_witness :
  let s := onopen (set_readyState 0 OPEN (connect true (create no_config))) in
  let s' := subscribeOrderBook ["a"] (OrderBookListener 0) s in
  trace s' = trace s ++ [SocketSend 0 (subscribe book ["a"])] ∧
  isConnected s' = true.
Proof.
  cbv zeta.
  set (s := onopen (set_readyState 0 OPEN (connect true (create no_config)))).
  set (s' := subscribeOrderBook ["a"] (OrderBookListener 0) s).
  assert (trace s' = trace s ++ [SocketSend 0 (subscribe book ["a"])]) as T
    by (vm_compute; reflexivity).
  split; [exact T|].
  destruct (frames_go_to_the_open_socket sample_env s s'
              (SubscribeOrderBook ["a"] (OrderBookListener 0)) eq_refl)
    as (effects & T' & H).
  rewrite T' in T. apply app_inv_head in T. subst effects.
  apply (H 0%nat (subscribe book ["a"])). apply list_elem_of_here.
Defined.

Lemma reconnect_delay_is_constant_witness :
  let s := default (create no_config)
             (run sample_env (create no_config) (Connect true :: failures false 0 3)) in
  count is_SetTimeout s = 3%nat ∧
  ∀ ms, SetTimeout ms ∈ trace s → ms = 5000.
Proof.
  cbv zeta.
  set (events := Connect true :: failures false 0 3).
  set (s := default (create no_config) (run sample_env (create no_config) events)).
  assert (run sample_env (create no_config) events = Some s) as R
    by (vm_compute; reflexivity).
  destruct (reconnect_delay_is_constant sample_env (create no_config) s events R)
    as (_ & effects & T & H & _).
  split; [vm_compute; reflexivity|].
  intros ms Hin. rewrite T in Hin. exact (H ms Hin).
Defined.



Lemma undeliverable_frames_are_dropped_witness :
  let s := subscribeOrderBook ["a"] (OrderBookListener 0) (create no_config) in
  handleMessage heartbeat_env "{}" "now" s = s.
Proof.
  cbv zeta.
  apply (proj1 (undeliverable_frames_are_dropped heartbeat_env
                  (subscribeOrderBook ["a"] (OrderBookListener 0) (create no_config))
                  "{}" "now")).
  left. split; reflexivity.
Defined.

Lemma throwing_callback_ends_dispatch_witness :
  let s := subscribeOrderBook ["a"] (OrderBookListener 2)
             (subscribeOrderBook ["a"] (OrderBookListener 1)
                (subscribeOrderBook ["a"] (OrderBookListener 0) (create no_config))) in
  ∃ orderBook,
    trace (handleMessage throwing_env "frame" "now" s) =
      [OrderBookCall (OrderBookListener 0) orderBook;
       OrderBookCall (OrderBookListener 1) orderBook].
Proof.
  cbv zeta. eexists.
  refine (proj1 (throwing_callback_ends_dispatch throwing_env
            (subscribeOrderBook ["a"] (OrderBookListener 2)
               (subscribeOrderBook ["a"] (OrderBookListener 1)
                  (subscribeOrderBook ["a"] (OrderBookListener 0) (create no_config))))
            "frame" "now" "a") _ [OrderBookListener 0] (OrderBookListener 1)
            [OrderBookListener 2] _ _ _ _).
  - exists book_frame_for_a, (JS.VObj [("bids", JS.VArr []); ("asks", JS.VArr [])]).
    repeat split; reflexivity.
  - vm_compute. reflexivity.
  - intros cb' ->%list_elem_of_singleton. reflexivity.
  - reflexivity.
Defined.

Lemma price_frame_calls_in_order_witness :
  let s := subscribePrice ["a"] (PriceListener 2)
             (subscribePrice ["a"] (PriceListener 1) (create no_config)) in
  trace (handleMessage price_env "frame" "now" s) =
    [PriceCall (PriceListener 1) (JS.VStr "a") (JS.VStr "0.52");
     PriceCall (PriceListener 2) (JS.VStr "a") (JS.VStr "0.52")].
Proof.
  cbv zeta.
  rewrite (price_frame_calls_in_order price_env
             (subscribePrice ["a"] (PriceListener 2)
                (subscribePrice ["a"] (PriceListener 1) (create no_config)))
             "frame" "now" "a" (JS.VStr "0.52")).
  - vm_compute. reflexivity.
  - exists price_frame_for_a, (JS.VObj [("price", JS.VStr "0.52")]).
    repeat split; reflexivity.
  - intros cb _. reflexivity.
Defined.

Lemma subscribe_unsubscribe_round_trip_witness :
  let s := subscribePrice ["b"] (PriceListener 1) (create no_config) in
  let s1 := subscribeOrderBook ["a"; "c"] (OrderBookListener 0) s in
  orderBookCallbacks (unsubscribe ["a"; "c"] s1) = orderBookCallbacks s ∧
  priceCallbacks (unsubscribe ["a"; "c"] s1) = priceCallbacks s.
Proof.
  cbv zeta.
  destruct (subscribe_unsubscribe_round_trip ["a"; "c"]
              (subscribePrice ["b"] (PriceListener 1) (create no_config)))
    as (H1 & _ & H3).
  destruct (H1 (OrderBookListener 0)) as (_ & _ & -> & ->).
  apply H3. intros a Hin.
  apply elem_of_cons in Hin as [->|Hin]; [split; vm_compute; reflexivity|].
  apply list_elem_of_singleton in Hin as ->. split; vm_compute; reflexivity.
Defined.

Lemma registries_hold_no_empty_entry_witness :
  let events := [SubscribeOrderBook ["a"; "b"] (OrderBookListener 0); Unsubscribe ["a"]] in
  let s := default (create no_config) (run sample_env (create no_config) events) in
  keys (orderBookCallbacks s) = ["b"] ∧
  ∀ a, a ∈ keys (orderBookCallbacks s) ↔ bookCallbacks s a ≠ [].
Proof.
  cbv zeta.
  set (events := [SubscribeOrderBook ["a"; "b"] (OrderBookListener 0); Unsubscribe ["a"]]).
  set (s := default (create no_config) (run sample_env (create no_config) events)).
  assert (run sample_env (create no_config) events = Some s) as R
    by (vm_compute; reflexivity).
  split; [vm_compute; reflexivity|].
  exact (proj1 (registries_hold_no_empty_entry sample_env no_config events s R)).
Defined.

Lemma connect_twice_witness :
  let s := connect true (create no_config) in
  connect true s = s ∧ length (sockets (connect true s)) = 1%nat.
Proof.
  cbv zeta.
  destruct (connect_twice (connect true (create no_config)) true) as (H & _ & _).
  rewrite H by (by right). split; reflexivity.
Defined.


End ClientInstances.

(* ===================================================================== *)
(** * More on the market maker *)
(* ===================================================================== *)

Section EngineSteps.

Import MM.

Variable env : WS.Env.

Lemma stop_unmanaged (a : string) (w : World) :
  states (mm w) !! a = None → stop a w = (Returned, w).
Proof. intros H. unfold stop. by rewrite H. Qed.

Lemma stop_managed (a : string) (state : MarketMakerState) (w : World) :
  states (mm w) !! a = Some state →
  ∃ w1, stop a w = (Awaiting, w1) ∧
    states (mm w1) = alter clear_orders a (alter not_running a (states (mm w))) ∧
    refreshTimers (mm w1) = delete a (refreshTimers (mm w)) ∧
    intervals w1 = match refreshTimers (mm w) !! a with
                   | Some timer => delete timer (intervals w)
                   | None => intervals w
                   end ∧
    nextTimer w1 = nextTimer w ∧ ws w1 = ws w ∧ config (mm w1) = config (mm w) ∧
    suspended w1 = suspended w ++ [StopAfterCancel a].
Proof.
  intros H. unfold stop. rewrite H. eexists. split; [reflexivity|]. cbn.
  destruct (refreshTimers (mm w) !! a) as [timer|] eqn:E; cbn; repeat split.
  by rewrite delete_id.
Qed.

Lemma start_rest_fields (a : string) (w : World) :
  suspended (start_rest a w) = suspended w ∧ nextTimer (start_rest a w) = S (nextTimer w) ∧
  config (mm (start_rest a w)) = config (mm w).
Proof. done. Qed.

Lemma start_timers (hasCredentials ctor_ok : bool) (a marketId : string) (w : World) :
  let w' := (start hasCredentials ctor_ok a marketId w).2 in
  (refreshTimers (mm w') = refreshTimers (mm w) ∧ intervals w' = intervals w ∧
   nextTimer w' = nextTimer w) ∨
  (refreshTimers (mm w') = <[a := nextTimer w]> (refreshTimers (mm w)) ∧
   intervals w' = <[nextTimer w := a]> (intervals w) ∧
   nextTimer w' = S (nextTimer w)).
Proof.
  cbv zeta. unfold start. destruct hasCredentials; [|by left]. cbn [negb].
  destruct (bool_decide _); [by left|].
  destruct (negb (WS.isConnected _)); [|by right].
  left. by destruct (_ && _).
Qed.

Lemma timers_live_start_rest (a : string) (w : World) :
  timers_live w → timers_live (start_rest a w).
Proof.
  intros [L F]. split.
  - intros b timer. cbn. rewrite lookup_insert.
    destruct (decide (a = b)) as [->|Hne].
    + intros [= <-]. by rewrite lookup_insert_eq.
    + intros Hb. rewrite lookup_insert_ne; [by apply L|].
      intros <-. specialize (F _ _ (L _ _ Hb)). lia.
  - intros timer b. cbn. rewrite lookup_insert.
    destruct (decide (nextTimer w = timer)) as [<-|Hne]; [lia|].
    intros Hb. specialize (F _ _ Hb). lia.
Qed.

Lemma timers_live_ext (w w' : World) :
  refreshTimers (mm w') = refreshTimers (mm w) → intervals w' = intervals w →
  nextTimer w' = nextTimer w → timers_live w → timers_live w'.
Proof. unfold timers_live. intros -> -> ->. done. Qed.

Lemma timers_live_start (hasCredentials ctor_ok : bool) (a marketId : string) (w : World) :
  timers_live w → timers_live (start hasCredentials ctor_ok a marketId w).2.
Proof.
  intros H. destruct (start_timers hasCredentials ctor_ok a marketId w)
    as [(E1 & E2 & E3)|(E1 & E2 & E3)].
  - by apply (timers_live_ext w).
  - pose proof (timers_live_start_rest a w H) as [L F].
    split; rewrite ?E1, ?E2, ?E3; [exact L | exact F].
Qed.

Lemma timers_live_stop (a : string) (w : World) : timers_live w → timers_live (stop a w).2.
Proof.
  intros [L F]. destruct (states (mm w) !! a) as [state|] eqn:E.
  - destruct (stop_managed a state w E) as (w1 & -> & _ & Et & Ei & En & _). cbn [snd].
    split.
    + intros b timer. rewrite Et, Ei, lookup_delete.
      destruct (decide (a = b)) as [->|Hne]; [done|]. intros Hb.
      destruct (refreshTimers (mm w) !! a) as [ta|] eqn:Ea; [|by apply L].
      rewrite lookup_delete_ne; [by apply L|].
      intros <-. pose proof (L _ _ Ea) as H1. pose proof (L _ _ Hb) as H2. congruence.
    + intros timer b. rewrite Ei, En.
      destruct (refreshTimers (mm w) !! a) as [ta|]; [|apply F].
      rewrite lookup_delete. destruct (decide (ta = timer)); [done|apply F].
  - by rewrite stop_unmanaged.
Qed.

Lemma fold_stop_keeps (P : World → Prop) (ids : list string) (w : World) :
  (∀ a w, P w → P (stop a w).2) → P w → P (fold_left (λ w id, (stop id w).2) ids w).
Proof.
  intros H. revert w. induction ids as [|a ids IH]; intros w Hw; [done|].
  cbn [fold_left]. by apply IH, H.
Qed.

Lemma timers_live_step (w w' : World) (e : Event) :
  step env w e = Some w' → timers_live w → timers_live w'.
Proof.
  destruct e as [hc ok a m|a| |k|timer|a ob|e]; cbn [step].
  - intros [= <-]. apply timers_live_start.
  - intros [= <-]. apply timers_live_stop.
  - intros [= <-]. unfold stopAll. apply fold_stop_keeps. intros a w0. apply timers_live_stop.
  - unfold resume. destruct (suspended w !! k) as [[a|a]|]; [| |discriminate];
      intros [= <-] H.
    + by apply timers_live_start_rest.
    + exact H.
  - destruct (intervals w !! timer) as [a|]; [|discriminate]. intros [= <-] H.
    unfold refreshOrders. destruct (states (mm w) !! a) as [st|]; [|done].
    by destruct (negb (isRunning st)).
  - intros [= <-]. unfold handleOrderBookUpdate.
    destruct (states (mm w) !! a) as [st|]; [|done]. by destruct (negb (isRunning st)).
  - destruct (WS.step env (ws w) e); [|discriminate]. by intros [= <-].
Qed.

Lemma reachable_keeps (P : World → Prop) (c : PartialConfig) (w : World) :
  P (init c) → (∀ w w' e, step env w e = Some w' → P w → P w') →
  reachable env c w → P w.
Proof.
  intros H0 Hstep [events R]. revert R. generalize (init c) H0. clear H0.
  induction events as [|e events IH]; intros w0 H0; cbn [run].
  - by intros [= <-].
  - destruct (step env w0 e) as [w1|] eqn:E; [|discriminate]. cbn [mbind option_bind].
    apply IH. by apply (Hstep w0 w1 e).
Qed.

(** X19. Every refresh timer the engine remembers is alive.  In every
    state the engine can reach, the handle it keeps for an asset is a live
    interval that refreshes this asset, two assets never share a handle,
    and every live interval has a handle below the next one to be given
    out. *)
Theorem refresh_timers_are_live (c : PartialConfig) (w : World) :
  reachable env c w →
  (∀ a timer, refreshTimers (mm w) !! a = Some timer → intervals w !! timer = Some a) ∧
  (∀ a b timer, refreshTimers (mm w) !! a = Some timer →
                refreshTimers (mm w) !! b = Some timer → a = b) ∧
  (∀ timer a, intervals w !! timer = Some a → (timer < nextTimer w)%nat).
Proof.
  intros R.
  destruct (reachable_keeps timers_live c w) as [L F]; [|apply timers_live_step|exact R|].
  { split; intros ? ?; cbn; by rewrite lookup_empty. }
  split; [exact L|]. split; [|exact F].
  intros a b timer Ha Hb. pose proof (L _ _ Ha). pose proof (L _ _ Hb). congruence.
Qed.

End EngineSteps.

Section EngineOrders.

Import MM.

Variable env : WS.Env.

Lemma no_orders_alter (f : MarketMakerState → MarketMakerState) (a : string) (w w' : World) :
  (∀ state, assetId (f state) = assetId state ∧
            (currentBid state = None → currentBid (f state) = None) ∧
            (currentAsk state = None → currentAsk (f state) = None)) →
  states (mm w') = alter f a (states (mm w)) → no_orders w → no_orders w'.
Proof.
  unfold no_orders. intros Hf -> H b state. rewrite lookup_alter.
  destruct (decide (a = b)) as [->|]; [|apply H].
  destruct (states (mm w) !! b) as [st|] eqn:E; [|discriminate].
  intros [= <-]. destruct (H b st E) as (H1 & H2 & H3). destruct (Hf st) as (F1 & F2 & F3).
  split; [congruence|]. split; [by apply F2 | by apply F3].
Qed.

Lemma no_orders_stop (a : string) (w : World) : no_orders w → no_orders (stop a w).2.
Proof.
  intros H. destruct (states (mm w) !! a) as [state|] eqn:E.
  - destruct (stop_managed a state w E) as (w1 & -> & Es & _). cbn [snd].
    rewrite alter_alter_eq in Es.
    by apply (no_orders_alter (clear_orders ∘ not_running) a w).
  - by rewrite stop_unmanaged.
Qed.

Lemma no_orders_start (hasCredentials ctor_ok : bool) (a marketId : string) (w : World) :
  no_orders w → no_orders (start hasCredentials ctor_ok a marketId w).2.
Proof.
  intros H. unfold no_orders.
  destruct (start_states hasCredentials ctor_ok a marketId w) as [-> | ->]; [done|].
  intros b state. rewrite lookup_insert.
  destruct (decide (a = b)) as [->|]; [by intros [= <-]|apply H].
Qed.

Lemma no_orders_step (w w' : World) (e : Event) :
  step env w e = Some w' → no_orders w → no_orders w'.
Proof.
  destruct e as [hc ok a m|a| |k|timer|a ob|e]; cbn [step].
  - intros [= <-]. apply no_orders_start.
  - intros [= <-]. apply no_orders_stop.
  - intros [= <-]. unfold stopAll. apply fold_stop_keeps. intros a w0. apply no_orders_stop.
  - unfold resume. destruct (suspended w !! k) as [[a|a]|]; [| |discriminate];
      intros [= <-] H; [exact H|].
    intros b state. cbn. rewrite lookup_delete.
    destruct (decide (a = b)); [done|apply H].
  - destruct (intervals w !! timer) as [a|]; [|discriminate]. intros [= <-] H.
    unfold refreshOrders. destruct (states (mm w) !! a) as [st|]; [|done].
    destruct (negb (isRunning st)); [done|].
    apply (no_orders_alter clear_orders a w); [done|done|exact H].
  - intros [= <-]. unfold handleOrderBookUpdate.
    destruct (states (mm w) !! a) as [st|]; [|done]. by destruct (negb (isRunning st)).
  - destruct (WS.step env (ws w) e); [|discriminate]. by intros [= <-].
Qed.

Lemma cancelOrders_void (a : string) (w : World) :
  no_orders w → cancelOrders a (mm w) = mm w.
Proof.
  intros H. unfold cancelOrders.
  assert (alter clear_orders a (states (mm w)) = states (mm w)) as ->.
  { apply map_eq. intros b. rewrite lookup_alter.
    destruct (decide (a = b)) as [->|]; [|done].
    destruct (states (mm w) !! b) as [st|] eqn:E; [|done]. cbn.
    destruct (H b st E) as (_ & Hb & Ha). destruct st. cbn in *. by subst. }
  by destruct (mm w).
Qed.

(** X20. The engine never records an order.  In every state it can
    reach, every tracked state is stored under its own asset id and has
    neither a current bid nor a current ask.  So [cancelOrders] finds
    nothing to cancel, and a tick of the refresh timer, which only cancels,
    leaves everything as it is. *)
Theorem orders_are_never_placed (c : PartialConfig) (w : World) :
  reachable env c w →
  (∀ a state, states (mm w) !! a = Some state →
     assetId state = a ∧ currentBid state = None ∧ currentAsk state = None) ∧
  (∀ a, cancelOrders a (mm w) = mm w) ∧
  (∀ a, refreshOrders a w = w) ∧
  (∀ timer w', step env w (IntervalTick timer) = Some w' → w' = w).
Proof.
  intros R.
  assert (no_orders w) as H.
  { apply (reachable_keeps env no_orders c w); [|apply no_orders_step|exact R].
    intros a state. cbn. by rewrite lookup_empty. }
  assert (∀ a, refreshOrders a w = w) as Hr.
  { intros a. unfold refreshOrders. destruct (states (mm w) !! a) as [st|]; [|done].
    destruct (negb (isRunning st)); [done|]. rewrite cancelOrders_void by done.
    by destruct w. }
  split; [exact H|]. split; [intros a; by apply cancelOrders_void|]. split; [exact Hr|].
  intros timer w'. cbn [step]. destruct (intervals w !! timer) as [a|]; [|discriminate].
  intros [= <-]. apply Hr.
Qed.

Lemma generateSignals_stopped (m : MarketMaker) (a : string) (orderBook : OrderBook.t) :
  (∀ state, states m !! a = Some state → isRunning state = false) →
  generateSignals m a orderBook = [].
Proof.
  intros H. unfold generateSignals. destruct (states m !! a) as [st|]; [|done].
  by rewrite (H st eq_refl).
Qed.

(** X21. [stop] of an asset the engine does not manage returns at once and
    changes nothing.  For a managed asset it clears the running flag and the
    refresh timer before it waits: from then on no signal is generated for
    the asset and its interval is gone.  When the call goes on after the
    wait, it removes every callback registered with the shared client for
    that asset, the order-book callbacks and the price callbacks of
    whoever registered them, and drops the state; the states of the other
    assets stay. *)
Theorem stop_completes (w : World) (a : string) :
  (states (mm w) !! a = None → stop a w = (Returned, w)) ∧
  (∀ state, states (mm w) !! a = Some state →
     ∃ w1, stop a w = (Awaiting, w1) ∧
       (∃ state1, states (mm w1) !! a = Some state1 ∧ isRunning state1 = false) ∧
       (∀ orderBook, generateSignals (mm w1) a orderBook = []) ∧
       refreshTimers (mm w1) !! a = None ∧
       (∀ timer, refreshTimers (mm w) !! a = Some timer → intervals w1 !! timer = None) ∧
       ws w1 = ws w ∧
       ∃ w2, resume (length (suspended w)) w1 = Some w2 ∧
         states (mm w2) !! a = None ∧
         (∀ b, b ≠ a → states (mm w2) !! b = states (mm w) !! b) ∧
         bookCallbacks (ws w2) a = [] ∧ tickCallbacks (ws w2) a = [] ∧
         (∀ b, b ≠ a → bookCallbacks (ws w2) b = bookCallbacks (ws w) b ∧
                       tickCallbacks (ws w2) b = tickCallbacks (ws w) b) ∧
         suspended w2 = suspended w).
Proof.
  split; [apply stop_unmanaged|]. intros state E.
  destruct (stop_managed a state w E) as (w1 & S & Es & Et & Ei & En & Ew & Ec & Esu).
  exists w1. split; [exact S|].
  assert (states (mm w1) !! a = Some (clear_orders (not_running state))) as E1.
  { rewrite Es, !lookup_alter_eq, E. done. }
  split; [by eexists|].
  split; [intros orderBook; apply generateSignals_stopped; rewrite E1; by intros ? [= <-]|].
  split; [rewrite Et; apply lookup_delete_eq|].
  split; [intros timer Ht; rewrite Ei, Ht; apply lookup_delete_eq|].
  split; [exact Ew|].
  eexists. split; [by apply (resume_last (StopAfterCancel a))|].
  unfold stop_rest. cbn [mm ws states with_mm with_ws with_states with_suspended suspended].
  split; [apply lookup_delete_eq|].
  split.
  { intros b Hne. rewrite lookup_delete_ne by done. rewrite Es.
    by rewrite !lookup_alter_ne. }
  unfold bookCallbacks, tickCallbacks. rewrite Ew.
  split; [by rewrite (proj1 (unsubscribe_lookup [a] (ws w) a)), decide_True
            by apply list_elem_of_here|].
  split; [by rewrite (proj2 (unsubscribe_lookup [a] (ws w) a)), decide_True
            by apply list_elem_of_here|].
  split; [|done]. intros b Hne.
  rewrite (proj1 (unsubscribe_lookup [a] (ws w) b)), (proj2 (unsubscribe_lookup [a] (ws w) b)).
  by rewrite !decide_False by (by intros ->%list_elem_of_singleton).
Qed.

(** X22. When the connection cannot be made, the asset stays behind.  A
    [start] with credentials for a new asset, on a client that is neither
    connected nor connecting and whose socket cannot be created, is
    rejected; but the state of the asset has been stored, running, with no
    subscription and no timer, and no call was left waiting.  Every later
    [start] for the asset finds it managed and returns at once, so the
    asset gets its subscription and its timer only after a [stop]. *)
Theorem failed_connect_leaves_the_state (w : World) (a marketId : string) :
  states (mm w) !! a = None →
  WS.isConnected (ws w) = false → WS.isConnecting (ws w) = false →
  ∃ w1, start true false a marketId w = (Failed, w1) ∧
    states (mm w1) !! a = Some (new_state a marketId) ∧
    subscriptions w1 a = subscriptions w a ∧
    refreshTimers (mm w1) = refreshTimers (mm w) ∧ intervals w1 = intervals w ∧
    suspended w1 = suspended w ∧
    WS.sockets (ws w1) = WS.sockets (ws w) ∧ WS.isConnecting (ws w1) = false ∧
    (∀ ctor_ok' marketId', start true ctor_ok' a marketId' w1 = (Returned, w1)).
Proof.
  intros E C I.
  set (w0 := with_mm (with_states (<[a := new_state a marketId]> (states (mm w))) (mm w)) w).
  exists (with_ws (WS.connect false (ws w)) w0).
  split; [rewrite (start_fresh false a marketId w E); cbv zeta; by rewrite C, I|].
  split; [apply lookup_insert_eq|].
  split; [unfold subscriptions, bookCallbacks; cbn [ws with_ws];
          by rewrite (proj1 (connect_registry false (ws w)))|].
  split; [done|]. split; [done|]. split; [done|].
  assert (WS.connect false (ws w) =
          WS.with_isConnecting false
            (WS.with_shouldReconnect true (WS.with_isConnecting true (ws w)))) as ->
    by (unfold WS.connect; by rewrite C, I).
  split; [done|]. split; [done|].
  intros ok' m'. apply start_managed. cbn [mm states with_ws with_mm with_states w0].
  rewrite lookup_insert_eq. by eexists.
Qed.

End EngineOrders.

Section EngineRaces.

Import MM.

Variable env : WS.Env.

Lemma run_step (w w1 : World) (e : Event) (events : list Event) :
  step env w e = Some w1 → run env w (e :: events) = run env w1 events.
Proof. intros H. cbn [run]. by rewrite H. Qed.

(** X23. [stop] does not cancel a [start] that is waiting for the
    connection.  When [stop] is called for an asset whose [start] still
    waits, [stop] runs to its end and drops the state; when the [start]
    then goes on, it subscribes and starts the refresh timer all the same.
    The asset is left with one callback, that of the engine, and a live
    timer, but without a state, so a further [stop] for it returns at once
    and clears neither. *)
Theorem stop_during_start (w : World) (a marketId : string) :
  states (mm w) !! a = None → WS.isConnected (ws w) = false →
  ∃ w', run env w [Start true true a marketId; Stop a;
                   Resume (S (length (suspended w))); Resume (length (suspended w))]
          = Some w' ∧
    states (mm w') !! a = None ∧
    refreshTimers (mm w') !! a = Some (nextTimer w) ∧
    intervals w' !! nextTimer w = Some a ∧
    subscriptions w' a = [WS.MarketMakerUpdate a] ∧
    stop a w' = (Returned, w').
Proof.
  intros E C.
  set (w0 := with_mm (with_states (<[a := new_state a marketId]> (states (mm w))) (mm w)) w).
  set (w1 := with_suspended (suspended w ++ [StartAfterConnect a])
               (with_ws (WS.connect true (ws w)) w0)).
  assert (step env w (Start true true a marketId) = Some w1) as S1.
  { cbn [step]. rewrite (start_fresh true a marketId w E). cbv zeta. rewrite C.
    by rewrite andb_false_r. }
  assert (states (mm w1) !! a = Some (new_state a marketId)) as E1 by apply lookup_insert_eq.
  destruct (stop_managed a _ w1 E1) as (w2 & S2 & Es & Et & Ei & En & Ew & Ec & Esu).
  assert (refreshTimers (mm w) !! a = refreshTimers (mm w1) !! a) as Hrt by done.
  set (w3 := stop_rest a (with_suspended (suspended w ++ [StartAfterConnect a]) w2)).
  assert (resume (S (length (suspended w))) w2 = Some w3) as S3.
  { replace (S (length (suspended w)))
      with (length (suspended w ++ [StartAfterConnect a]))
      by (rewrite length_app; cbn; lia).
    by apply (resume_last (StopAfterCancel a)). }
  set (w4 := start_rest a (with_suspended (suspended w) w3)).
  assert (resume (length (suspended w)) w3 = Some w4) as S4.
  { by apply (resume_last (StartAfterConnect a)). }
  exists w4. split.
  { rewrite (run_step w w1) by exact S1.
    rewrite (run_step w1 w2) by (cbn [step]; by rewrite S2).
    rewrite (run_step w2 w3) by exact S3.
    rewrite (run_step w3 w4) by exact S4. reflexivity. }
  destruct (start_rest_effect a (with_suspended (suspended w) w3)) as (Hs & Hr & Hi & Hst).
  fold w4 in Hs, Hr, Hi, Hst.
  assert (states (mm w4) !! a = None) as N4.
  { rewrite Hst. cbn. apply lookup_delete_eq. }
  split; [exact N4|].
  split; [rewrite Hr; cbn [nextTimer with_suspended w3 stop_rest with_mm with_ws];
          rewrite En; apply lookup_insert_eq|].
  split; [rewrite Hi; cbn [nextTimer with_suspended w3 stop_rest with_mm with_ws];
          rewrite En; apply lookup_insert_eq|].
  split; [|by apply stop_unmanaged].
  rewrite Hs. unfold subscriptions, bookCallbacks.
  cbn [ws with_suspended w3 stop_rest with_mm with_ws].
  by rewrite (proj1 (unsubscribe_lookup [a] (ws w2) a)), decide_True
    by apply list_elem_of_here.
Qed.

Lemma stop_fields (a : string) (w : World) :
  let w' := (stop a w).2 in
  ws w' = ws w ∧
  (∀ b, is_Some (states (mm w') !! b) ↔ is_Some (states (mm w) !! b)) ∧
  (∀ b, (∀ state, states (mm w) !! b = Some state → isRunning state = false) →
        ∀ state, states (mm w') !! b = Some state → isRunning state = false) ∧
  (∀ state, states (mm w') !! a = Some state → isRunning state = false) ∧
  (∀ b, refreshTimers (mm w) !! b = None → refreshTimers (mm w') !! b = None) ∧
  (is_Some (states (mm w) !! a) → refreshTimers (mm w') !! a = None) ∧
  length (suspended w') =
    (length (suspended w) + match states (mm w) !! a with Some _ => 1 | None => 0 end)%nat.
Proof.
  cbv zeta. destruct (states (mm w) !! a) as [st|] eqn:E.
  - destruct (stop_managed a st w E) as (w1 & -> & Es & Et & Ei & En & Ew & Ec & Esu).
    cbn [snd]. rewrite alter_alter_eq in Es.
    split; [exact Ew|]. split; [|split; [|split; [|split; [|split]]]].
    + intros b. rewrite Es, lookup_alter.
      destruct (decide (a = b)) as [->|]; [|done]. apply fmap_is_Some.
    + intros b H state. rewrite Es, lookup_alter.
      destruct (decide (a = b)) as [->|]; [|apply H]. rewrite E. by intros [= <-].
    + intros state. rewrite Es, lookup_alter_eq, E. by intros [= <-].
    + intros b H. rewrite Et, lookup_delete. by destruct (decide (a = b)).
    + intros _. rewrite Et. apply lookup_delete_eq.
    + rewrite Esu, length_app. done.
  - rewrite stop_unmanaged by done. cbn [snd]. rewrite E.
    split; [done|]. split; [done|]. split; [done|].
    split; [done|]. split; [done|].
    split; [by intros [? [=]] | lia].
Qed.

Lemma stopAll_fold (ids : list string) (w : World) :
  let w' := fold_left (λ w id, (stop id w).2) ids w in
  ws w' = ws w ∧
  (∀ b, is_Some (states (mm w') !! b) ↔ is_Some (states (mm w) !! b)) ∧
  (∀ b, b ∈ ids ∨ (∀ state, states (mm w) !! b = Some state → isRunning state = false) →
        ∀ state, states (mm w') !! b = Some state → isRunning state = false) ∧
  (∀ b, (b ∈ ids ∧ is_Some (states (mm w) !! b)) ∨ refreshTimers (mm w) !! b = None →
        refreshTimers (mm w') !! b = None) ∧
  ((∀ b, b ∈ ids → is_Some (states (mm w) !! b)) →
   length (suspended w') = (length (suspended w) + length ids)%nat).
Proof.
  revert w. induction ids as [|a ids IH]; intros w; cbn [fold_left].
  - split; [done|]. split; [done|]. split.
    { intros b [?%not_elem_of_nil|H]; [done|exact H]. }
    split; [intros b [[?%not_elem_of_nil _]|H]; [done|exact H]|].
    intros _. cbn. lia.
  - destruct (IH (stop a w).2) as (I1 & I2 & I3 & I4 & I5).
    destruct (stop_fields a w) as (F1 & F2 & F3 & F4 & F5 & F6 & F7).
    cbv zeta in *.
    split; [by rewrite I1|]. split; [intros b; by rewrite I2|]. split; [|split].
    + intros b H. apply I3. destruct H as [[->|Hin]%elem_of_cons|H].
      * right. exact F4.
      * by left.
      * right. by apply F3.
    + intros b H. apply I4. destruct H as [[[->|Hin]%elem_of_cons Hs]|H].
      * right. by apply F6.
      * left. split; [done|]. by apply F2.
      * right. by apply F5.
    + intros H. rewrite I5.
      * rewrite F7. destruct (H a (list_elem_of_here _ _)) as [st ->]. cbn. lia.
      * intros b Hin. apply F2, H. by apply list_elem_of_further.
Qed.

(** X24. [stopAll] stops every asset at once.  Before any of the [stop]
    calls it starts goes on, every tracked asset has its running flag
    cleared, so no asset generates a signal any more, and the refresh timer
    handle of every tracked asset is forgotten; the states themselves are
    still there, one [stop] call waits for each of them, and the shared
    client is untouched. *)
Theorem stopAll_stops_every_asset (w : World) :
  let w' := stopAll w in
  (∀ a, is_Some (states (mm w') !! a) ↔ is_Some (states (mm w) !! a)) ∧
  (∀ a state, states (mm w') !! a = Some state → isRunning state = false) ∧
  (∀ a orderBook, generateSignals (mm w') a orderBook = []) ∧
  (∀ a, is_Some (states (mm w) !! a) → refreshTimers (mm w') !! a = None) ∧
  length (suspended w') = (length (suspended w) + size (states (mm w)))%nat ∧
  ws w' = ws w.
Proof.
  cbv zeta. unfold stopAll.
  destruct (stopAll_fold (WS.keys (states (mm w))) w) as (I1 & I2 & I3 & I4 & I5).
  cbv zeta in *.
  assert (∀ a state,
            states (mm (fold_left (λ w id, (stop id w).2) (WS.keys (states (mm w))) w)) !! a
              = Some state → isRunning state = false) as Hstop.
  { intros a state Hs. apply (I3 a); [|exact Hs]. left.
    apply keys_spec, I2. by eexists. }
  split; [exact I2|]. split; [exact Hstop|].
  split; [intros a orderBook; apply generateSignals_stopped; apply Hstop|].
  split; [intros a Hs; apply I4; left; split; [by apply keys_spec | done]|].
  split; [|exact I1].
  rewrite I5 by (intros b; apply keys_spec).
  unfold WS.keys. by rewrite length_fmap, length_map_to_list.
Qed.

End EngineRaces.

Section EngineInstances.

Import MM.

Lemma refresh_timers_are_live_witness :
  let events := [Start true true "a" "m"; Client (WS.Open 0); Resume 0;
                 Start true true "b" "m"] in
  let w := default (init no_config) (run sample_env (init no_config) events) in
  intervals w !! 0%nat = Some "a" ∧ intervals w !! 1%nat = Some "b".
Proof.
  cbv zeta.
  set (events := [Start true true "a" "m"; Client (WS.Open 0); Resume 0;
                  Start true true "b" "m"]).
  set (w := default (init no_config) (run sample_env (init no_config) events)).
  assert (reachable sample_env no_config w) as R by (exists events; vm_compute; reflexivity).
  destruct (refresh_timers_are_live sample_env no_config w R) as (L & _).
  split; apply L; vm_compute; reflexivity.
Defined.

Lemma orders_are_never_placed_witness :
  let events := [Start true true "a" "m"; Client (WS.Open 0); Resume 0] in
  let w := default (init no_config) (run sample_env (init no_config) events) in
  step sample_env w (IntervalTick 0) = Some w.
Proof.
  cbv zeta.
  set (events := [Start true true "a" "m"; Client (WS.Open 0); Resume 0]).
  set (w := default (init no_config) (run sample_env (init no_config) events)).
  assert (reachable sample_env no_config w) as R by (exists events; vm_compute; reflexivity).
  destruct (orders_are_never_placed sample_env no_config w R) as (_ & _ & H & _).
  cbn [step].
  assert (intervals w !! 0%nat = Some "a") as -> by (vm_compute; reflexivity).
  by rewrite H.
Defined.

Lemma stop_completes_witness :
  let events := [Start true true "a" "m"; Client (WS.Open 0); Resume 0] in
  let w := default (init no_config) (run sample_env (init no_config) events) in
  ∃ w1 w2, stop "a" w = (Awaiting, w1) ∧
    generateSignals (mm w1) "a" (one_level_book "0.40" "0.44") = [] ∧
    resume 0 w1 = Some w2 ∧
    states (mm w2) !! "a" = None ∧ bookCallbacks (ws w2) "a" = [].
Proof.
  cbv zeta.
  set (events := [Start true true "a" "m"; Client (WS.Open 0); Resume 0]).
  set (w := default (init no_config) (run sample_env (init no_config) events)).
  assert (states (mm w) !! "a" = Some (new_state "a" "m")) as E by (vm_compute; reflexivity).
  destruct (proj2 (stop_completes w "a") _ E)
    as (w1 & S & _ & G & _ & _ & _ & w2 & Rs & N & _ & B & _).
  exists w1, w2. split; [exact S|]. split; [apply G|].
  split; [|by split]. rewrite <- Rs. f_equal.
Defined.

Lemma failed_connect_leaves_the_state_witness :
  ∃ w1, start true false "a" "m" (init no_config) = (Failed, w1) ∧
        states (mm w1) !! "a" = Some (new_state "a" "m") ∧
        subscriptions w1 "a" = [] ∧
        start true true "a" "m" w1 = (Returned, w1).
Proof.
  destruct (failed_connect_leaves_the_state (init no_config) "a" "m" eq_refl eq_refl eq_refl)
    as (w1 & S & E & Hs & _ & _ & _ & _ & _ & H).
  exists w1. split; [exact S|]. split; [exact E|]. split; [by rewrite Hs | apply H].
Defined.

Lemma stop_during_start_witness :
  ∃ w', run sample_env (init no_config)
          [Start true true "a" "m"; Stop "a"; Resume 1; Resume 0] = Some w' ∧
        states (mm w') !! "a" = None ∧
        refreshTimers (mm w') !! "a" = Some 0%nat ∧
        intervals w' !! 0%nat = Some "a" ∧
        subscriptions w' "a" = [WS.MarketMakerUpdate "a"] ∧
        stop "a" w' = (Returned, w').
Proof.
  exact (stop_during_start sample_env (init no_config) "a" "m" eq_refl eq_refl).
Defined.

Lemma stopAll_stops_every_asset_witness :
  let events := [Start true true "a" "m"; Client (WS.Open 0); Resume 0;
                 Start true true "b" "m"] in
  let w := default (init no_config) (run sample_env (init no_config) events) in
  refreshTimers (mm (stopAll w)) !! "a" = None ∧
  refreshTimers (mm (stopAll w)) !! "b" = None ∧
  generateSignals (mm (stopAll w)) "a" (one_level_book "0.40" "0.44") = [] ∧
  length (suspended (stopAll w)) = 2%nat.
Proof.
  cbv zeta.
  set (events := [Start true true "a" "m"; Client (WS.Open 0); Resume 0;
                  Start true true "b" "m"]).
  set (w := default (init no_config) (run sample_env (init no_config) events)).
  destruct (stopAll_stops_every_asset w) as (_ & _ & G & T & L & _).
  split; [apply T; vm_compute; by eexists|].
  split; [apply T; vm_compute; by eexists|].
  split; [apply G|]. rewrite L. vm_compute. reflexivity.
Defined.

End EngineInstances.

(* ===================================================================== *)
(** * The portfolio of the status route *)
(* ===================================================================== *)

Section Portfolio.

Import Status.

Lemma add_zero_spec (x : float) :
  Prim2SF (x + 0)%float =
    match Prim2SF x with
    | S754_zero _ => S754_zero false
    | f => f
    end.
Proof.
  rewrite add_spec. change (Prim2SF 0) with (S754_zero false).
  by destruct (Prim2SF x) as [[]|[]| |s m e].
Qed.

Lemma add_zero_eq (x : float) : is_nan x = false → JS.strict_eq (x + 0)%float x = true.
Proof.
  intros H%is_nan_false. unfold JS.strict_eq. rewrite FloatAxioms.eqb_spec, add_zero_spec.
  unfold SFeqb. rewrite SFcompare_rank.
  - assert (rank match Prim2SF x with S754_zero _ => S754_zero false | f => f end
            = rank (Prim2SF x)) as -> by (by destruct (Prim2SF x) as [[]|[]| |s m e]).
    by rewrite lex_compare_refl.
  - unfold not_nan in *. by destruct (Prim2SF x).
  - exact H.
Qed.

Lemma add_zero_nan (x : float) : is_nan x = true → is_nan (x + 0)%float = true.
Proof. intros H%is_nan_eq. subst. by rewrite add_nan_l, nan_is_nan. Qed.

(** X25. The portfolio of the status route.  Without credentials, or
    when the balance cannot be fetched, all three values are zero.
    Otherwise the cash balance is the balance string read as a number and
    divided by a million, the value of the positions is zero, and the total
    equals the cash balance.  A balance string that is not a number is not
    caught: it makes the cash balance and the total NaN. *)
Theorem portfolio_total_is_cash (hasCredentials : bool) (balance : option string) :
  let p := getPortfolioData hasCredentials balance in
  positionsValue p = 0%float ∧
  (hasCredentials = false ∨ balance = None → p = empty_portfolio) ∧
  (∀ b, hasCredentials = true → balance = Some b →
        cashBalance p = (JS.parseFloat b / 1000000)%float) ∧
  (is_nan (cashBalance p) = false → JS.strict_eq (totalValue p) (cashBalance p) = true) ∧
  (∀ b, hasCredentials = true → balance = Some b → is_nan (JS.parseFloat b) = true →
        is_nan (cashBalance p) = true ∧ is_nan (totalValue p) = true).
Proof.
  cbv zeta. unfold getPortfolioData.
  destruct hasCredentials; cbn [negb]; [destruct balance as [b|]|].
  - cbn [positionsValue cashBalance totalValue].
    split; [done|]. split; [by intros [[=]|[=]]|]. split; [by intros ? _ [= <-]|].
    split; [apply add_zero_eq|].
    intros ? _ [= <-] H%is_nan_eq. rewrite H, div_nan_l, add_nan_l. by rewrite nan_is_nan.
  - split; [done|]. split; [done|]. split; [by intros ? _ [=]|].
    split; [done | by intros ? _ [=]].
  - split; [done|]. split; [done|]. split; [by intros ? [=]|].
    split; [done | by intros ? [=]].
Qed.

Lemma portfolio_total_is_cash_witness :
  totalValue (getPortfolioData true (Some "12500000")) = 12.5%float ∧
  JS.strict_eq (totalValue (getPortfolioData true (Some "12500000")))
               (cashBalance (getPortfolioData true (Some "12500000"))) = true ∧
  is_nan (totalValue (getPortfolioData true (Some "n/a"))) = true ∧
  getPortfolioData false (Some "12500000") = empty_portfolio.
Proof.
  destruct (portfolio_total_is_cash true (Some "12500000")) as (_ & _ & _ & H & _).
  destruct (portfolio_total_is_cash true (Some "n/a")) as (_ & _ & _ & _ & N).
  destruct (portfolio_total_is_cash false (Some "12500000")) as (_ & E & _).
  split; [vm_compute; reflexivity|]. split; [apply H; vm_compute; reflexivity|].
  split; [apply (N "n/a" eq_refl eq_refl); vm_compute; reflexivity|].
  apply E. by left.
Defined.

End Portfolio.

Section DetectorCallsProofs.

Import Arbitrage Detector.

Variable env : WS.Env.

Lemma check_profitable (config : ArbitrageConfig.t) (market : MonitoredMarket)
    (opp : ArbitrageOpportunity.t) :
  checkYesNoArbitrage config market = Some opp →
  JS.gt (ArbitrageOpportunity.spread opp) (ArbitrageConfig.minSpread config) = true ∧
  JS.gt (ArbitrageOpportunity.expectedProfit opp) 0 = true.
Proof.
  intros H. unfold checkYesNoArbitrage in H.
  destruct (JS.strict_eq (yesPrice market) 0); [done|].
  destruct (JS.strict_eq (noPrice market) 0); [done|]. cbn [orb] in H.
  match type of H with (if ?b then _ else _) = _ => destruct b eqn:G1 end; [|done].
  match type of H with (if ?b then _ else _) = _ => destruct b eqn:G2 end; [|done].
  injection H as <-. by split.
Qed.

Lemma notification_genuine (d : t) (market : MonitoredMarket) :
  yesAssetId market = "" → noAssetId market = "" →
  (length (notification d market) ≤ 1)%nat ∧
  ∀ cb opp, (cb, opp) ∈ notification d market → genuine (config d) opp.
Proof.
  intros Hy Hn. unfold notification.
  destruct (isRunning d); [|split; [cbn; lia | by intros ? ? ?%not_elem_of_nil]].
  destruct (onOpportunity d); [|split; [cbn; lia | by intros ? ? ?%not_elem_of_nil]].
  destruct (checkYesNoArbitrage (config d) market) as [found|] eqn:C;
    [|split; [cbn; lia | by intros ? ? ?%not_elem_of_nil]].
  split; [cbn; lia|]. intros cb opp [= -> ->]%list_elem_of_singleton. by exists market.
Qed.

(** The calls of one step: none unless the step brings a price, then at
    most one, of a genuine opportunity; the configuration stays. *)
Lemma step_notified (w w' : World) (e : Event) :
  step env w e = Some w' → well_kept w →
  config (detector w') = config (detector w) ∧
  ∃ calls, notified w' = notified w ++ calls ∧
    (length calls ≤ if is_price_event e then 1 else 0)%nat ∧
    ∀ cb opp, (cb, opp) ∈ calls → genuine (config (detector w)) opp.
Proof.
  intros S (U & _ & _).
  assert (∀ w1 : World, notified w1 = notified w →
            ∃ calls, notified w1 = notified w ++ calls ∧ (length calls ≤ 0)%nat ∧
              ∀ cb opp, (cb, opp) ∈ calls → genuine (config (detector w)) opp) as Same.
  { intros w1 ->. exists []. rewrite app_nil_r. split; [done|]. split; [cbn; lia|].
    by intros ? ? ?%not_elem_of_nil. }
  destruct e as [g ok ids| |cb|id y n now|a p now| |e]; cbn [step] in S; cbn [is_price_event].
  - injection S as <-. split.
    + destruct (start_detector g ok ids w) as [-> | [(_ & -> & _) | (_ & _ & ->)]]; done.
    + apply Same. unfold start. destruct (isRunning (detector w)); [done|].
      destruct g; cbn [negb]; [|done]. destruct (negb (WS.isConnected _)); cbn.
      * by destruct (_ && _).
      * unfold start_rest. by destruct (Nat.ltb _ _).
  - injection S as <-. split; [by rewrite stop_detector|]. apply Same.
    unfold stop. by destruct (Nat.ltb _ _).
  - injection S as <-. split; [done|]. by apply Same.
  - injection S as <-. unfold updatePrices.
    destruct (map_get id (monitoredMarkets (detector w))) as [market|] eqn:G.
    + rewrite checkAndNotify_spec. split; [done|].
      destruct (U id market (map_get_elem _ _ _ G)) as (_ & Hy & Hn).
      match goal with |- context [notification ?d ?m] =>
        pose proof (notification_genuine d m Hy Hn) as [L Gn];
        exists (notification d m) end.
      split; [reflexivity|]. split; [exact L | exact Gn].
    + split; [done|]. destruct (Same w eq_refl) as (calls & E & L & H).
      exists calls. split; [done|]. split; [lia | done].
  - injection S as <-. unfold handlePriceUpdate.
    pose proof (update_first_spec a p now (monitoredMarkets (detector w))) as F.
    destruct (update_first a p now _) as [[m' changed]|].
    + destruct F as (pre & k & market & post & Em & _ & _ & -> & ->).
      rewrite checkAndNotify_spec. split; [done|].
      destruct (U k market) as (_ & Hy & Hn).
      { rewrite Em. apply elem_of_app. right. apply list_elem_of_here. }
      assert (yesAssetId (repriced a p now market) = "" ∧
              noAssetId (repriced a p now market) = "") as [Hy' Hn']
        by (unfold repriced; by destruct (String.eqb _ _)).
      match goal with |- context [notification ?d ?m] =>
        pose proof (notification_genuine d m Hy' Hn') as [L Gn];
        exists (notification d m) end.
      split; [reflexivity|]. split; [exact L | exact Gn].
    + split; [done|]. destruct (Same w eq_refl) as (calls & E & L & H).
      exists calls. split; [done|]. split; [lia | done].
  - unfold resume in S. destruct (pending w); [discriminate|]. injection S as <-.
    split; [by rewrite start_rest_detector|]. apply Same.
    unfold start_rest. by destruct (Nat.ltb _ _).
  - destruct (WS.step env (ws w) e); [|discriminate]. injection S as <-.
    split; [done|]. by apply Same.
Qed.

Lemma run_notified (events : list Event) (w w' : World) :
  run env w events = Some w' → well_kept w →
  config (detector w') = config (detector w) ∧
  ∃ calls, notified w' = notified w ++ calls ∧
    (length calls ≤ length (List.filter is_price_event events))%nat ∧
    ∀ cb opp, (cb, opp) ∈ calls → genuine (config (detector w)) opp.
Proof.
  revert w. induction events as [|e events IH]; intros w; cbn [run].
  - intros [= <-] _. split; [done|]. exists []. rewrite app_nil_r.
    split; [done|]. split; [cbn; lia|]. by intros ? ? ?%not_elem_of_nil.
  - destruct (step env w e) as [w1|] eqn:E; [|discriminate]. cbn [mbind option_bind].
    intros R K.
    destruct (step_notified w w1 e E K) as (C1 & c1 & N1 & L1 & G1).
    destruct (IH w1 R (well_kept_step env w w1 e E K)) as (C2 & c2 & N2 & L2 & G2).
    split; [congruence|]. exists (c1 ++ c2). split; [by rewrite N2, N1, app_assoc|].
    split.
    + rewrite length_app. cbn [List.filter]. destruct (is_price_event e); cbn [length]; lia.
    + intros cb opp [Hin|Hin]%elem_of_app; [by apply (G1 cb)|].
      rewrite <- C1. by apply (G2 cb).
Qed.

(** X26. The opportunity callback is only called for genuine
    opportunities.  Over any sequence of events of a new detector the
    configuration stays what the constructor made it; the callback is called
    at most once for each price that comes in ([updatePrices] or a price
    update of the stream) and never otherwise; and every opportunity it
    was called with is one that [checkYesNoArbitrage] returns: its spread
    is above [minSpread] and its expected profit above zero. *)
Theorem callback_gets_genuine_opportunities (c : PartialConfig) (events : list Event)
    (w : World) :
  run env (init c) events = Some w →
  config (detector w) = config (create c) ∧
  (length (notified w) ≤ length (List.filter is_price_event events))%nat ∧
  ∀ cb opp, (cb, opp) ∈ notified w →
    genuine (config (create c)) opp ∧
    JS.gt (ArbitrageOpportunity.spread opp) (ArbitrageConfig.minSpread (config (create c)))
      = true ∧
    JS.gt (ArbitrageOpportunity.expectedProfit opp) 0 = true.
Proof.
  intros R.
  destruct (run_notified events (init c) w R) as (C & calls & N & L & G).
  { split; [by intros ? ? ?%not_elem_of_nil|]. split; [apply NoDup_nil_2 | done]. }
  cbn [notified init app] in N. rewrite N.
  split; [exact C|]. split; [exact L|].
  intros cb opp Hin. pose proof (G cb opp Hin) as Hg. split; [exact Hg|].
  destruct Hg as (market & Hc & _). by apply (check_profitable _ market).
Qed.

End DetectorCallsProofs.

Lemma callback_gets_genuine_opportunities_witness :
  let events := [Detector.OnOpportunityDetected 7%nat; Detector.Start true true ["m"];
                 Detector.UpdatePrices "m" 0.48%float 0.47%float 1%float;
                 Detector.UpdatePrices "m" 0.6%float 0.47%float 2%float] in
  let w := default (Detector.init Detector.no_config)
             (Detector.run sample_env (Detector.init Detector.no_config) events) in
  length (Detector.notified w) = 1%nat ∧
  ∀ cb opp, (cb, opp) ∈ Detector.notified w →
    JS.gt (ArbitrageOpportunity.spread opp) 0.01%float = true.
Proof.
  cbv zeta.
  set (events := [Detector.OnOpportunityDetected 7%nat; Detector.Start true true ["m"];
                  Detector.UpdatePrices "m" 0.48%float 0.47%float 1%float;
                  Detector.UpdatePrices "m" 0.6%float 0.47%float 2%float]).
  set (w := default (Detector.init Detector.no_config)
              (Detector.run sample_env (Detector.init Detector.no_config) events)).
  assert (Detector.run sample_env (Detector.init Detector.no_config) events = Some w) as R
    by (vm_compute; reflexivity).
  destruct (callback_gets_genuine_opportunities sample_env Detector.no_config events w R)
    as (_ & _ & H).
  split; [vm_compute; reflexivity|].
  intros cb opp Hin. exact (proj1 (proj2 (H cb opp Hin))).
Defined.
